(** * MigrateModusApi: retrieval engine and migration workflow

    A shallow embedding of [core/vector_retrieval.py] and
    [workflow/langgraph_workflow.py] together with the properties of the
    section-aware retrieval, the response decoding and the stage chain.

    Python [str] values are modelled by [string]; the character classes
    below cover the ASCII range (a byte above 127 is neither a space, a
    letter nor a line boundary). *)

From Stdlib Require Import Ascii ZArith Lia Permutation.
From Stdlib Require String.
From stdpp Require Import base gmap strings list.

Set Warnings "-register-all".

(** ** Python string primitives *)
Module PyStr.

Definition nl : ascii := "010"%char.
Definition NL : string := String nl "".

Definition code (c : ascii) : nat := nat_of_ascii c.

Definition between (lo hi : nat) (c : ascii) : bool :=
  (lo <=? code c)%nat && (code c <=? hi)%nat.

(** [c in chars] *)
Fixpoint mem (c : ascii) (chars : string) : bool :=
  match chars with
  | EmptyString => false
  | String d rest => Ascii.eqb c d || mem c rest
  end.

(** [str.isspace] on one character: TAB, LF, VT, FF, CR, FS, GS, RS, US
    and the blank. *)
Definition is_space (c : ascii) : bool :=
  between 9 13 c || between 28 31 c || (code c =? 32)%nat.

Definition lower_char (c : ascii) : ascii :=
  if between 65 90 c then ascii_of_nat (code c + 32) else c.

Definition upper_char (c : ascii) : ascii :=
  if between 97 122 c then ascii_of_nat (code c - 32) else c.

Fixpoint map_chars (f : ascii -> ascii) (s : string) : string :=
  match s with
  | EmptyString => EmptyString
  | String c rest => String (f c) (map_chars f rest)
  end.

Definition lower : string -> string := map_chars lower_char.
Definition upper : string -> string := map_chars upper_char.

(** [s.startswith(p)]; on success the text after the prefix. *)
Fixpoint after_prefix (p s : string) : option string :=
  match p, s with
  | EmptyString, _ => Some s
  | String a p', String b s' =>
      if Ascii.eqb a b then after_prefix p' s' else None
  | String _ _, EmptyString => None
  end.

Definition startswith (p s : string) : bool :=
  match after_prefix p s with Some _ => true | None => false end.

(** [sub in s] *)
Fixpoint contains (sub s : string) : bool :=
  startswith sub s ||
  match s with
  | EmptyString => false
  | String _ rest => contains sub rest
  end.

(** [s.lstrip(chars)], [s.rstrip(chars)] and [s.strip(chars)] for a
    predicate on characters: the argument of [str.strip] is a set of
    characters, not a prefix. *)
Fixpoint lstrip_by (p : ascii -> bool) (s : string) : string :=
  match s with
  | EmptyString => EmptyString
  | String c rest => if p c then lstrip_by p rest else s
  end.

Fixpoint rstrip_by (p : ascii -> bool) (s : string) : string :=
  match s with
  | EmptyString => EmptyString
  | String c rest =>
      match rstrip_by p rest with
      | EmptyString => if p c then EmptyString else String c EmptyString
      | kept => String c kept
      end
  end.

Definition strip_by (p : ascii -> bool) (s : string) : string :=
  rstrip_by p (lstrip_by p s).

Definition strip_chars (chars : string) : string -> string :=
  strip_by (fun c => mem c chars).

Definition strip : string -> string := strip_by is_space.

(** [sep.join(parts)] *)
Fixpoint join (sep : string) (parts : list string) : string :=
  match parts with
  | [] => EmptyString
  | [p] => p
  | p :: rest => p +:+ sep +:+ join sep rest
  end.

(** [s.replace(old, new)] for a non-empty [old]: occurrences are
    replaced from the left and do not overlap; [skip] counts the
    characters of an occurrence still to be dropped. *)
Fixpoint replace_from (old new : string) (skip : nat) (s : string) : string :=
  match s with
  | EmptyString => EmptyString
  | String c rest =>
      match skip with
      | S k => replace_from old new k rest
      | O =>
          if startswith old s
          then new +:+ replace_from old new (String.length old - 1) rest
          else String c (replace_from old new 0 rest)
      end
  end.

Definition replace (old new s : string) : string :=
  match old with
  | EmptyString => s
  | _ => replace_from old new 0 s
  end.

(** [s.split(sep, 1)[0]] for a one-character separator: the text before
    the first separator, the whole string when there is none. *)
Fixpoint before_first (sep : ascii) (s : string) : string :=
  match s with
  | EmptyString => EmptyString
  | String c rest =>
      if Ascii.eqb c sep then EmptyString else String c (before_first sep rest)
  end.

(** Line boundaries of [str.splitlines] in the ASCII range. *)
Definition is_linebreak (c : ascii) : bool :=
  between 10 13 c || between 28 30 c.

(** [s.splitlines()]: [cur] is the line being read, in reverse; CR LF
    counts as one boundary and a final boundary opens no empty line. *)
Fixpoint splitlines_from (cur : string) (s : string) : list string :=
  match s with
  | EmptyString =>
      match cur with EmptyString => [] | _ => [String.rev cur] end
  | String c rest =>
      if is_linebreak c then
        String.rev cur ::
          match rest with
          | String d rest' =>
              if (code c =? 13)%nat && (code d =? 10)%nat
              then splitlines_from EmptyString rest'
              else splitlines_from EmptyString rest
          | EmptyString => []
          end
      else splitlines_from (String c cur) rest
  end.

Definition splitlines : string -> list string := splitlines_from EmptyString.

End PyStr.

(** ** JSON values and ordered dictionaries *)

(** The values [json.loads] produces.  Objects keep their insertion order,
    as Python dictionaries do; numbers are the integers. *)
Inductive json : Type :=
| JNull
| JBool (b : bool)
| JNum (z : Z)
| JStr (s : string)
| JList (items : list json)
| JObj (members : list (string * json)).

(** Python truth value of a JSON value ([if x], [not x]). *)
Definition truthy (j : json) : bool :=
  match j with
  | JNull => false
  | JBool b => b
  | JNum z => negb (z =? 0)%Z
  | JStr s => negb (String.eqb s "")
  | JList items => match items with [] => false | _ => true end
  | JObj members => match members with [] => false | _ => true end
  end.

(** An insertion-ordered dictionary with string keys. *)
Module PyDict.

Definition t (V : Type) : Type := list (string * V).

Section Ops.
Context {V : Type}.

(** [d.get(k)] *)
Fixpoint get (k : string) (d : t V) : option V :=
  match d with
  | [] => None
  | (k', v) :: rest => if String.eqb k k' then Some v else get k rest
  end.

(** [d.get(k, dflt)] *)
Definition get_default (k : string) (dflt : V) (d : t V) : V :=
  match get k d with Some v => v | None => dflt end.

(** [d[k] = v]: an existing key keeps its place. *)
Fixpoint set (k : string) (v : V) (d : t V) : t V :=
  match d with
  | [] => [(k, v)]
  | (k', v') :: rest =>
      if String.eqb k k' then (k', v) :: rest else (k', v') :: set k v rest
  end.

Definition keys (d : t V) : list string := map fst d.
Definition values (d : t V) : list V := map snd d.

(** [k in d] *)
Definition has (k : string) (d : t V) : bool :=
  match get k d with Some _ => true | None => false end.
End Ops.

End PyDict.

(** The outcome of a call that may raise. *)
Inductive result (A : Type) : Type :=
| Ok (a : A)
| Raise (exn : string).
Arguments Ok {A} a.
Arguments Raise {A} exn.

#[global] Instance result_ret : MRet result := fun A a => Ok a.

#[global] Instance result_bind : MBind result := fun A B k r =>
  match r with
  | Ok a => k a
  | Raise e => Raise e
  end.

(** ** The vector index *)

(** A chunk of the index: [page_content] and [metadata["source"]]
    (every chunk is built with a source by [chunk_content]). *)
Record Document : Type := mkDocument {
  page_content : string;
  source : string
}.

(** The FAISS store is a collaborator of the repository.  Its chunks are
    kept in insertion order and the embedding distance of a chunk to a
    query text is a number; a search returns the [k] nearest chunks by
    increasing distance, ties in insertion order. *)
Module VectorIndex.

Record t : Type := mk {
  docstore : list Document;
  distance : string -> Document -> nat
}.

Fixpoint insert_by (key : Document -> nat) (d : Document) (sorted : list Document)
  : list Document :=
  match sorted with
  | [] => [d]
  | e :: rest =>
      if (key d <=? key e)%nat then d :: e :: rest
      else e :: insert_by key d rest
  end.

Definition rank (key : Document -> nat) (docs : list Document) : list Document :=
  foldr (insert_by key) [] docs.

(** [db.similarity_search(query, k=k)] *)
Definition similarity_search (db : t) (query : string) (k : nat) : list Document :=
  take k (rank (distance db query) (docstore db)).

End VectorIndex.

(** ** [core/vector_retrieval.py] *)
Module Retrieval.

(** The migration state read from [data/workflow_state.json]: a
    dictionary whose key [Mapping_v1_v2], when present, maps a v1 file
    name to a v2 file name or to the text [Not Found]. *)
Record StateDict : Type := mkState {
  Mapping_v1_v2 : option (gmap string string);
  verification_rules : option json;
  migration_plan : option json
}.

(** Truth value of the dictionary: it has some key. *)
Definition state_truthy (st : StateDict) : bool :=
  match Mapping_v1_v2 st, verification_rules st, migration_plan st with
  | None, None, None => false
  | _, _, _ => true
  end.

(** [retrieve_context] *)
Definition retrieve_context (db : VectorIndex.t) (code : string) (k : nat) : string :=
  let results := VectorIndex.similarity_search db code k in
  PyStr.join (PyStr.NL +:+ PyStr.NL) (page_content <$> results).

(** *** The tag pattern [<(modus(?:-wc)?-[a-z-]+)] *)

(** The class [[a-z-]]. *)
Definition is_tag_char (c : ascii) : bool :=
  PyStr.between 97 122 c || (PyStr.code c =? 45)%nat.

(** The longest prefix made of [[a-z-]]. *)
Fixpoint tag_chars (s : string) : string :=
  match s with
  | EmptyString => EmptyString
  | String c rest => if is_tag_char c then String c (tag_chars rest) else EmptyString
  end.

(** [-[a-z-]+] at the head of [s]: the text matched. *)
Definition match_dash_name (s : string) : option string :=
  match PyStr.after_prefix "-" s with
  | Some rest =>
      match tag_chars rest with
      | EmptyString => None
      | name => Some ("-" +:+ name)
      end
  | None => None
  end.

(** [modus(?:-wc)?-[a-z-]+] at the head of [s]: the optional group is
    tried first, and given up when the rest does not match after it. *)
Definition match_tag (s : string) : option string :=
  match PyStr.after_prefix "modus" s with
  | None => None
  | Some rest =>
      let with_wc :=
        match PyStr.after_prefix "-wc" rest with
        | Some rest' => (fun m => "modus-wc" +:+ m) <$> match_dash_name rest'
        | None => None
        end in
      match with_wc with
      | Some m => Some m
      | None => (fun m => "modus" +:+ m) <$> match_dash_name rest
      end
  end.

(** [re.findall]: the scan resumes after a match; [skip] counts the
    characters of the last match still to be passed. *)
Fixpoint findall_from (skip : nat) (code : string) : list string :=
  match code with
  | EmptyString => []
  | String c rest =>
      match skip with
      | S k => findall_from k rest
      | O =>
          if Ascii.eqb c "<" then
            match match_tag rest with
            | Some m => m :: findall_from (String.length m) rest
            | None => findall_from 0 rest
            end
          else findall_from 0 rest
      end
  end.

Definition findall_tags (code : string) : list string := findall_from 0 code.

(** [list(dict.fromkeys(xs))]: the first occurrence of each, in order. *)
Definition fromkeys (xs : list string) : list string :=
  foldl (fun seen x => if bool_decide (x ∈ seen) then seen else seen ++ [x]) [] xs.

(** [xs[:k]] for a Python integer [k]. *)
Definition slice_to {A : Type} (k : Z) (xs : list A) : list A :=
  if (0 <=? k)%Z then take (Z.to_nat k) xs
  else take (length xs - Z.to_nat (- k)) xs.

Definition with_source (key : string) (docs : list Document) : list Document :=
  filter (fun doc => source doc = key) docs.

(** [section_hits[section].extend(texts)] *)
Definition extend (section : string) (texts : list string)
    (section_hits : PyDict.t (list string)) : PyDict.t (list string) :=
  PyDict.set section (PyDict.get_default section [] section_hits ++ texts) section_hits.

(** The V2 part of the loop body. *)
Definition v2_step (db : VectorIndex.t) (all_results : list Document) (k_pick : Z)
    (v2_file : option string) (section_hits : PyDict.t (list string))
  : PyDict.t (list string) :=
  match v2_file with
  | Some file =>
      if negb (String.eqb file "") && negb (String.eqb file "Not Found") then
        let source_key := "v2_component:" +:+ file in
        let exact_hits := with_source source_key all_results in
        let exact_hits :=
          match exact_hits with
          | [] => with_source source_key (VectorIndex.similarity_search db "" 1000)
          | _ => exact_hits
          end in
        match exact_hits with
        | [] => section_hits
        | _ => extend "v2_component" (page_content <$> slice_to k_pick exact_hits) section_hits
        end
      else section_hits
  | None => section_hits
  end.

(** The V1 part of the loop body. *)
Definition v1_step (all_results : list Document) (k_pick : Z) (v1_key : string)
    (section_hits : PyDict.t (list string)) : PyDict.t (list string) :=
  let v1_source := "v1_component:" +:+ v1_key in
  let v1_hits := with_source v1_source all_results in
  match v1_hits with
  | [] => section_hits
  | _ => extend "v1_component" (page_content <$> slice_to k_pick v1_hits) section_hits
  end.

(** One turn of [for tag in tags]. *)
Definition tag_step (db : VectorIndex.t) (all_results : list Document) (k_pick : Z)
    (mapping : gmap string string) (section_hits : PyDict.t (list string)) (tag : string)
  : PyDict.t (list string) :=
  let v1_key := tag +:+ ".tsx" in
  let v2_file := mapping !! v1_key in
  v1_step all_results k_pick v1_key (v2_step db all_results k_pick v2_file section_hits).

(** [state.get("Mapping_v1_v2", {}) if state else {}] *)
Definition mapping_of (state : option StateDict) : gmap string string :=
  match state with
  | Some st => if state_truthy st then default ∅ (Mapping_v1_v2 st) else ∅
  | None => ∅
  end.

(** The buckets after the loop over the tags. *)
Definition collect_hits (db : VectorIndex.t) (code : string) (k_search : nat) (k_pick : Z)
    (state : option StateDict) : PyDict.t (list string) :=
  let all_results := VectorIndex.similarity_search db code k_search in
  let raw_tags := findall_tags code in
  let tags := fromkeys raw_tags in
  let mapping := mapping_of state in
  let section_hits := [("v1_component", []); ("v2_component", [])] in
  foldl (tag_step db all_results k_pick mapping) section_hits tags.

(** [bucket or ["<no content>"]]: the bucket, or the placeholder when it
    is empty. *)
Definition or_placeholder (bucket : list string) : list string :=
  match bucket with
  | [] => ["<no content>"]
  | _ => bucket
  end.

(** One block of the answer. *)
Definition block (section_hits : PyDict.t (list string)) (section : string) : string :=
  let header := PyStr.replace "_" " " (PyStr.upper section) in
  let snippets := or_placeholder (PyDict.get_default section [] section_hits) in
  ("### " +:+ header +:+ PyStr.NL) +:+ PyStr.join (PyStr.NL +:+ PyStr.NL) snippets.

(** [retrieve_context_by_section] *)
Definition retrieve_context_by_section (db : VectorIndex.t) (code : string)
    (k_search : nat) (k_pick : Z) (state : option StateDict) : string :=
  let section_hits := collect_hits db code k_search k_pick state in
  let combined := block section_hits <$> ["v1_component"; "v2_component"] in
  PyStr.join (PyStr.NL +:+ PyStr.NL) combined.

(** The two buckets of the answer. *)
Definition v1_bucket (db : VectorIndex.t) (code : string) (k_search : nat) (k_pick : Z)
    (state : option StateDict) : list string :=
  PyDict.get_default "v1_component" [] (collect_hits db code k_search k_pick state).

Definition v2_bucket (db : VectorIndex.t) (code : string) (k_search : nat) (k_pick : Z)
    (state : option StateDict) : list string :=
  PyDict.get_default "v2_component" [] (collect_hits db code k_search k_pick state).

End Retrieval.

(** ** [workflow/migration_state.py] and [workflow/langgraph_workflow.py] *)
Module Workflow.

(** A row of the [context_units] table. *)
Record ContextUnit : Type := mkUnit {
  type : string;
  name : string;
  content : string
}.

(** [MigrationState].  Assignments to the fields are not validated, so a
    field set from decoded model output holds whatever JSON value was
    decoded. *)
Record MigrationState : Type := mkMigrationState {
  v1_components : PyDict.t json;
  v2_components : PyDict.t json;
  component_map : json;
  constraints : json;
  migration_plan : json;
  verification_rules : json;
  current_file : option string;
  modified_code : gmap string string;
  action : string
}.

(** [MigrationState()] *)
Definition initial_state : MigrationState :=
  mkMigrationState [] [] (JObj []) (JList []) (JList []) (JList []) None ∅ "PENDING".

(** The annotations of the class.  [StateGraph(MigrationState)] checks
    the values a node is given against them: a [dict] is a JSON object, a
    [Dict[str, dict]] an object of objects and a [List[dict]] a list of
    objects.  ([current_file], [modified_code] and [action] hold texts by
    their type here.) *)
Definition is_dict (value : json) : bool :=
  match value with
  | JObj _ => true
  | _ => false
  end.

Definition dict_of_dicts (value : json) : bool :=
  match value with
  | JObj members => forallb is_dict (PyDict.values members)
  | _ => false
  end.

Definition list_of_dicts (value : json) : bool :=
  match value with
  | JList items => forallb is_dict items
  | _ => false
  end.

Definition validates (state : MigrationState) : bool :=
  forallb is_dict (PyDict.values (v1_components state))
  && forallb is_dict (PyDict.values (v2_components state))
  && dict_of_dicts (component_map state)
  && list_of_dicts (constraints state)
  && list_of_dicts (migration_plan state)
  && list_of_dicts (verification_rules state).

Definition set_v1_components (v : PyDict.t json) (st : MigrationState) : MigrationState :=
  mkMigrationState v (v2_components st) (component_map st) (constraints st)
    (migration_plan st) (verification_rules st) (current_file st) (modified_code st)
    (action st).

Definition set_v2_components (v : PyDict.t json) (st : MigrationState) : MigrationState :=
  mkMigrationState (v1_components st) v (component_map st) (constraints st)
    (migration_plan st) (verification_rules st) (current_file st) (modified_code st)
    (action st).

Definition set_component_map (v : json) (st : MigrationState) : MigrationState :=
  mkMigrationState (v1_components st) (v2_components st) v (constraints st)
    (migration_plan st) (verification_rules st) (current_file st) (modified_code st)
    (action st).

Definition set_constraints (v : json) (st : MigrationState) : MigrationState :=
  mkMigrationState (v1_components st) (v2_components st) (component_map st) v
    (migration_plan st) (verification_rules st) (current_file st) (modified_code st)
    (action st).

Definition set_migration_plan (v : json) (st : MigrationState) : MigrationState :=
  mkMigrationState (v1_components st) (v2_components st) (component_map st)
    (constraints st) v (verification_rules st) (current_file st) (modified_code st)
    (action st).

Definition set_verification_rules (v : json) (st : MigrationState) : MigrationState :=
  mkMigrationState (v1_components st) (v2_components st) (component_map st)
    (constraints st) (migration_plan st) v (current_file st) (modified_code st)
    (action st).

Definition set_modified_code (v : gmap string string) (st : MigrationState) : MigrationState :=
  mkMigrationState (v1_components st) (v2_components st) (component_map st)
    (constraints st) (migration_plan st) (verification_rules st) (current_file st) v
    (action st).

(** The fields of the state record. *)
Inductive Field : Type :=
| F_v1_components
| F_v2_components
| F_component_map
| F_constraints
| F_migration_plan
| F_verification_rules
| F_current_file
| F_modified_code
| F_action.

(** Two states hold the same value in a field. *)
Definition same_on (f : Field) (s1 s2 : MigrationState) : Prop :=
  match f with
  | F_v1_components => v1_components s1 = v1_components s2
  | F_v2_components => v2_components s1 = v2_components s2
  | F_component_map => component_map s1 = component_map s2
  | F_constraints => constraints s1 = constraints s2
  | F_migration_plan => migration_plan s1 = migration_plan s2
  | F_verification_rules => verification_rules s1 = verification_rules s2
  | F_current_file => current_file s1 = current_file s2
  | F_modified_code => modified_code s1 = modified_code s2
  | F_action => action s1 = action s2
  end.

#[global] Instance Field_eq_dec : EqDecision Field.
Proof. solve_decision. Defined.

(** Cleaning of a model response before decoding:
    [response.strip("```json\n").strip("```").strip()]. *)
Definition clean_response (response : string) : string :=
  PyStr.strip (PyStr.strip_chars "```" (PyStr.strip_chars ("```json" +:+ PyStr.NL) response)).

(** *** [analyze_components] *)

(** [extract_props]: the property names are gathered in a set, whose
    listing order is unspecified. *)
Definition extract_line (props : gset string) (line : string) : gset string :=
  if PyStr.contains ":" line
     && (PyStr.contains "props" (PyStr.lower line)
         || PyStr.contains "property" (PyStr.lower line))
  then
    let prop := PyStr.strip (PyStr.before_first ":" line) in
    if negb (String.eqb prop "")
       && negb (bool_decide (PyStr.lower prop ∈ ["props"; "properties"]))
    then {[ prop ]} ∪ props
    else props
  else props.

Definition extract_props (doc : json) : result (list string) :=
  if negb (truthy doc) then Ok []
  else
    match doc with
    | JStr text => Ok (elements (foldl extract_line ∅ (PyStr.splitlines text)))
    | _ => Raise "AttributeError"
    end.

(** The loop body: [doc = comp.get("documentation", "")] and
    [comp["props"] = extract_props(doc)]. *)
Definition analyze_component (comp : json) : result json :=
  match comp with
  | JObj members =>
      let doc := PyDict.get_default "documentation" (JStr "") members in
      props ← extract_props doc;
      Ok (JObj (PyDict.set "props" (JList (JStr <$> props)) members))
  | _ => Raise "AttributeError"
  end.

Definition analyze_all (components : PyDict.t json) : result (PyDict.t json) :=
  mapM (fun item => comp ← analyze_component item.2; Ok (item.1, comp)) components.

Definition analyze_components (state : MigrationState) : result MigrationState :=
  v1 ← analyze_all (v1_components state);
  v2 ← analyze_all (v2_components state);
  Ok (set_v2_components v2 (set_v1_components v1 state)).

(** *** [migrate_code]: the fenced block of a response *)

(** The text before the first occurrence of [sub]. *)
Fixpoint before_sub (sub s : string) : option string :=
  if PyStr.startswith sub s then Some EmptyString
  else
    match s with
    | EmptyString => None
    | String c rest => String c <$> before_sub sub rest
    end.

(** The pattern [```(?:html)?\n(.*?)```] at the head of [s], with
    [re.DOTALL]: the group is the shortest text up to a closing fence. *)
Definition match_fence (s : string) : option string :=
  match PyStr.after_prefix "```" s with
  | None => None
  | Some rest =>
      let body_of (r : string) : option string :=
        match PyStr.after_prefix PyStr.NL r with
        | Some body => before_sub "```" body
        | None => None
        end in
      let with_html :=
        match PyStr.after_prefix "html" rest with
        | Some rest' => body_of rest'
        | None => None
        end in
      match with_html with
      | Some g => Some g
      | None => body_of rest
      end
  end.

(** [re.search]: the first position where the pattern matches. *)
Fixpoint search_fence (s : string) : option string :=
  match match_fence s with
  | Some g => Some g
  | None =>
      match s with
      | EmptyString => None
      | String _ rest => search_fence rest
      end
  end.

Section Collaborators.

(** [json.loads]: [None] when it raises. *)
Variable json_loads : string -> option json.
(** [cached_llm_invoke(prompt, max_tokens)] of the [cache] module. *)
Variable cached_llm_invoke : string -> option nat -> string.
(** The prompt template of a node filled with the values it quotes
    (each of them through [json.dumps]). *)
Variable render_prompt : string -> list json -> string.
(** The rows of the metadata store, in query order. *)
Variable session : list ContextUnit.

(** *** [load_context_units] *)
Definition load_unit (units : PyDict.t json) (unit : ContextUnit) : PyDict.t json :=
  if PyStr.startswith "[" (PyStr.strip (content unit))
     || PyStr.startswith "{" (PyStr.strip (content unit))
  then
    match json_loads (content unit) with
    | Some decoded => PyDict.set (name unit) decoded units
    | None => units
    end
  else PyDict.set (name unit) (JStr (content unit)) units.

Definition load_context_units (type_ : string) : PyDict.t json :=
  foldl load_unit [] (filter (fun unit => type unit = type_) session).

(** *** [load_context] *)
Definition attach_doc (docs : PyDict.t json) (item : string * json) : string * json :=
  let doc := PyDict.get_default (PyStr.replace ".tsx" "" item.1) (JStr "") docs in
  match item.2 with
  | JObj members => (item.1, JObj (PyDict.set "documentation" doc members))
  | comp => (item.1, comp)
  end.

Definition load_constraints (units : PyDict.t json) (state : MigrationState)
  : MigrationState :=
  match PyDict.values units with
  | [] => state
  | first :: _ =>
      match first with
      | JObj members =>
          match PyDict.get "constraints" members with
          | Some inner => set_constraints inner state
          | None => set_constraints (JList (PyDict.values units)) state
          end
      | _ => set_constraints (JList (PyDict.values units)) state
      end
  end.

Definition load_context (state : MigrationState) : result MigrationState :=
  let v1 := load_context_units "v1_components" in
  let v2 := load_context_units "v2_components" in
  let v1_docs := load_context_units "v1_docs" in
  let v2_docs := load_context_units "v2_docs" in
  let plan := load_context_units "migration_plan" in
  let rules := load_context_units "verification_rules" in
  let constraint_units := load_context_units "constraints" in
  let v1 := attach_doc v1_docs <$> v1 in
  let v2 := attach_doc v2_docs <$> v2 in
  let state := set_v1_components v1 state in
  let state := set_v2_components v2 state in
  let state := set_migration_plan (JList (PyDict.values plan)) state in
  let state := set_verification_rules (JList (PyDict.values rules)) state in
  Ok (load_constraints constraint_units state).

(** *** The generative stages *)

(** The response cannot be decoded: [json.loads] raises on the cleaned
    text. *)
Definition unparsable (response : string) : Prop :=
  json_loads (clean_response response) = None.

(** The value a stage stores for a response: the decoded value, or
    [dflt] when decoding raises. *)
Definition decode (response : string) (dflt : json) : json :=
  match json_loads (clean_response response) with
  | Some value => value
  | None => dflt
  end.

Definition mapping_prompt (state : MigrationState) : string :=
  render_prompt "generate_mapping"
    [JList (JStr <$> PyDict.keys (v1_components state));
     JList (JStr <$> PyDict.keys (v2_components state))].

Definition generate_mapping (state : MigrationState) : result MigrationState :=
  let response := cached_llm_invoke (mapping_prompt state) None in
  match json_loads (clean_response response) with
  | Some mapping => Ok (set_component_map mapping state)
  | None => Ok (set_component_map (JObj []) state)
  end.

Definition constraints_prompt (state : MigrationState) : string :=
  render_prompt "generate_constraints" [component_map state].

Definition generate_constraints (state : MigrationState) : result MigrationState :=
  let response := cached_llm_invoke (constraints_prompt state) None in
  match json_loads (clean_response response) with
  | Some decoded => Ok (set_constraints decoded state)
  | None => Ok (set_constraints (JList []) state)
  end.

Definition plan_prompt (state : MigrationState) : string :=
  render_prompt "generate_plan" [component_map state; constraints state].

Definition generate_plan (state : MigrationState) : result MigrationState :=
  let response := cached_llm_invoke (plan_prompt state) None in
  match json_loads (clean_response response) with
  | Some plan => Ok (set_migration_plan plan state)
  | None => Ok (set_migration_plan (JList []) state)
  end.

Definition rules_prompt (state : MigrationState) : string :=
  render_prompt "generate_verification_rules"
    [migration_plan state; constraints state; component_map state].

Definition generate_verification_rules (state : MigrationState) : result MigrationState :=
  let response := cached_llm_invoke (rules_prompt state) None in
  match json_loads (clean_response response) with
  | Some rules => Ok (set_verification_rules rules state)
  | None => Ok (set_verification_rules (JList []) state)
  end.

(** The code under migration: [state.modified_code.get(state.current_file)]
    when both the file name and the code are non-empty. *)
Definition current_code (state : MigrationState) : option (string * string) :=
  match current_file state with
  | Some file =>
      if String.eqb file "" then None
      else
        match modified_code state !! file with
        | Some code => if String.eqb code "" then None else Some (file, code)
        | None => None
        end
  | None => None
  end.

Definition migrate_prompt (state : MigrationState) (original_code : string) : string :=
  let context :=
    render_prompt "migrate_code.context"
      [JObj (v1_components state); JObj (v2_components state);
       component_map state; constraints state; migration_plan state] in
  render_prompt "migrate_code" [JStr context; JStr original_code].

Definition migrate_code (state : MigrationState) : result MigrationState :=
  match current_code state with
  | None => Ok state
  | Some (file, original_code) =>
      let response := cached_llm_invoke (migrate_prompt state original_code) (Some 4096) in
      let migrated_code :=
        match search_fence response with
        | Some group => PyStr.strip group
        | None => PyStr.strip response
        end in
      Ok (set_modified_code (<[file := migrated_code]> (modified_code state)) state)
  end.

Definition verify_prompt (state : MigrationState) (migrated_code : string) : string :=
  render_prompt "verify_migration" [JStr migrated_code; verification_rules state].

Definition verify_migration (state : MigrationState) : result MigrationState :=
  match current_code state with
  | None => Ok state
  | Some (file, migrated_code) =>
      let response := cached_llm_invoke (verify_prompt state migrated_code) None in
      match json_loads (clean_response response) with
      | Some results => Ok (set_verification_rules results state)
      | None => Ok state
      end
  end.

(** *** [build_workflow] *)
Record StateGraph : Type := mkGraph {
  nodes : PyDict.t (MigrationState -> result MigrationState);
  edges : list (string * string);
  entry_point : option string
}.

Definition add_node (node : string) (f : MigrationState -> result MigrationState)
    (g : StateGraph) : StateGraph :=
  mkGraph (PyDict.set node f (nodes g)) (edges g) (entry_point g).

Definition add_edge (src dst : string) (g : StateGraph) : StateGraph :=
  mkGraph (nodes g) (edges g ++ [(src, dst)]) (entry_point g).

Definition set_entry_point (node : string) (g : StateGraph) : StateGraph :=
  mkGraph (nodes g) (edges g) (Some node).

Definition build_workflow : StateGraph :=
  let workflow := mkGraph [] [] None in
  let workflow := add_node "load_context" load_context workflow in
  let workflow := add_node "analyze_components" analyze_components workflow in
  let workflow := add_node "generate_mapping" generate_mapping workflow in
  let workflow := add_node "generate_constraints" generate_constraints workflow in
  let workflow := add_node "generate_plan" generate_plan workflow in
  let workflow :=
    add_node "generate_verification_rules" generate_verification_rules workflow in
  let workflow := add_edge "load_context" "analyze_components" workflow in
  let workflow := add_edge "analyze_components" "generate_mapping" workflow in
  let workflow := add_edge "generate_mapping" "generate_constraints" workflow in
  let workflow := add_edge "generate_constraints" "generate_plan" workflow in
  let workflow := add_edge "generate_plan" "generate_verification_rules" workflow in
  set_entry_point "load_context" workflow.

(** The eight stages the module defines: the wired chain and the two
    stages left out of it. *)
Definition stage (node : string) : option (MigrationState -> result MigrationState) :=
  PyDict.get node
    (nodes build_workflow
     ++ [("migrate_code", migrate_code); ("verify_migration", verify_migration)]).

End Collaborators.

(** *** Running a compiled graph *)

(** The node an edge leads to from [node]. *)
Definition successor (g : StateGraph) (node : string) : option string :=
  snd <$> find (fun edge => String.eqb edge.1 node) (edges g).

(** The run from [node]: the nodes executed, in order, and the state the
    last of them returned or the exception that ended the run.  The
    state a node is given is first checked against the schema of
    [MigrationState]; a node that returns hands its state to the node
    its edge leads to.  [limit] counts the steps the run may still take:
    each node takes one, and one more is needed after the last node for
    the run to end. *)
Fixpoint run_from (g : StateGraph) (limit : nat) (node : string) (state : MigrationState)
  : list string * result MigrationState :=
  match limit with
  | O => ([], Raise "GraphRecursionError")
  | S limit' =>
      match PyDict.get node (nodes g) with
      | None => ([], Raise "KeyError")
      | Some f =>
          if validates state then
            match f state with
            | Raise e => ([node], Raise e)
            | Ok state' =>
                match successor g node with
                | Some next =>
                    let rest := run_from g limit' next state' in
                    (node :: rest.1, rest.2)
                | None =>
                    match limit' with
                    | O => ([node], Raise "GraphRecursionError")
                    | S _ => ([node], Ok state')
                    end
                end
            end
          else ([], Raise "ValidationError")
      end
  end.

(** What [invoke] returns: the values of the state as a plain
    dictionary, not as a [MigrationState] object. *)
Record StateValues : Type := mkValues {
  channels : MigrationState
}.

(** [workflow.invoke(state, {"recursion_limit": limit})] *)
Definition invoke (g : StateGraph) (limit : nat) (state : MigrationState)
  : list string * result StateValues :=
  match limit with
  | O => ([], Raise "ValueError")
  | S _ =>
      match entry_point g with
      | Some node =>
          let r := run_from g limit node state in
          (r.1,
           match r.2 with
           | Ok final => Ok (mkValues final)
           | Raise e => Raise e
           end)
      | None => ([], Raise "ValueError")
      end
  end.

End Workflow.

(** ** A reference decoder

    A decoder for JSON texts over the values of [json], with the
    behaviour of [json.loads] on them: surrounding blanks are allowed,
    anything else after the value is an error, a repeated key keeps its
    first place and its last value.  It instantiates the [json_loads]
    collaborator in the examples. *)
Module JsonRef.

Definition is_ws (c : ascii) : bool :=
  PyStr.mem c (String " " (String "009" (String "010" (String "013" "")))).

Definition skip_ws : string -> string := PyStr.lstrip_by is_ws.

Definition is_digit (c : ascii) : bool := PyStr.between 48 57 c.

Fixpoint digits (acc : Z) (s : string) : Z * string :=
  match s with
  | String c rest =>
      if is_digit c then digits (10 * acc + Z.of_nat (PyStr.code c - 48)) rest
      else (acc, s)
  | EmptyString => (acc, s)
  end.

(** [0] or a digit string without leading zero. *)
Definition natural (s : string) : option (Z * string) :=
  match s with
  | String c rest =>
      if Ascii.eqb c "0" then Some (0%Z, rest)
      else if is_digit c then Some (digits 0 s)
      else None
  | EmptyString => None
  end.

Definition unescape (c : ascii) : option ascii :=
  if PyStr.mem c "\/" then Some c
  else if Ascii.eqb c "034" then Some c
  else if Ascii.eqb c "n" then Some "010"%char
  else if Ascii.eqb c "t" then Some "009"%char
  else if Ascii.eqb c "r" then Some "013"%char
  else if Ascii.eqb c "b" then Some "008"%char
  else if Ascii.eqb c "f" then Some "012"%char
  else None.

(** The characters of a string literal after its opening quote. *)
Fixpoint chars (s : string) : option (string * string) :=
  match s with
  | EmptyString => None
  | String c rest =>
      if Ascii.eqb c "034" then Some (EmptyString, rest)
      else if Ascii.eqb c "\" then
        match rest with
        | String e rest' =>
            match unescape e, chars rest' with
            | Some d, Some (text, tail) => Some (String d text, tail)
            | _, _ => None
            end
        | EmptyString => None
        end
      else if (PyStr.code c <? 32)%nat then None
      else
        match chars rest with
        | Some (text, tail) => Some (String c text, tail)
        | None => None
        end
  end.

Definition literal (word : string) (v : json) (s : string) : option (json * string) :=
  (fun rest => (v, rest)) <$> PyStr.after_prefix word s.

Fixpoint value (fuel : nat) (s : string) : option (json * string) :=
  match fuel with
  | O => None
  | S fuel' =>
      match skip_ws s with
      | EmptyString => None
      | String c rest =>
          if Ascii.eqb c "n" then literal "null" JNull (String c rest)
          else if Ascii.eqb c "t" then literal "true" (JBool true) (String c rest)
          else if Ascii.eqb c "f" then literal "false" (JBool false) (String c rest)
          else if Ascii.eqb c "034" then
            (fun r => (JStr r.1, r.2)) <$> chars rest
          else if Ascii.eqb c "-" then
            (fun r => (JNum (- r.1), r.2)) <$> natural rest
          else if is_digit c then
            (fun r => (JNum r.1, r.2)) <$> natural (String c rest)
          else if Ascii.eqb c "[" then
            match skip_ws rest with
            | String d rest' =>
                if Ascii.eqb d "]" then Some (JList [], rest')
                else items fuel' [] rest
            | EmptyString => None
            end
          else if Ascii.eqb c "{" then
            match skip_ws rest with
            | String d rest' =>
                if Ascii.eqb d "}" then Some (JObj [], rest')
                else members fuel' [] rest
            | EmptyString => None
            end
          else None
      end
  end
with items (fuel : nat) (acc : list json) (s : string) : option (json * string) :=
  match fuel with
  | O => None
  | S fuel' =>
      match value fuel' s with
      | Some (v, rest) =>
          match skip_ws rest with
          | String d rest' =>
              if Ascii.eqb d "," then items fuel' (acc ++ [v]) rest'
              else if Ascii.eqb d "]" then Some (JList (acc ++ [v]), rest')
              else None
          | EmptyString => None
          end
      | None => None
      end
  end
with members (fuel : nat) (acc : PyDict.t json) (s : string) : option (json * string) :=
  match fuel with
  | O => None
  | S fuel' =>
      match skip_ws s with
      | String q after_quote =>
          if Ascii.eqb q "034" then
            match chars after_quote with
            | Some (key, rest) =>
                match skip_ws rest with
                | String colon rest' =>
                    if Ascii.eqb colon ":" then
                      match value fuel' rest' with
                      | Some (v, rest'') =>
                          match skip_ws rest'' with
                          | String d tail =>
                              if Ascii.eqb d "," then members fuel' (PyDict.set key v acc) tail
                              else if Ascii.eqb d "}" then
                                Some (JObj (PyDict.set key v acc), tail)
                              else None
                          | EmptyString => None
                          end
                      | None => None
                      end
                    else None
                | EmptyString => None
                end
            | None => None
            end
          else None
      | EmptyString => None
      end
  end.

Definition loads (text : string) : option json :=
  match value (2 * String.length text + 2) text with
  | Some (v, rest) =>
      match skip_ws rest with
      | EmptyString => Some v
      | _ => None
      end
  | None => None
  end.

End JsonRef.

(** What one tag adds to each bucket, read off the loop body run on
    empty buckets. *)
Definition empty_hits : PyDict.t (list string) :=
  [("v1_component", []); ("v2_component", [])].

Definition v2_picks (db : VectorIndex.t) (docs : list Document) (k_pick : Z)
    (v2_file : option string) : list string :=
  PyDict.get_default "v2_component" []
    (Retrieval.v2_step db docs k_pick v2_file empty_hits).

Definition v1_picks (docs : list Document) (k_pick : Z) (v1_key : string) : list string :=
  PyDict.get_default "v1_component" [] (Retrieval.v1_step docs k_pick v1_key empty_hits).

(** The last character of a text. *)
Fixpoint last_char (s : string) : option ascii :=
  match s with
  | EmptyString => None
  | String c EmptyString => Some c
  | String _ rest => last_char rest
  end.

(** Every character of a text satisfies [p]. *)
Fixpoint all_chars (p : ascii -> bool) (s : string) : bool :=
  match s with
  | EmptyString => true
  | String c rest => p c && all_chars p rest
  end.

(** A character that none of the three [strip] calls of
    [Workflow.clean_response] removes. *)
Definition kept_by_cleaning (c : ascii) : bool :=
  negb (PyStr.mem c ("```json" +:+ PyStr.NL)) && negb (PyStr.is_space c).

(** A text between fences, with or without the language tag. *)
Definition fenced (tag body : string) : string :=
  ("```" +:+ tag +:+ PyStr.NL) +:+ body +:+ (PyStr.NL +:+ "```").

(** The extraction as the description of the stage words it: a line
    with a colon and the token [prop] or [property], in any case, yields
    the text before the colon. *)
Definition stated_extract_line (props : gset string) (line : string) : gset string :=
  if PyStr.contains ":" line
     && (PyStr.contains "prop" (PyStr.lower line)
         || PyStr.contains "property" (PyStr.lower line))
  then {[ PyStr.before_first ":" line ]} ∪ props
  else props.

Definition stated_extract_props (text : string) : list string :=
  elements (foldl stated_extract_line ∅ (PyStr.splitlines text)).

(** [prop] is a property name that [line] yields in
    [Workflow.extract_props]. *)
Definition yields (line prop : string) : Prop :=
  PyStr.contains ":" line = true
  ∧ (PyStr.contains "props" (PyStr.lower line) = true
     ∨ PyStr.contains "property" (PyStr.lower line) = true)
  ∧ prop = PyStr.strip (PyStr.before_first ":" line)
  ∧ prop ≠ ""
  ∧ PyStr.lower prop ≠ "props"
  ∧ PyStr.lower prop ≠ "properties".

(** A component before and after [Workflow.analyze_components]: the same
    name, and the same object with its [props] entry set to a
    duplicate-free list of the names the lines of its documentation
    yield. *)
Definition analysed (before after : string * json) : Prop :=
  before.1 = after.1
  ∧ ∃ members text props,
      before.2 = JObj members
      ∧ PyDict.get_default "documentation" (JStr "") members = JStr text
      ∧ after.2 = JObj (PyDict.set "props" (JList (JStr <$> props)) members)
      ∧ NoDup props
      ∧ ∀ prop, prop ∈ props ↔ ∃ line, line ∈ PyStr.splitlines text ∧ yields line prop.

(** A component [Workflow.analyze_components] can process: an object
    whose documentation, when present, is a text. *)
Definition documented (item : string * json) : Prop :=
  ∃ members text,
    item.2 = JObj members
    ∧ PyDict.get_default "documentation" (JStr "") members = JStr text.

(** ** Which stage writes which field *)

(** Under the given collaborators, the stage named [node] can return a
    state that differs from the one it received in field [f]. *)
Definition changes (json_loads : string -> option json)
    (cached_llm_invoke : string -> option nat -> string)
    (render_prompt : string -> list json -> string)
    (session : list Workflow.ContextUnit) (node : string) (f : Workflow.Field) : Prop :=
  ∃ run st st',
    Workflow.stage json_loads cached_llm_invoke render_prompt session node = Some run
    ∧ run st = Ok st'
    ∧ ¬ Workflow.same_on f st st'.

(** The stage writes the field: it changes it under some collaborators. *)
Definition may_write (node : string) (f : Workflow.Field) : Prop :=
  ∃ json_loads cached_llm_invoke render_prompt session,
    changes json_loads cached_llm_invoke render_prompt session node f.

(** The stages that assign each field, read off their bodies. *)
Definition writers (f : Workflow.Field) : list string :=
  match f with
  | Workflow.F_v1_components => ["load_context"; "analyze_components"]
  | Workflow.F_v2_components => ["load_context"; "analyze_components"]
  | Workflow.F_component_map => ["generate_mapping"]
  | Workflow.F_constraints => ["load_context"; "generate_constraints"]
  | Workflow.F_migration_plan => ["load_context"; "generate_plan"]
  | Workflow.F_verification_rules =>
      ["load_context"; "generate_verification_rules"; "verify_migration"]
  | Workflow.F_current_file => []
  | Workflow.F_modified_code => ["migrate_code"]
  | Workflow.F_action => []
  end.

(** ** [migrate_with_llm] and the endpoints of [api/vector_api.py] *)
Module Api.

(** A dictionary without keys: [{}]. *)
Definition empty_state : Retrieval.StateDict := Retrieval.mkState None None None.

Section Collaborators.

(** The prompt of [migrate_with_llm] for the three state entries (each
    through [json.dumps]), the context and the code. *)
Variable migration_prompt :
  gmap string string -> json -> json -> option string -> string -> string.
(** [chat_llm.invoke(prompt).content] *)
Variable chat_llm : string -> string.
(** [len(enc.encode(text))] *)
Variable count_tokens : string -> nat.

(** [migrate_with_llm]: [state["..."]] raises on a missing key. *)
Definition migrate_with_llm (code : string) (context : option string)
    (state : option Retrieval.StateDict) : result string :=
  let state := default empty_state state in
  match Retrieval.Mapping_v1_v2 state with
  | None => Raise "KeyError"
  | Some mapping =>
      match Retrieval.verification_rules state with
      | None => Raise "KeyError"
      | Some verification_rules =>
          match Retrieval.migration_plan state with
          | None => Raise "KeyError"
          | Some migration_plan =>
              let prompt :=
                migration_prompt mapping verification_rules migration_plan context code in
              Ok (PyStr.strip (chat_llm prompt))
          end
      end
  end.

(** [RetrieveRequest]: the query and [k], 5 unless given. *)
Record RetrieveRequest : Type := mkRetrieveRequest {
  query : string;
  k : Z
}.

(** The answer of the two retrieval endpoints. *)
Record ContextAnswer : Type := mkContextAnswer {
  context : string;
  input_tokens : nat
}.

(** [POST /retrieve_by_section], for the state loaded at start-up. *)
Definition retrieve_by_section (db : VectorIndex.t) (MIGRATION_STATE : Retrieval.StateDict)
    (req : RetrieveRequest) : ContextAnswer :=
  let context :=
    Retrieval.retrieve_context_by_section db (query req) 30 (k req) (Some MIGRATION_STATE) in
  mkContextAnswer context (count_tokens context).

(** The answer of the migration endpoint. *)
Record MigrateAnswer : Type := mkMigrateAnswer {
  migrated_code : string;
  migrate_input_tokens : nat;
  output_tokens : nat
}.

(** [POST /migrate]: the call passes no state. *)
Definition migrate (db : VectorIndex.t) (code : string) : result MigrateAnswer :=
  let context := Retrieval.retrieve_context db code 20 in
  let input_tokens := count_tokens context in
  migrated ← migrate_with_llm code (Some context) None;
  Ok (mkMigrateAnswer migrated input_tokens (count_tokens migrated)).

End Collaborators.
End Api.

(** A text that neither starts nor ends with a character of the class
    [p]. *)
Definition trimmed (p : ascii -> bool) (s : string) : Prop :=
  match s with
  | EmptyString => True
  | String c _ => p c = false
  end
  ∧ match last_char s with
    | Some c => p c = false
    | None => True
    end.

(** The answer without any hit: two blocks with the placeholder. *)
Definition no_content_answer : string :=
  "### V1 COMPONENT" +:+ PyStr.NL +:+ "<no content>" +:+ PyStr.NL +:+ PyStr.NL
  +:+ "### V2 COMPONENT" +:+ PyStr.NL +:+ "<no content>".

(** ** [core/build_vector_context.py] *)
Module IndexBuild.

Section Splitter.

(** [RecursiveCharacterTextSplitter(chunk_size=512, chunk_overlap=100)
    .split_text] *)
Variable split_text : string -> list string.

(** The text handed to the splitter: the header line and the content. *)
Definition content_str (content section_name name : string) : string :=
  let header := PyStr.upper section_name +:+ " - " +:+ name in
  header +:+ ":" +:+ PyStr.NL +:+ content.

(** [chunk_content] *)
Definition chunk_content (content section_name name : string) : list Document :=
  (fun chunk => mkDocument chunk (section_name +:+ ":" +:+ name))
    <$> split_text (content_str content section_name name).

(** The rows of one version: [ContextUnit.type.in_([...])]. *)
Definition units_of (types : list string) (session : list Workflow.ContextUnit)
  : list Workflow.ContextUnit :=
  filter (fun unit => Workflow.type unit ∈ types) session.

(** The documents [build_vector_index] hands to the store. *)
Definition build_documents (session : list Workflow.ContextUnit) : list Document :=
  let v1_units := units_of ["v1_component"; "v1_components"] session in
  let v2_units := units_of ["v2_component"; "v2_components"] session in
  let docs :=
    v1_units ≫= fun unit =>
      chunk_content (Workflow.content unit) "v1_component" (Workflow.name unit) in
  docs ++ (v2_units ≫= fun unit =>
             chunk_content (Workflow.content unit) "v2_component" (Workflow.name unit)).

(** [build_vector_index], with the embedding distance of the store. *)
Definition build_vector_index (distance : string -> Document -> nat)
    (session : list Workflow.ContextUnit) : VectorIndex.t :=
  VectorIndex.mk (build_documents session) distance.

End Splitter.
End IndexBuild.

(** A row whose content [load_context_units] keeps as text: after
    stripping, it opens with neither bracket. *)
Definition plain_row (unit : Workflow.ContextUnit) : Prop :=
  PyStr.startswith "[" (PyStr.strip (Workflow.content unit)) = false
  ∧ PyStr.startswith "{" (PyStr.strip (Workflow.content unit)) = false.

(** The value [load_context_units] stores for a row, if any. *)
Definition loaded_value (json_loads : string -> option json)
    (unit : Workflow.ContextUnit) : option json :=
  if PyStr.startswith "[" (PyStr.strip (Workflow.content unit))
     || PyStr.startswith "{" (PyStr.strip (Workflow.content unit))
  then json_loads (Workflow.content unit)
  else Some (JStr (Workflow.content unit)).

(** The nodes of the wired chain, in order. *)
Definition chain : list string :=
  ["load_context"; "analyze_components"; "generate_mapping"; "generate_constraints";
   "generate_plan"; "generate_verification_rules"].

(** ** [run_workflow] of [main.py] *)
Module Main.

(** The arguments [run_workflow] reads. *)
Record Args : Type := mkArgs {
  file : option string;
  code : option string;
  project : bool
}.

(** What a call does: it returns before the run, or it runs the graph:
    the nodes executed, and then the exception that ended the call or
    the text printed under [Migrated Code], if any. *)
Inductive outcome : Type :=
| NotRun
| Ran (trace : list string) (ended : result (option string)).

Definition set_current_file (v : option string) (st : Workflow.MigrationState)
  : Workflow.MigrationState :=
  Workflow.mkMigrationState (Workflow.v1_components st) (Workflow.v2_components st)
    (Workflow.component_map st) (Workflow.constraints st) (Workflow.migration_plan st)
    (Workflow.verification_rules st) v (Workflow.modified_code st) (Workflow.action st).

(** A non-empty argument. *)
Definition given (arg : option string) : option string :=
  match arg with
  | Some text => if String.eqb text "" then None else Some text
  | None => None
  end.

Section Collaborators.

Variable json_loads : string -> option json.
Variable cached_llm_invoke : string -> option nat -> string.
Variable render_prompt : string -> list json -> string.
Variable session : list Workflow.ContextUnit.
(** [str(Path(path).resolve())] *)
Variable resolve : string -> string.
(** The text of a file; [None] when the path is no file or reading
    raises. *)
Variable read_file : string -> option string.

(** The state of a run on one file or snippet. *)
Definition target_state (current_file original_code : string) : Workflow.MigrationState :=
  Workflow.set_modified_code {[ current_file := original_code ]}
    (set_current_file (Some current_file) Workflow.initial_state).

(** [workflow.invoke(initial_state, {"recursion_limit": 10})] *)
Definition run (initial_state : Workflow.MigrationState)
  : list string * result Workflow.StateValues :=
  Workflow.invoke
    (Workflow.build_workflow json_loads cached_llm_invoke render_prompt session) 10
    initial_state.

(** An attribute read on the value [invoke] returned ([result.dict],
    [result.current_file], [result.modified_code]): a plain dictionary
    has none of them. *)
Definition getattr (values : Workflow.StateValues) (attribute : string) : result json :=
  Raise "AttributeError".

(** [print(json.dumps(result.dict(), indent=2, default=str))] *)
Definition print_state (values : Workflow.StateValues) : result unit :=
  dumped ← getattr values "dict";
  Ok ().

(** The code printed under [Migrated Code]:
    [result.modified_code[result.current_file]] when
    [result.current_file and result.modified_code.get(result.current_file)]. *)
Definition migrated_code (values : Workflow.StateValues) : result (option string) :=
  current_file ← getattr values "current_file";
  if truthy current_file then
    modified_code ← getattr values "modified_code";
    match current_file, modified_code with
    | JStr file, JObj members =>
        match PyDict.get file members with
        | Some (JStr code) => Ok (if String.eqb code "" then None else Some code)
        | _ => Ok None
        end
    | _, _ => Ok None
    end
  else Ok None.

(** The end of [run_workflow] for a file or a snippet. *)
Definition run_target (initial_state : Workflow.MigrationState) : outcome :=
  let r := run initial_state in
  Ran r.1 (values ← r.2; printed ← print_state values; migrated_code values).

(** The end of [run_workflow] for a project or an inspection run. *)
Definition run_planning (initial_state : Workflow.MigrationState) : outcome :=
  let r := run initial_state in
  Ran r.1 (values ← r.2; printed ← print_state values; Ok None).

Definition run_workflow (args : Args) : outcome :=
  match given (file args) with
  | Some path =>
      let file_path := resolve path in
      match read_file file_path with
      | Some original_code => run_target (target_state file_path original_code)
      | None => NotRun
      end
  | None =>
      match given (code args) with
      | Some snippet => run_target (target_state "code_snippet" snippet)
      | None => run_planning Workflow.initial_state
      end
  end.

End Collaborators.
End Main.

(** The fields no node of the wired chain assigns are the same in two
    states. *)
Definition untouched (st st' : Workflow.MigrationState) : Prop :=
  Workflow.current_file st' = Workflow.current_file st
  ∧ Workflow.modified_code st' = Workflow.modified_code st
  ∧ Workflow.action st' = Workflow.action st.

(** ** Example data *)
Module Fixtures.

(** A query text with a quoted attribute, as in the module's own example. *)
Definition alert_query : string :=
  "<modus-alert message=" +:+ String "034" "hi" +:+ String "034" ">".

(** The same element twice, with different attributes. *)
Definition repeated_alert_query : string :=
  alert_query +:+ "</modus-alert><modus-alert message=" +:+ String "034" "bye"
    +:+ String "034" ">".

Definition alert_v1 : Document :=
  mkDocument "V1 ALERT DOC" "v1_component:modus-alert.tsx".
Definition alert_v2 : Document :=
  mkDocument "V2 ALERT DOC" "v2_component:modus-wc-alert.tsx".

(** An index of two chunks, all at the same distance of every query. *)
Definition alert_db : VectorIndex.t :=
  VectorIndex.mk [alert_v1; alert_v2] (fun _ _ => 0).

Definition mapping_state (m : gmap string string) : Retrieval.StateDict :=
  Retrieval.mkState (Some m) None None.

Definition alert_mapping : gmap string string :=
  {[ "modus-alert.tsx" := "modus-wc-alert.tsx" ]}.

(** The tag is mapped to the text [Not Found]. *)
Definition unmapped : gmap string string := {[ "modus-alert.tsx" := "Not Found" ]}.

(** The tag is mapped to the text [NotFound], without the blank, and the
    index holds a chunk under that name. *)
Definition nospace : gmap string string := {[ "modus-alert.tsx" := "NotFound" ]}.
Definition nospace_db : VectorIndex.t :=
  VectorIndex.mk [mkDocument "V2 DOC" "v2_component:NotFound"] (fun _ _ => 0).


(** One v2 component split in two chunks, filed under the same source. *)
Definition alert_v2_part1 : Document :=
  mkDocument "V2 ALERT DOC, part 1" "v2_component:modus-wc-alert.tsx".
Definition alert_v2_part2 : Document :=
  mkDocument "V2 ALERT DOC, part 2" "v2_component:modus-wc-alert.tsx".
Definition split_db : VectorIndex.t :=
  VectorIndex.mk [alert_v2_part1; alert_v2_part2] (fun _ _ => 0).

(** An index of 1001 chunks in which the chunk of the mapped v2 file is
    the farthest from every query. *)
Definition other : Document := mkDocument "OTHER DOC" "v1_component:modus-other.tsx".
Definition big_db : VectorIndex.t :=
  VectorIndex.mk (alert_v2 :: replicate 1000 other)
    (fun _ doc => if String.eqb (source doc) (source alert_v2) then 1 else 0).


(** An index of 41 chunks in which the chunk of the mapped v2 file is
    the farthest from every query: a search for 30 chunks leaves it out,
    the scan of 1000 reaches it. *)
Definition far_db : VectorIndex.t :=
  VectorIndex.mk (alert_v2 :: replicate 40 other)
    (fun _ doc => if String.eqb (source doc) (source alert_v2) then 1 else 0).

(** An index of 42 chunks that holds the two chunks of the mapped v2
    file, the second one the farthest from every query. *)
Definition near_far_db : VectorIndex.t :=
  VectorIndex.mk (alert_v2_part1 :: alert_v2_part2 :: replicate 40 other)
    (fun _ doc => if String.eqb (page_content doc) (page_content alert_v2_part2)
                  then 1 else 0).

(** A model that answers every prompt with prose, and one that answers
    with a fenced list. *)
Definition prose_llm : string -> option nat -> string :=
  fun _ _ => "Sorry, I cannot produce that.".
Definition list_llm : string -> option nat -> string :=
  fun _ _ => "```json" +:+ PyStr.NL +:+ "[1]" +:+ PyStr.NL +:+ "```".
(** A model that answers every prompt with the JSON text [null]. *)
Definition null_llm : string -> option nat -> string := fun _ _ => "null".

(** Prompts reduced to the name of their node. *)
Definition node_prompt : string -> list json -> string := fun node _ => node.

(** The state of a snippet migration ([--code]) that already holds one
    verification rule. *)
Definition snippet_state : Workflow.MigrationState :=
  Workflow.mkMigrationState [] [] (JObj []) (JList []) (JList []) (JList [JStr "keep"])
    (Some "code_snippet") {[ "code_snippet" := "<modus-alert></modus-alert>" ]} "PENDING".

(** A state with one v1 component documented by [doc]. *)
Definition doc_state (doc : string) : Workflow.MigrationState :=
  Workflow.set_v1_components
    [("modus-button.tsx", JObj [("documentation", JStr doc)])] Workflow.initial_state.

(** A metadata store with one row of each kind [load_context] assigns. *)
Definition seed_session : list Workflow.ContextUnit :=
  [ Workflow.mkUnit "v1_components" "modus-alert.tsx" "alert source";
    Workflow.mkUnit "v2_components" "modus-wc-alert.tsx" "alert source";
    Workflow.mkUnit "migration_plan" "plan" "replace the tags";
    Workflow.mkUnit "verification_rules" "rules" "no v1 tag is left";
    Workflow.mkUnit "constraints" "constraints" "slots are renamed" ].

(** A state holding one undocumented component of each version. *)
Definition loaded_state : Workflow.MigrationState :=
  Workflow.set_v2_components [("modus-wc-alert.tsx", JObj [])]
    (Workflow.set_v1_components [("modus-alert.tsx", JObj [])] Workflow.initial_state).

(** The same state with a component map from an earlier run. *)
Definition mapped_state : Workflow.MigrationState :=
  Workflow.set_component_map
    (JObj [("modus-alert.tsx", JObj [("new_tag", JStr "modus-wc-alert.tsx")])])
    loaded_state.

(** A state file with the three entries [migrate_with_llm] reads. *)
Definition full_state : Retrieval.StateDict :=
  Retrieval.mkState (Some alert_mapping) (Some (JList [])) (Some (JList [])).

(** The tag is mapped to the empty text. *)
Definition blank_mapping : gmap string string := {[ "modus-alert.tsx" := "" ]}.

(** A model that answers with the code between blank lines. *)
Definition echo_llm : string -> string :=
  fun _ => PyStr.NL +:+ "<modus-wc-alert></modus-wc-alert>" +:+ PyStr.NL.

Definition plain_prompt :
  gmap string string -> json -> json -> option string -> string -> string :=
  fun _ _ _ _ code => code.

(** A splitter that cuts at each line. *)
Definition line_splitter : string -> list string := PyStr.splitlines.

(** One row of each version for the alert component. *)
Definition alert_units : list Workflow.ContextUnit :=
  [ Workflow.mkUnit "v1_components" "modus-alert.tsx" "old alert";
    Workflow.mkUnit "v2_components" "modus-wc-alert.tsx" "new alert" ].

(** A store whose only component row holds text, not JSON. *)
Definition text_session : list Workflow.ContextUnit :=
  [ Workflow.mkUnit "v1_components" "modus-alert.tsx" "export class ModusAlert" ].

(** The call [--code <modus-alert></modus-alert>]. *)
Definition snippet_args : Main.Args :=
  Main.mkArgs None (Some "<modus-alert></modus-alert>") false.

(** A store with one documented component of version 1. *)
Definition object_session : list Workflow.ContextUnit :=
  [ Workflow.mkUnit "v1_components" "modus-alert.tsx" "{}";
    Workflow.mkUnit "v1_docs" "modus-alert" "size property: the size" ].

(** A store whose documentation row holds a JSON list. *)
Definition list_doc_session : list Workflow.ContextUnit :=
  [ Workflow.mkUnit "v1_components" "modus-alert.tsx" "{}";
    Workflow.mkUnit "v1_docs" "modus-alert" "[1]" ].

(** A model that answers with an empty fenced block. *)
Definition blank_llm : string -> option nat -> string :=
  fun _ _ => "```html" +:+ PyStr.NL +:+ PyStr.NL +:+ "```".

(** A model that answers with a fenced block and a comment. *)
Definition fenced_llm : string -> option nat -> string :=
  fun _ _ =>
    "Here you are: ```html" +:+ PyStr.NL +:+ "<modus-wc-alert></modus-wc-alert>"
    +:+ PyStr.NL +:+ "``` Enjoy.".

End Fixtures.

(** * Properties *)

(** Settles a decidable statement about closed terms by evaluation. *)
Ltac by_compute := apply (bool_decide_unpack _); vm_compute; exact I.

Lemma string_app_assoc (a b c : string) : (a +:+ b) +:+ c = a +:+ b +:+ c.
Proof.
  induction a as [|x a IH]; [done|].
  change (String x ((a +:+ b) +:+ c) = String x (a +:+ b +:+ c)). by rewrite IH.
Qed.

(** ** The string primitives on examples *)

Example strip_is_by_character :
  PyStr.strip_chars ("```json" +:+ PyStr.NL) "json[1]son" = "[1]"
  ∧ PyStr.strip ("  a b" +:+ PyStr.NL) = "a b"
  ∧ PyStr.lower "Size PROPERTY: x" = "size property: x"
  ∧ PyStr.replace ".tsx" "" "modus-alert.tsx" = "modus-alert".
Proof. repeat split; by vm_compute. Qed.

Example splitlines_boundaries :
  PyStr.splitlines ("a" +:+ PyStr.NL +:+ PyStr.NL +:+ "b" +:+ String "013" PyStr.NL +:+ "c"
                    +:+ PyStr.NL)
  = ["a"; ""; "b"; "c"].
Proof. by vm_compute. Qed.

Example fenced_block_of_response :
  Workflow.search_fence
    ("Here it is: ```html" +:+ PyStr.NL +:+ "<modus-wc-alert>" +:+ PyStr.NL +:+ "``` done")
  = Some ("<modus-wc-alert>" +:+ PyStr.NL)
  ∧ Workflow.search_fence "```html<modus-wc-alert>```" = None.
Proof. split; by vm_compute. Qed.

Example clean_fenced_list :
  Workflow.clean_response (fenced "json" "[1]") = "[1]"
  ∧ JsonRef.loads (Workflow.clean_response (fenced "json" "[1]")) = Some (JList [JNum 1]).
Proof. split; by vm_compute. Qed.

(** ** Section-aware retrieval *)
Section RetrievalFacts.
Import Retrieval.

Implicit Types (db : VectorIndex.t) (docs : list Document) (k_pick : Z).
Implicit Types (a b texts : list string) (mapping : gmap string string).

(** The tag pattern and the answer on the alert element. *)
Example tags_of_repeated_alert :
  findall_tags Fixtures.repeated_alert_query = ["modus-alert"; "modus-alert"]
  ∧ fromkeys (findall_tags Fixtures.repeated_alert_query) = ["modus-alert"].
Proof. split; by vm_compute. Qed.

Example tags_with_optional_group :
  findall_tags "<modus-wc-alert><modus-wc><modus-wc-></modus-alert><modus->"
  = ["modus-wc-alert"; "modus-wc"; "modus-wc-"].
Proof. by vm_compute. Qed.

Example alert_answer :
  retrieve_context_by_section Fixtures.alert_db Fixtures.alert_query 5 5
    (Some (Fixtures.mapping_state Fixtures.alert_mapping))
  = "### V1 COMPONENT" +:+ PyStr.NL +:+ "V1 ALERT DOC" +:+ PyStr.NL +:+ PyStr.NL
    +:+ "### V2 COMPONENT" +:+ PyStr.NL +:+ "V2 ALERT DOC".
Proof. by vm_compute. Qed.

Lemma v2_step_shape db docs k_pick v2_file a b :
  v2_step db docs k_pick v2_file [("v1_component", a); ("v2_component", b)]
  = [("v1_component", a); ("v2_component", b ++ v2_picks db docs k_pick v2_file)].
Proof.
  unfold v2_picks, v2_step, empty_hits.
  destruct v2_file as [file|]; cbn; [|by rewrite app_nil_r].
  destruct (negb (String.eqb file "") && negb (String.eqb file "Not Found"));
    cbn; [|by rewrite app_nil_r].
  destruct (with_source _ docs) as [|d0 l0]; cbn.
  - destruct (with_source _ _); cbn; [by rewrite app_nil_r|done].
  - done.
Qed.

Lemma v1_step_shape docs k_pick v1_key a b :
  v1_step docs k_pick v1_key [("v1_component", a); ("v2_component", b)]
  = [("v1_component", a ++ v1_picks docs k_pick v1_key); ("v2_component", b)].
Proof.
  unfold v1_picks, v1_step, empty_hits.
  destruct (with_source _ docs); cbn; [by rewrite app_nil_r|done].
Qed.

Lemma tag_loop_shape db docs k_pick mapping tags a b :
  foldl (tag_step db docs k_pick mapping) [("v1_component", a); ("v2_component", b)] tags
  = [("v1_component", a ++ (tags ≫= fun tag => v1_picks docs k_pick (tag +:+ ".tsx")));
     ("v2_component",
      b ++ (tags ≫= fun tag => v2_picks db docs k_pick (mapping !! (tag +:+ ".tsx"))))].
Proof.
  revert a b. induction tags as [|tag tags IH]; intros a b; cbn.
  - by rewrite !app_nil_r.
  - unfold tag_step at 2. rewrite v2_step_shape, v1_step_shape, IH.
    by rewrite <- !app_assoc.
Qed.

Lemma collect_hits_shape db code k_search k_pick state :
  let docs := VectorIndex.similarity_search db code k_search in
  let tags := fromkeys (findall_tags code) in
  collect_hits db code k_search k_pick state
  = [("v1_component", tags ≫= fun tag => v1_picks docs k_pick (tag +:+ ".tsx"));
     ("v2_component",
      tags ≫= fun tag => v2_picks db docs k_pick (mapping_of state !! (tag +:+ ".tsx")))].
Proof. intros docs tags. unfold collect_hits. by rewrite tag_loop_shape. Qed.

Lemma v2_bucket_eq db code k_search k_pick state :
  v2_bucket db code k_search k_pick state
  = fromkeys (findall_tags code) ≫= fun tag =>
      v2_picks db (VectorIndex.similarity_search db code k_search) k_pick
        (mapping_of state !! (tag +:+ ".tsx")).
Proof. unfold v2_bucket. by rewrite collect_hits_shape. Qed.

Lemma v1_bucket_eq db code k_search k_pick state :
  v1_bucket db code k_search k_pick state
  = fromkeys (findall_tags code) ≫= fun tag =>
      v1_picks (VectorIndex.similarity_search db code k_search) k_pick (tag +:+ ".tsx").
Proof. unfold v1_bucket. by rewrite collect_hits_shape. Qed.

Lemma v2_picks_absent db docs k_pick : v2_picks db docs k_pick None = [].
Proof. reflexivity. Qed.

Lemma v2_picks_sentinel db docs k_pick : v2_picks db docs k_pick (Some "Not Found") = [].
Proof. reflexivity. Qed.

Lemma v2_picks_mapped db docs k_pick file :
  file ≠ "" → file ≠ "Not Found" →
  v2_picks db docs k_pick (Some file)
  = page_content <$>
      slice_to k_pick
        match with_source ("v2_component:" +:+ file) docs with
        | [] => with_source ("v2_component:" +:+ file)
                  (VectorIndex.similarity_search db "" 1000)
        | hits => hits
        end.
Proof.
  intros Hne Hns. unfold v2_picks, v2_step.
  apply String.eqb_neq in Hne, Hns. rewrite Hne, Hns. cbn.
  destruct (with_source _ docs) as [|d0 l0]; cbn; [|done].
  destruct (with_source _ _) as [|d1 l1]; cbn; [|done].
  unfold slice_to. destruct (0 <=? k_pick)%Z; by rewrite take_nil.
Qed.

Lemma v1_picks_eq docs k_pick v1_key :
  v1_picks docs k_pick v1_key
  = page_content <$> slice_to k_pick (with_source ("v1_component:" +:+ v1_key) docs).
Proof.
  unfold v1_picks, v1_step.
  destruct (with_source _ docs) as [|d0 l0]; cbn; [|done].
  unfold slice_to. destruct (0 <=? k_pick)%Z; by rewrite take_nil.
Qed.

Lemma bind_ext_in {A B : Type} (f g : A → list B) (l : list A) :
  (∀ x, x ∈ l → f x = g x) → l ≫= f = l ≫= g.
Proof.
  induction l as [|x l IH]; intros H; cbn; [done|].
  rewrite (H x) by left. f_equal. apply IH. intros y Hy. apply H. by right.
Qed.

Lemma bind_nil_all {A B : Type} (f : A → list B) (l : list A) :
  (∀ x, f x = []) → l ≫= f = [].
Proof. intros H. induction l as [|x l IH]; cbn; [done|]. by rewrite H, IH. Qed.

(** C1. A tag whose mapping value is the text [Not Found] adds nothing
    to the v2 bucket: the v2 branch leaves the buckets as they are, as it
    does for a tag without entry, and the answer is the one obtained with
    the entry removed from the mapping. *)
Theorem not_found_skips_v2 db code k_search k_pick st m tag :
  Mapping_v1_v2 st = Some m →
  m !! (tag +:+ ".tsx") = Some "Not Found" →
  (∀ docs hits,
      v2_step db docs k_pick (m !! (tag +:+ ".tsx")) hits = hits
      ∧ v2_step db docs k_pick None hits = hits)
  ∧ retrieve_context_by_section db code k_search k_pick (Some st)
    = retrieve_context_by_section db code k_search k_pick
        (Some (mkState (Some (delete (tag +:+ ".tsx") m))
                 (verification_rules st) (migration_plan st))).
Proof.
  intros Hm Hkey. split.
  - intros docs hits. by rewrite Hkey.
  - assert (mapping_of (Some st) = m) as Hst.
    { unfold mapping_of, state_truthy. by rewrite Hm. }
    unfold retrieve_context_by_section. rewrite !collect_hits_shape, Hst.
    cbn [mapping_of state_truthy Mapping_v1_v2 default id].
    do 6 f_equal. apply bind_ext_in. intros tag' _.
    destruct (decide (tag' +:+ ".tsx" = tag +:+ ".tsx")) as [->|Hne].
    + by rewrite Hkey, lookup_delete_eq.
    + by rewrite lookup_delete_ne.
Qed.

Lemma not_found_skips_v2_witness :
  Mapping_v1_v2 (Fixtures.mapping_state Fixtures.unmapped) = Some Fixtures.unmapped
  ∧ Fixtures.unmapped !! ("modus-alert" +:+ ".tsx") = Some "Not Found"
  ∧ retrieve_context_by_section Fixtures.alert_db Fixtures.alert_query 30 10
      (Some (Fixtures.mapping_state Fixtures.unmapped))
    = retrieve_context_by_section Fixtures.alert_db Fixtures.alert_query 30 10
        (Some (mkState (Some (delete ("modus-alert" +:+ ".tsx") Fixtures.unmapped))
                 None None)).
Proof.
  split; [reflexivity|]. split; [by vm_compute|].
  apply (not_found_skips_v2 Fixtures.alert_db Fixtures.alert_query 30 10
           (Fixtures.mapping_state Fixtures.unmapped) Fixtures.unmapped "modus-alert");
    [reflexivity|by vm_compute].
Defined.

(** C1, as worded.  With the value [NotFound] (no blank) the v2 branch
    runs: the chunk stored under that name enters the v2 bucket, and the
    answer differs from the one without the entry. *)
Lemma notfound_without_blank_is_searched :
  Fixtures.nospace !! "modus-alert.tsx" = Some "NotFound"
  ∧ v2_bucket Fixtures.nospace_db Fixtures.alert_query 30 10
      (Some (Fixtures.mapping_state Fixtures.nospace)) = ["V2 DOC"]
  ∧ v2_bucket Fixtures.nospace_db Fixtures.alert_query 30 10
      (Some (Fixtures.mapping_state (delete "modus-alert.tsx" Fixtures.nospace))) = []
  ∧ retrieve_context_by_section Fixtures.nospace_db Fixtures.alert_query 30 10
      (Some (Fixtures.mapping_state Fixtures.nospace))
    ≠ retrieve_context_by_section Fixtures.nospace_db Fixtures.alert_query 30 10
        (Some (Fixtures.mapping_state (delete "modus-alert.tsx" Fixtures.nospace))).
Proof. repeat split; by vm_compute. Qed.

Lemma join_concat sep parts : PyStr.join sep parts = String.concat sep parts.
Proof. induction parts as [|p [|q rest] IH]; [done|done|]. cbn in *. by rewrite IH. Qed.

(** The answer, written out from the two buckets. *)
Lemma answer_written_out db code k_search k_pick state :
  let nl := String "010" "" in
  let body (bucket : list string) :=
    match bucket with
    | [] => "<no content>"
    | _ => String.concat (nl +:+ nl) bucket
    end in
  retrieve_context_by_section db code k_search k_pick state
  = "### V1 COMPONENT" +:+ nl +:+ body (v1_bucket db code k_search k_pick state)
    +:+ nl +:+ nl
    +:+ "### V2 COMPONENT" +:+ nl +:+ body (v2_bucket db code k_search k_pick state).
Proof.
  intros nl body.
  assert (∀ bucket, PyStr.join (PyStr.NL +:+ PyStr.NL) (or_placeholder bucket) = body bucket)
    as Hbody.
  { intros [|text bucket]; [done|]. unfold or_placeholder, body. apply join_concat. }
  unfold retrieve_context_by_section, block, v1_bucket, v2_bucket.
  cbn [fmap list_fmap PyStr.join]. rewrite !Hbody.
  change (PyStr.replace "_" " " (PyStr.upper "v1_component")) with "V1 COMPONENT".
  change (PyStr.replace "_" " " (PyStr.upper "v2_component")) with "V2 COMPONENT".
  generalize (body (PyDict.get_default "v1_component" []
                      (collect_hits db code k_search k_pick state))) as x.
  generalize (body (PyDict.get_default "v2_component" []
                      (collect_hits db code k_search k_pick state))) as y.
  intros y x. by rewrite !string_app_assoc.
Qed.

(** C7. The answer is the text of two blocks, the v1 block first, with
    a blank line between them.  A block is its header line, the marker
    followed by [V1 COMPONENT] or [V2 COMPONENT], and then the texts of
    its bucket with a blank line between two of them, or the one
    placeholder [<no content>] when the bucket is empty.  The header
    texts are what [upper] and [replace] make of the section names. *)
Theorem two_blocks db code k_search k_pick state :
  let nl := String "010" "" in
  let body (bucket : list string) :=
    match bucket with
    | [] => "<no content>"
    | _ => String.concat (nl +:+ nl) bucket
    end in
  PyStr.replace "_" " " (PyStr.upper "v1_component") = "V1 COMPONENT"
  ∧ PyStr.replace "_" " " (PyStr.upper "v2_component") = "V2 COMPONENT"
  ∧ retrieve_context_by_section db code k_search k_pick state
    = "### V1 COMPONENT" +:+ nl +:+ body (v1_bucket db code k_search k_pick state)
      +:+ nl +:+ nl
      +:+ "### V2 COMPONENT" +:+ nl +:+ body (v2_bucket db code k_search k_pick state).
Proof.
  intros nl body. split; [reflexivity|]. split; [reflexivity|].
  apply answer_written_out.
Qed.

(** C10. Without a state the call returns a text: the v1 block, made of
    the first [k_pick] candidates filed under the v1 source of each tag,
    or of the placeholder when there is none, and the v2 block with the
    placeholder alone.  It is the answer the call gives for an empty
    mapping and for a state without mapping: the v2 branch leaves the
    buckets as they are for every tag and the v2 bucket stays empty. *)
Theorem no_state_is_empty_mapping db code k_search k_pick :
  let nl := String "010" "" in
  let candidates := VectorIndex.similarity_search db code k_search in
  let v1 :=
    fromkeys (findall_tags code) ≫= fun tag =>
      page_content <$>
        slice_to k_pick
          (filter (fun doc => source doc = "v1_component:" +:+ tag +:+ ".tsx") candidates) in
  retrieve_context_by_section db code k_search k_pick None
  = "### V1 COMPONENT" +:+ nl
    +:+ match v1 with
        | [] => "<no content>"
        | _ => String.concat (nl +:+ nl) v1
        end
    +:+ nl +:+ nl +:+ "### V2 COMPONENT" +:+ nl +:+ "<no content>"
  ∧ retrieve_context_by_section db code k_search k_pick None
    = retrieve_context_by_section db code k_search k_pick (Some (mkState (Some ∅) None None))
  ∧ (∀ st, Mapping_v1_v2 st = None →
       retrieve_context_by_section db code k_search k_pick (Some st)
       = retrieve_context_by_section db code k_search k_pick None)
  ∧ (∀ docs hits tag,
        v2_step db docs k_pick (mapping_of None !! (tag +:+ ".tsx")) hits = hits)
  ∧ v2_bucket db code k_search k_pick None = []
  ∧ block (collect_hits db code k_search k_pick None) "v2_component"
    = "### V2 COMPONENT" +:+ PyStr.NL +:+ "<no content>"
  ∧ v1_bucket db code k_search k_pick None = v1.
Proof.
  intros nl candidates v1.
  assert (v2_bucket db code k_search k_pick None = []) as Hv2.
  { rewrite v2_bucket_eq. apply bind_nil_all. intros tag.
    cbn [mapping_of]. by rewrite lookup_empty. }
  assert (v1_bucket db code k_search k_pick None = v1) as Hv1.
  { rewrite v1_bucket_eq. apply bind_ext_in. intros tag _. apply v1_picks_eq. }
  split; [|split; [|split; [|split; [|split; [|split]]]]].
  - pose proof (answer_written_out db code k_search k_pick None) as H.
    cbv zeta in H. by rewrite Hv1, Hv2 in H.
  - reflexivity.
  - intros st Hnone. unfold retrieve_context_by_section, collect_hits.
    assert (mapping_of (Some st) = mapping_of None) as ->; [|done].
    unfold mapping_of. rewrite Hnone. by destruct (state_truthy st).
  - intros docs hits tag. cbn [mapping_of]. by rewrite lookup_empty.
  - exact Hv2.
  - unfold block. fold (v2_bucket db code k_search k_pick None). by rewrite Hv2.
  - exact Hv1.
Qed.

Lemma insert_by_perm key d docs : VectorIndex.insert_by key d docs ≡ₚ d :: docs.
Proof.
  induction docs as [|e docs IH]; cbn; [done|].
  destruct (key d <=? key e)%nat; [done|].
  rewrite IH. apply Permutation_swap.
Qed.

Lemma rank_perm key docs : VectorIndex.rank key docs ≡ₚ docs.
Proof.
  induction docs as [|d docs IH]; cbn; [done|].
  fold (VectorIndex.rank key docs). by rewrite insert_by_perm, IH.
Qed.

(** A search with a bound that covers the whole index returns every
    chunk. *)
Lemma search_covers db query k :
  length (VectorIndex.docstore db) ≤ k →
  VectorIndex.similarity_search db query k ≡ₚ VectorIndex.docstore db.
Proof.
  intros Hk. unfold VectorIndex.similarity_search.
  rewrite take_ge; [apply rank_perm|].
  by rewrite (Permutation_length (rank_perm _ _)).
Qed.

Lemma slice_to_head {A : Type} k_pick (x : A) (xs : list A) :
  (1 ≤ k_pick)%Z → x ∈ slice_to k_pick (x :: xs).
Proof.
  intros Hk. unfold slice_to.
  destruct (Z.leb_spec 0 k_pick) as [_|?]; [|lia].
  destruct (Z.to_nat k_pick) as [|n] eqn:E; [lia|]. cbn. left.
Qed.

Lemma slice_to_all {A : Type} k_pick (xs : list A) :
  (Z.of_nat (length xs) ≤ k_pick)%Z → slice_to k_pick xs = xs.
Proof.
  intros Hk. unfold slice_to.
  destruct (Z.leb_spec 0 k_pick) as [_|?]; [|lia].
  apply take_ge. lia.
Qed.

Lemma slice_to_subset {A : Type} k_pick (xs : list A) x :
  x ∈ slice_to k_pick xs → x ∈ xs.
Proof.
  unfold slice_to. destruct (0 <=? k_pick)%Z;
    intros (i & Hi & _)%elem_of_take; by apply list_elem_of_lookup_2 in Hi.
Qed.

(** C2. Let a tag of the query be mapped to a v2 file (a non-empty value
    other than [Not Found]) and let a chunk of the index be filed under
    exactly that v2 source.  The text of the chunk is in the v2 bucket
    when the chunk is among the first [k_pick] candidates of the
    similarity search filed under the source, in particular when it is a
    candidate and at most [k_pick] candidates are filed under it; and,
    when no candidate is filed under the source, so that the full scan
    runs, when the chunk is among the first [k_pick] chunks filed under
    it in the 1000 results of the scan, in particular when the index
    holds at most 1000 chunks, at most [k_pick] of them filed under the
    source.  In an index of at most 1000 chunks and with [k_pick] at
    least one, the v2 bucket always holds the text of some chunk filed
    under the source. *)
Theorem mapped_chunk_is_found db code k_search k_pick state tag v2_file d :
  tag ∈ fromkeys (findall_tags code) →
  mapping_of state !! (tag +:+ ".tsx") = Some v2_file →
  v2_file ≠ "" → v2_file ≠ "Not Found" →
  d ∈ VectorIndex.docstore db →
  source d = "v2_component:" +:+ v2_file →
  let candidates := VectorIndex.similarity_search db code k_search in
  let scan := VectorIndex.similarity_search db "" 1000 in
  let filed (docs : list Document) := filter (fun doc => source doc = source d) docs in
  let bucket := v2_bucket db code k_search k_pick state in
  (d ∈ slice_to k_pick (filed candidates) → page_content d ∈ bucket)
  ∧ (d ∈ candidates → (Z.of_nat (length (filed candidates)) ≤ k_pick)%Z →
     page_content d ∈ bucket)
  ∧ (filed candidates = [] → d ∈ slice_to k_pick (filed scan) → page_content d ∈ bucket)
  ∧ (filed candidates = [] → length (VectorIndex.docstore db) ≤ 1000 →
     (Z.of_nat (length (filed (VectorIndex.docstore db))) ≤ k_pick)%Z →
     page_content d ∈ bucket)
  ∧ (length (VectorIndex.docstore db) ≤ 1000 → (1 ≤ k_pick)%Z →
     ∃ d', d' ∈ VectorIndex.docstore db ∧ source d' = source d
           ∧ page_content d' ∈ bucket).
Proof.
  intros Htag Hmap Hne Hns Hd Hsrc candidates scan filed bucket.
  assert (∀ text,
    text ∈ v2_picks db candidates k_pick (Some v2_file) → text ∈ bucket) as Hin.
  { intros text Htext. unfold bucket. rewrite v2_bucket_eq. apply list_elem_of_bind.
    exists tag. by rewrite Hmap. }
  rewrite v2_picks_mapped in Hin by done. rewrite <- Hsrc in Hin.
  change (with_source (source d) candidates) with (filed candidates) in Hin.
  change (with_source (source d) (VectorIndex.similarity_search db "" 1000))
    with (filed scan) in Hin.
  assert (d ∈ slice_to k_pick (filed candidates) → page_content d ∈ bucket) as Hcand.
  { intros Hpick. apply Hin.
    destruct (filed candidates) as [|d0 l0] eqn:E.
    - apply slice_to_subset in Hpick. by apply elem_of_nil in Hpick.
    - by apply list_elem_of_fmap_2. }
  assert (filed candidates = [] → d ∈ slice_to k_pick (filed scan) → page_content d ∈ bucket)
    as Hscan.
  { intros Hnone Hpick. apply Hin. rewrite Hnone. by apply list_elem_of_fmap_2. }
  assert (length (VectorIndex.docstore db) ≤ 1000 → scan ≡ₚ VectorIndex.docstore db)
    as Hcover by apply search_covers.
  split; [exact Hcand|]. split; [|split; [exact Hscan|split]].
  - intros Hdc Hfew. apply Hcand. rewrite slice_to_all by done.
    apply list_elem_of_filter. by split.
  - intros Hnone Hsize Hfew. specialize (Hcover Hsize). apply Hscan; [done|].
    rewrite slice_to_all.
    + apply list_elem_of_filter. split; [done|]. by rewrite Hcover.
    + unfold filed. by rewrite Hcover.
  - intros Hsize Hk. specialize (Hcover Hsize).
    destruct (filed candidates) as [|d0 l0] eqn:Eall.
    + assert (d ∈ filed scan) as Hdscan.
      { apply list_elem_of_filter. split; [done|]. by rewrite Hcover. }
      destruct (filed scan) as [|d1 l1] eqn:Escan; [by apply elem_of_nil in Hdscan|].
      assert (d1 ∈ filed scan) as H1 by (rewrite Escan; left).
      apply list_elem_of_filter in H1 as [Hs1 Hd1]. rewrite Hcover in Hd1.
      exists d1. split; [done|]. split; [done|].
      apply Hin, list_elem_of_fmap_2, slice_to_head, Hk.
    + assert (d0 ∈ filed candidates) as H0 by (rewrite Eall; left).
      apply list_elem_of_filter in H0 as [Hs0 Hd0].
      exists d0. split.
      { unfold candidates, VectorIndex.similarity_search in Hd0.
        apply elem_of_take in Hd0 as (i & Hi & _).
        apply list_elem_of_lookup_2 in Hi. by rewrite rank_perm in Hi. }
      split; [done|].
      apply Hin, list_elem_of_fmap_2, slice_to_head, Hk.
Qed.

(** C2 on two indexes.  In the index of 41 chunks the mapped chunk is
    not among the 30 candidates and the scan brings it in; in the index
    of two chunks it is a candidate of a search for five. *)
Lemma mapped_chunk_is_found_witness :
  "modus-alert" ∈ fromkeys (findall_tags Fixtures.alert_query)
  ∧ mapping_of (Some (Fixtures.mapping_state Fixtures.alert_mapping))
      !! ("modus-alert" +:+ ".tsx") = Some "modus-wc-alert.tsx"
  ∧ (Fixtures.alert_v2 ∈ VectorIndex.docstore Fixtures.far_db
     ∧ length (VectorIndex.similarity_search Fixtures.far_db Fixtures.alert_query 30) = 30
     ∧ filter (fun doc => source doc = source Fixtures.alert_v2)
         (VectorIndex.similarity_search Fixtures.far_db Fixtures.alert_query 30) = []
     ∧ page_content Fixtures.alert_v2
         ∈ v2_bucket Fixtures.far_db Fixtures.alert_query 30 10
             (Some (Fixtures.mapping_state Fixtures.alert_mapping)))
  ∧ (Fixtures.alert_v2 ∈ VectorIndex.docstore Fixtures.alert_db
     ∧ Fixtures.alert_v2
         ∈ VectorIndex.similarity_search Fixtures.alert_db Fixtures.alert_query 5
     ∧ page_content Fixtures.alert_v2
         ∈ v2_bucket Fixtures.alert_db Fixtures.alert_query 5 10
             (Some (Fixtures.mapping_state Fixtures.alert_mapping))).
Proof.
  assert ("modus-alert" ∈ fromkeys (findall_tags Fixtures.alert_query)) as Htag
    by (by_compute).
  assert (mapping_of (Some (Fixtures.mapping_state Fixtures.alert_mapping))
            !! ("modus-alert" +:+ ".tsx") = Some "modus-wc-alert.tsx") as Hmap
    by (by vm_compute).
  assert (Fixtures.alert_v2 ∈ VectorIndex.docstore Fixtures.far_db) as Hfar by left.
  assert (Fixtures.alert_v2 ∈ VectorIndex.docstore Fixtures.alert_db) as Hd
    by (right; left).
  assert (filter (fun doc => source doc = source Fixtures.alert_v2)
            (VectorIndex.similarity_search Fixtures.far_db Fixtures.alert_query 30) = [])
    as Hnone by (by vm_compute).
  assert (Fixtures.alert_v2
            ∈ VectorIndex.similarity_search Fixtures.alert_db Fixtures.alert_query 5)
    as Hcand by (right; left).
  split; [exact Htag|]. split; [exact Hmap|]. split.
  - split; [exact Hfar|]. split; [by vm_compute|]. split; [exact Hnone|].
    destruct (mapped_chunk_is_found Fixtures.far_db Fixtures.alert_query 30 10
                (Some (Fixtures.mapping_state Fixtures.alert_mapping))
                "modus-alert" "modus-wc-alert.tsx" Fixtures.alert_v2
                Htag Hmap ltac:(discriminate) ltac:(discriminate) Hfar eq_refl)
      as (_ & _ & _ & Hscan & _).
    apply Hscan; [exact Hnone|cbn; lia|by vm_compute].
  - split; [exact Hd|]. split; [exact Hcand|].
    destruct (mapped_chunk_is_found Fixtures.alert_db Fixtures.alert_query 5 10
                (Some (Fixtures.mapping_state Fixtures.alert_mapping))
                "modus-alert" "modus-wc-alert.tsx" Fixtures.alert_v2
                Htag Hmap ltac:(discriminate) ltac:(discriminate) Hd eq_refl)
      as (_ & Hamong & _).
    apply Hamong; [exact Hcand|by vm_compute].
Defined.

(** C2, as worded.  A chunk filed under the mapped v2 source can be
    left out of the v2 bucket: the second of two chunks of the same
    source when [k_pick] is one; a chunk ranked after the first 1000 of
    the full scan; and a chunk that is no candidate while another chunk
    of its source is one, so that the scan does not run. *)
Lemma mapped_chunk_can_be_missed :
  ("modus-alert" ∈ fromkeys (findall_tags Fixtures.alert_query)
   ∧ Fixtures.alert_mapping !! "modus-alert.tsx" = Some "modus-wc-alert.tsx"
   ∧ Fixtures.alert_v2_part2 ∈ VectorIndex.docstore Fixtures.split_db
   ∧ source Fixtures.alert_v2_part2 = "v2_component:" +:+ "modus-wc-alert.tsx"
   ∧ v2_bucket Fixtures.split_db Fixtures.alert_query 30 1
       (Some (Fixtures.mapping_state Fixtures.alert_mapping))
     = ["V2 ALERT DOC, part 1"]
   ∧ page_content Fixtures.alert_v2_part2
       ∉ v2_bucket Fixtures.split_db Fixtures.alert_query 30 1
           (Some (Fixtures.mapping_state Fixtures.alert_mapping)))
  ∧ (Fixtures.alert_v2 ∈ VectorIndex.docstore Fixtures.big_db
     ∧ source Fixtures.alert_v2 = "v2_component:" +:+ "modus-wc-alert.tsx"
     ∧ v2_bucket Fixtures.big_db Fixtures.alert_query 30 10
         (Some (Fixtures.mapping_state Fixtures.alert_mapping)) = []
     ∧ page_content Fixtures.alert_v2
         ∉ v2_bucket Fixtures.big_db Fixtures.alert_query 30 10
             (Some (Fixtures.mapping_state Fixtures.alert_mapping)))
  ∧ (Fixtures.alert_v2_part2 ∈ VectorIndex.docstore Fixtures.near_far_db
     ∧ length (VectorIndex.docstore Fixtures.near_far_db) ≤ 1000
     ∧ (page_content Fixtures.alert_v2_part2
          ∉ page_content
              <$> VectorIndex.similarity_search Fixtures.near_far_db Fixtures.alert_query 30)
     ∧ v2_bucket Fixtures.near_far_db Fixtures.alert_query 30 10
         (Some (Fixtures.mapping_state Fixtures.alert_mapping))
       = ["V2 ALERT DOC, part 1"]
     ∧ page_content Fixtures.alert_v2_part2
         ∉ v2_bucket Fixtures.near_far_db Fixtures.alert_query 30 10
             (Some (Fixtures.mapping_state Fixtures.alert_mapping))).
Proof.
  split; [|split].
  - split; [by_compute|].
    split; [by vm_compute|]. split; [right; left|]. split; [reflexivity|].
    split; [by vm_compute|]. by_compute.
  - split; [left|]. split; [reflexivity|].
    split; [by vm_compute|]. by_compute.
  - split; [right; left|]. split; [cbn; lia|]. split; [by_compute|].
    split; [by vm_compute|]. by_compute.
Qed.
End RetrievalFacts.

(** ** The stage chain *)
Section WorkflowFacts.
Import Workflow.

Variable json_loads : string -> option json.
Variable cached_llm_invoke : string -> option nat -> string.
Variable render_prompt : string -> list json -> string.

Abbreviation response_to prompt := (cached_llm_invoke prompt None).

(** Each generative stage stores the decoded response, with its own empty
    value as the default. *)
Lemma generate_mapping_decode st :
  generate_mapping json_loads cached_llm_invoke render_prompt st
  = Ok (set_component_map
          (decode json_loads (response_to (mapping_prompt render_prompt st)) (JObj [])) st).
Proof. unfold generate_mapping, decode. by destruct (json_loads _). Qed.

Lemma generate_constraints_decode st :
  generate_constraints json_loads cached_llm_invoke render_prompt st
  = Ok (set_constraints
          (decode json_loads (response_to (constraints_prompt render_prompt st)) (JList []))
          st).
Proof. unfold generate_constraints, decode. by destruct (json_loads _). Qed.

Lemma generate_plan_decode st :
  generate_plan json_loads cached_llm_invoke render_prompt st
  = Ok (set_migration_plan
          (decode json_loads (response_to (plan_prompt render_prompt st)) (JList [])) st).
Proof. unfold generate_plan, decode. by destruct (json_loads _). Qed.

Lemma generate_verification_rules_decode st :
  generate_verification_rules json_loads cached_llm_invoke render_prompt st
  = Ok (set_verification_rules
          (decode json_loads (response_to (rules_prompt render_prompt st)) (JList [])) st).
Proof. unfold generate_verification_rules, decode. by destruct (json_loads _). Qed.

Lemma decode_unparsable response dflt :
  unparsable json_loads response → decode json_loads response dflt = dflt.
Proof. unfold unparsable, decode. by intros ->. Qed.

(** C5. When the code under migration is present and the response of
    the model cannot be decoded, [verify_migration] returns a state whose
    verification rules are the ones it received; the four generative
    stages, on an undecodable response, store their empty value
    instead. *)
Theorem verify_keeps_rules_on_failure st file code :
  current_code st = Some (file, code) →
  unparsable json_loads (response_to (verify_prompt render_prompt st code)) →
  (∃ st', verify_migration json_loads cached_llm_invoke render_prompt st = Ok st'
          ∧ verification_rules st' = verification_rules st)
  ∧ (∀ st0, unparsable json_loads (response_to (rules_prompt render_prompt st0)) →
       ∃ st', generate_verification_rules json_loads cached_llm_invoke render_prompt st0
              = Ok st'
              ∧ verification_rules st' = JList [])
  ∧ (∀ st0, unparsable json_loads (response_to (mapping_prompt render_prompt st0)) →
       ∃ st', generate_mapping json_loads cached_llm_invoke render_prompt st0 = Ok st'
              ∧ component_map st' = JObj [])
  ∧ (∀ st0, unparsable json_loads (response_to (constraints_prompt render_prompt st0)) →
       ∃ st', generate_constraints json_loads cached_llm_invoke render_prompt st0 = Ok st'
              ∧ constraints st' = JList [])
  ∧ (∀ st0, unparsable json_loads (response_to (plan_prompt render_prompt st0)) →
       ∃ st', generate_plan json_loads cached_llm_invoke render_prompt st0 = Ok st'
              ∧ migration_plan st' = JList []).
Proof.
  intros Hcode Hbad. split; [|split; [|split; [|split]]].
  - exists st. unfold verify_migration. rewrite Hcode.
    unfold unparsable in Hbad. by rewrite Hbad.
  - intros st0 H0. eexists. rewrite generate_verification_rules_decode.
    split; [done|]. cbn. by apply decode_unparsable.
  - intros st0 H0. eexists. rewrite generate_mapping_decode.
    split; [done|]. cbn. by apply decode_unparsable.
  - intros st0 H0. eexists. rewrite generate_constraints_decode.
    split; [done|]. cbn. by apply decode_unparsable.
  - intros st0 H0. eexists. rewrite generate_plan_decode.
    split; [done|]. cbn. by apply decode_unparsable.
Qed.

Lemma set_component_map_frame v st f :
  f ≠ F_component_map → same_on f st (set_component_map v st).
Proof. by destruct f. Qed.

Lemma set_constraints_frame v st f :
  f ≠ F_constraints → same_on f st (set_constraints v st).
Proof. by destruct f. Qed.

Lemma set_migration_plan_frame v st f :
  f ≠ F_migration_plan → same_on f st (set_migration_plan v st).
Proof. by destruct f. Qed.

Lemma set_verification_rules_frame v st f :
  f ≠ F_verification_rules → same_on f st (set_verification_rules v st).
Proof. by destruct f. Qed.

(** C9. On an undecodable response each of the four generative stages
    returns a state that holds its empty value in the stage's own field
    and the value received in every other field. *)
Theorem generate_failure_frame st :
  (unparsable json_loads (response_to (mapping_prompt render_prompt st)) →
     ∃ st', generate_mapping json_loads cached_llm_invoke render_prompt st = Ok st'
            ∧ component_map st' = JObj []
            ∧ ∀ f, f ≠ F_component_map → same_on f st st')
  ∧ (unparsable json_loads (response_to (constraints_prompt render_prompt st)) →
     ∃ st', generate_constraints json_loads cached_llm_invoke render_prompt st = Ok st'
            ∧ constraints st' = JList []
            ∧ ∀ f, f ≠ F_constraints → same_on f st st')
  ∧ (unparsable json_loads (response_to (plan_prompt render_prompt st)) →
     ∃ st', generate_plan json_loads cached_llm_invoke render_prompt st = Ok st'
            ∧ migration_plan st' = JList []
            ∧ ∀ f, f ≠ F_migration_plan → same_on f st st')
  ∧ (unparsable json_loads (response_to (rules_prompt render_prompt st)) →
     ∃ st', generate_verification_rules json_loads cached_llm_invoke render_prompt st
            = Ok st'
            ∧ verification_rules st' = JList []
            ∧ ∀ f, f ≠ F_verification_rules → same_on f st st').
Proof.
  split; [|split; [|split]]; intros Hbad; eexists.
  - rewrite generate_mapping_decode, (decode_unparsable _ _ Hbad).
    split; [done|]. split; [done|]. apply set_component_map_frame.
  - rewrite generate_constraints_decode, (decode_unparsable _ _ Hbad).
    split; [done|]. split; [done|]. apply set_constraints_frame.
  - rewrite generate_plan_decode, (decode_unparsable _ _ Hbad).
    split; [done|]. split; [done|]. apply set_migration_plan_frame.
  - rewrite generate_verification_rules_decode, (decode_unparsable _ _ Hbad).
    split; [done|]. split; [done|]. apply set_verification_rules_frame.
Qed.


Variable session : list ContextUnit.

Abbreviation workflow :=
  (build_workflow json_loads cached_llm_invoke render_prompt session).

(** The state [generate_mapping] returns passes the schema when the
    state it received does and the value stored is an object of
    objects. *)
Lemma validates_set_component_map value st :
  validates st = true → dict_of_dicts value = true →
  validates (set_component_map value st) = true.
Proof.
  unfold validates. cbn. intros H Hvalue. repeat (apply andb_true_iff in H as [H ?]).
  repeat (apply andb_true_iff; split); done.
Qed.


End WorkflowFacts.

(** ** Cleaning and decoding a response *)
Section Cleaning.

Variable p : ascii → bool.

Lemma lstrip_kept c s : p c = false → PyStr.lstrip_by p (String c s) = String c s.
Proof. intros H. cbn. by rewrite H. Qed.

Lemma rstrip_kept s c : last_char s = Some c → p c = false → PyStr.rstrip_by p s = s.
Proof.
  intros Hlast Hc. induction s as [|a rest IH]; [done|].
  cbn in *. destruct rest as [|b rest'].
  - injection Hlast as ->. by rewrite Hc.
  - by rewrite (IH Hlast).
Qed.

Lemma strip_kept a rest z :
  last_char (String a rest) = Some z → p a = false → p z = false →
  PyStr.strip_by p (String a rest) = String a rest.
Proof.
  intros Hlast Ha Hz. unfold PyStr.strip_by.
  rewrite lstrip_kept by done. by apply (rstrip_kept _ z).
Qed.

Lemma lstrip_all_app pre s :
  all_chars p pre = true → PyStr.lstrip_by p (pre +:+ s) = PyStr.lstrip_by p s.
Proof.
  induction pre as [|c pre IH]; simpl; [done|].
  intros [Hc Hpre]%andb_true_iff. rewrite Hc. by apply IH.
Qed.

Lemma rstrip_all_chars s : all_chars p s = true → PyStr.rstrip_by p s = "".
Proof.
  induction s as [|a rest IH]; simpl; [done|].
  intros [Ha Hrest]%andb_true_iff. by rewrite IH, Ha.
Qed.

Lemma rstrip_app_all s t :
  all_chars p t = true → PyStr.rstrip_by p (s +:+ t) = PyStr.rstrip_by p s.
Proof.
  intros Ht. induction s as [|a rest IH]; simpl.
  - by apply rstrip_all_chars.
  - by rewrite IH.
Qed.

Lemma strip_between pre suf a rest z :
  all_chars p pre = true → all_chars p suf = true →
  last_char (String a rest) = Some z → p a = false → p z = false →
  PyStr.strip_by p (pre +:+ String a rest +:+ suf) = String a rest.
Proof.
  intros Hpre Hsuf Hlast Ha Hz. unfold PyStr.strip_by.
  rewrite lstrip_all_app by done.
  change (String a rest +:+ suf) with (String a (rest +:+ suf)).
  rewrite lstrip_kept by done.
  change (String a (rest +:+ suf)) with (String a rest +:+ suf).
  rewrite rstrip_app_all by done. by apply (rstrip_kept _ z).
Qed.
End Cleaning.

Lemma kept_not_fence c :
  kept_by_cleaning c = true →
  PyStr.mem c ("```json" +:+ PyStr.NL) = false ∧ PyStr.mem c "```" = false
  ∧ PyStr.is_space c = false.
Proof.
  unfold kept_by_cleaning. intros [H1 H2]%andb_true_iff.
  apply negb_true_iff in H1, H2. split; [done|]. split; [|done].
  cbn. destruct (Ascii.eqb_spec c "`") as [->|_]; [by vm_compute in H1|done].
Qed.

(** A text whose first and last characters are kept by the cleaning
    comes back unchanged, bare or between fences, whatever tag made of
    stripped characters follows the opening fence; a JSON object or
    list, which opens and closes with a bracket, is such a text. *)
Lemma clean_response_fenced a rest z tag :
  let body := String a rest in
  last_char body = Some z →
  kept_by_cleaning a = true → kept_by_cleaning z = true →
  all_chars (fun c => PyStr.mem c ("```json" +:+ PyStr.NL)) tag = true →
  Workflow.clean_response body = body
  ∧ Workflow.clean_response (fenced tag body) = body.
Proof.
  intros body Hlast Ha Hz Htag.
  apply kept_not_fence in Ha as (Ha1 & Ha2 & Ha3), Hz as (Hz1 & Hz2 & Hz3).
  assert (PyStr.strip body = body) as Hws by by apply (strip_kept _ a rest z).
  assert (PyStr.strip_chars "```" body = body) as Htick
    by by apply (strip_kept _ a rest z).
  unfold Workflow.clean_response. split.
  - replace (PyStr.strip_chars ("```json" +:+ PyStr.NL) body) with body;
      [by rewrite Htick, Hws|].
    symmetry. by apply (strip_kept _ a rest z).
  - replace (PyStr.strip_chars ("```json" +:+ PyStr.NL) (fenced tag body)) with body;
      [by rewrite Htick, Hws|].
    symmetry. unfold fenced, PyStr.strip_chars.
    apply (strip_between _ _ _ a rest z); try done.
    clear -Htag. induction tag as [|c tag IH]; [done|].
    simpl in Htag. apply andb_true_iff in Htag as [Hc Htag].
    specialize (IH Htag). simpl in IH |- *. by rewrite Hc.
Qed.

(** ** The stages on example data *)
Section WorkflowExamples.
Import Workflow.

Lemma verify_keeps_rules_on_failure_witness :
  current_code Fixtures.snippet_state
  = Some ("code_snippet", "<modus-alert></modus-alert>")
  ∧ unparsable JsonRef.loads
      (Fixtures.prose_llm
         (verify_prompt Fixtures.node_prompt Fixtures.snippet_state
            "<modus-alert></modus-alert>") None)
  ∧ ∃ st', verify_migration JsonRef.loads Fixtures.prose_llm Fixtures.node_prompt
             Fixtures.snippet_state = Ok st'
           ∧ verification_rules st' = JList [JStr "keep"].
Proof.
  assert (current_code Fixtures.snippet_state
          = Some ("code_snippet", "<modus-alert></modus-alert>")) as Hcode
    by by vm_compute.
  assert (unparsable JsonRef.loads
            (Fixtures.prose_llm
               (verify_prompt Fixtures.node_prompt Fixtures.snippet_state
                  "<modus-alert></modus-alert>") None)) as Hbad
    by by vm_compute.
  split; [exact Hcode|]. split; [exact Hbad|].
  exact (proj1 (verify_keeps_rules_on_failure JsonRef.loads Fixtures.prose_llm
                  Fixtures.node_prompt Fixtures.snippet_state _ _ Hcode Hbad)).
Defined.

Lemma generate_failure_frame_witness :
  unparsable JsonRef.loads
    (Fixtures.prose_llm (constraints_prompt Fixtures.node_prompt Fixtures.snippet_state)
       None)
  ∧ ∃ st', generate_constraints JsonRef.loads Fixtures.prose_llm Fixtures.node_prompt
             Fixtures.snippet_state = Ok st'
           ∧ constraints st' = JList []
           ∧ ∀ f, f ≠ F_constraints → same_on f Fixtures.snippet_state st'.
Proof.
  assert (unparsable JsonRef.loads
            (Fixtures.prose_llm
               (constraints_prompt Fixtures.node_prompt Fixtures.snippet_state) None))
    as Hbad by by vm_compute.
  split; [exact Hbad|].
  exact (proj1 (proj2 (generate_failure_frame JsonRef.loads Fixtures.prose_llm
                         Fixtures.node_prompt Fixtures.snippet_state)) Hbad).
Defined.


(** C8, at the response [null].  The text is valid JSON and decodes to
    the null value, yet the cleaning takes its first letter for a fence
    character: the cleaned text no longer decodes and the stage stores
    its default, bare or between fences. *)
Theorem null_response_decodes_to_default :
  JsonRef.loads "null" = Some JNull
  ∧ clean_response "null" = "ull"
  ∧ clean_response (fenced "json" "null") = "ull"
  ∧ JsonRef.loads "ull" = None
  ∧ decode JsonRef.loads "null" (JList []) = JList []
  ∧ decode JsonRef.loads (fenced "json" "null") (JList []) = JList []
  ∧ generate_constraints JsonRef.loads Fixtures.null_llm Fixtures.node_prompt
      initial_state
    = Ok (set_constraints (JList []) initial_state).
Proof. repeat split; by vm_compute. Qed.

End WorkflowExamples.

(** ** The rule-based analysis *)
Section AnalyzeFacts.
Import Workflow.

Lemma extract_line_guard props line :
  let name := PyStr.strip (PyStr.before_first ":" line) in
  extract_line props line
  = if PyStr.contains ":" line
       && (PyStr.contains "props" (PyStr.lower line)
           || PyStr.contains "property" (PyStr.lower line))
       && (negb (String.eqb name "")
           && negb (bool_decide (PyStr.lower name ∈ ["props"; "properties"])))
    then {[ name ]} ∪ props
    else props.
Proof.
  intros name. unfold extract_line. fold name.
  destruct (PyStr.contains ":" line && _); cbn [andb]; [|done].
  by destruct (negb _ && _).
Qed.

Lemma yields_guard line prop :
  let name := PyStr.strip (PyStr.before_first ":" line) in
  yields line prop
  ↔ prop = name
    ∧ PyStr.contains ":" line
      && (PyStr.contains "props" (PyStr.lower line)
          || PyStr.contains "property" (PyStr.lower line))
      && (negb (String.eqb name "")
          && negb (bool_decide (PyStr.lower name ∈ ["props"; "properties"]))) = true.
Proof.
  intros name. unfold yields. fold name.
  rewrite !andb_true_iff, orb_true_iff, !negb_true_iff, bool_decide_eq_false.
  rewrite String.eqb_neq, !elem_of_cons, elem_of_nil.
  split.
  - intros (H1 & H2 & -> & H3 & H4 & H5). tauto.
  - intros (-> & (H1 & H2) & H3 & H4). tauto.
Qed.

Lemma extract_line_spec props line prop :
  prop ∈ extract_line props line ↔ prop ∈ props ∨ yields line prop.
Proof.
  rewrite extract_line_guard, yields_guard. cbv zeta.
  destruct (_ && _ && _).
  - rewrite elem_of_union, elem_of_singleton. tauto.
  - split; [tauto|]. by intros [?|[_ ?]].
Qed.

Lemma extract_lines_spec lines props prop :
  prop ∈ foldl extract_line props lines
  ↔ prop ∈ props ∨ ∃ line, line ∈ lines ∧ yields line prop.
Proof.
  revert props. induction lines as [|line lines IH]; intros props; cbn.
  - split; [by left|]. intros [?|(line & []%elem_of_nil & _)]; done.
  - rewrite IH, extract_line_spec. split.
    + intros [[?|?]|(l & Hl & Hy)]; [by left| |].
      * right. exists line. split; [left|done].
      * right. exists l. split; [by right|done].
    + intros [?|(l & [->|Hl]%elem_of_cons & Hy)]; [left; by left|left; by right|].
      right. by exists l.
Qed.

Lemma extract_props_text text :
  ∃ props,
    extract_props (JStr text) = Ok props
    ∧ NoDup props
    ∧ ∀ prop, prop ∈ props ↔ ∃ line, line ∈ PyStr.splitlines text ∧ yields line prop.
Proof.
  unfold extract_props. destruct text as [|c text].
  - exists []. split; [done|]. split; [constructor|].
    intros prop. split; [by intros ?%elem_of_nil|].
    by intros (line & ?%elem_of_nil & _).
  - cbn [truthy String.eqb negb]. eexists. split; [done|]. split; [apply NoDup_elements|].
    intros prop. rewrite elem_of_elements, extract_lines_spec.
    split; [intros [?%elem_of_empty|?]; done|by right].
Qed.

Lemma analyze_all_documented components :
  (∀ item, item ∈ components → documented item) →
  ∃ components', analyze_all components = Ok components'
                 ∧ Forall2 analysed components components'.
Proof.
  induction components as [|[name comp] rest IH]; intros Hdoc.
  - exists []. split; [done|constructor].
  - destruct (Hdoc (name, comp)) as (members & text & Hcomp & Htext); [left|].
    destruct IH as (rest' & Hrest & Hall); [intros item Hitem; apply Hdoc; by right|].
    destruct (extract_props_text text) as (props & Hprops & Hnodup & Hmem).
    cbn in Hcomp. subst comp.
    exists ((name, JObj (PyDict.set "props" (JList (JStr <$> props)) members)) :: rest').
    split.
    + unfold analyze_all in *. cbn [mapM]. cbn [analyze_component snd fst].
      rewrite Htext, Hprops. cbn. by rewrite Hrest.
    + constructor; [|done]. unfold analysed. split; [done|].
      exists members, text, props. cbn [fst snd].
      split; [reflexivity|]. split; [exact Htext|]. split; [reflexivity|].
      split; [exact Hnodup|exact Hmem].
Qed.

(** C4. [analyze_components] calls no collaborator: it is a function of
    the state alone.  On a state whose components are objects with a
    text, or nothing, as documentation, it returns a state in which each
    component keeps its name and carries as [props] a duplicate-free
    list of exactly the names its documentation yields: for each line
    with a colon and with [props] or [property] in its lower-case form,
    the text before the first colon, stripped of surrounding blanks,
    unless that text is empty or reads [props] or [properties] in lower
    case.  The other fields of the state are unchanged. *)
Theorem analyze_components_props st :
  (∀ item, item ∈ v1_components st ++ v2_components st → documented item) →
  ∃ st', analyze_components st = Ok st'
         ∧ Forall2 analysed (v1_components st) (v1_components st')
         ∧ Forall2 analysed (v2_components st) (v2_components st')
         ∧ ∀ f, f ≠ F_v1_components → f ≠ F_v2_components → same_on f st st'.
Proof.
  intros Hdoc.
  destruct (analyze_all_documented (v1_components st)) as (v1 & Hv1 & Hall1).
  { intros item Hitem. apply Hdoc, elem_of_app. by left. }
  destruct (analyze_all_documented (v2_components st)) as (v2 & Hv2 & Hall2).
  { intros item Hitem. apply Hdoc, elem_of_app. by right. }
  exists (set_v2_components v2 (set_v1_components v1 st)).
  split; [unfold analyze_components; by rewrite Hv1, Hv2|].
  split; [done|]. split; [done|]. by intros [].
Qed.

Lemma analyze_components_props_witness :
  (∀ item, item ∈ v1_components (Fixtures.doc_state "size property: the size")
                  ++ v2_components (Fixtures.doc_state "size property: the size") →
           documented item)
  ∧ ∃ st', analyze_components (Fixtures.doc_state "size property: the size") = Ok st'
           ∧ Forall2 analysed (v1_components (Fixtures.doc_state "size property: the size"))
               (v1_components st').
Proof.
  assert (∀ item, item ∈ v1_components (Fixtures.doc_state "size property: the size")
                         ++ v2_components (Fixtures.doc_state "size property: the size") →
                  documented item) as Hdoc.
  { intros item [->|[]%elem_of_nil]%elem_of_cons. by eexists _, _. }
  split; [exact Hdoc|].
  destruct (analyze_components_props (Fixtures.doc_state "size property: the size") Hdoc)
    as (st' & Hrun & Hv1 & _).
  by exists st'.
Defined.

(** C4, as worded.  A line with the token [prop] alone yields no name; a
    heading line [Props:] yields none either; and a yielded name loses
    the blanks around it. *)
Lemma extract_props_differs_from_wording :
  (stated_extract_props "my prop: x" = ["my prop"]
   ∧ extract_props (JStr "my prop: x") = Ok [])
  ∧ (stated_extract_props "Props: a, b" = ["Props"]
     ∧ extract_props (JStr "Props: a, b") = Ok [])
  ∧ (stated_extract_props " size property: S" = [" size property"]
     ∧ extract_props (JStr " size property: S") = Ok ["size property"])
  ∧ analyze_components (Fixtures.doc_state "my prop: x")
    = Ok (set_v1_components
            [("modus-button.tsx",
              JObj [("documentation", JStr "my prop: x"); ("props", JList [])])]
            (Fixtures.doc_state "my prop: x")).
Proof. repeat split; by vm_compute. Qed.
End AnalyzeFacts.

(** ** Writers of the state fields *)
Section WriterFacts.
Import Workflow.

Variable json_loads : string -> option json.
Variable cached_llm_invoke : string -> option nat -> string.
Variable render_prompt : string -> list json -> string.
Variable session : list ContextUnit.

Lemma stage_cases node run :
  stage json_loads cached_llm_invoke render_prompt session node = Some run →
  (node = "load_context" ∧ run = load_context json_loads session)
  ∨ (node = "analyze_components" ∧ run = analyze_components)
  ∨ (node = "generate_mapping"
     ∧ run = generate_mapping json_loads cached_llm_invoke render_prompt)
  ∨ (node = "generate_constraints"
     ∧ run = generate_constraints json_loads cached_llm_invoke render_prompt)
  ∨ (node = "generate_plan"
     ∧ run = generate_plan json_loads cached_llm_invoke render_prompt)
  ∨ (node = "generate_verification_rules"
     ∧ run = generate_verification_rules json_loads cached_llm_invoke render_prompt)
  ∨ (node = "migrate_code" ∧ run = migrate_code cached_llm_invoke render_prompt)
  ∨ (node = "verify_migration"
     ∧ run = verify_migration json_loads cached_llm_invoke render_prompt).
Proof.
  unfold stage.
  change (nodes (build_workflow json_loads cached_llm_invoke render_prompt session))
    with [("load_context", load_context json_loads session);
          ("analyze_components", analyze_components);
          ("generate_mapping",
           generate_mapping json_loads cached_llm_invoke render_prompt);
          ("generate_constraints",
           generate_constraints json_loads cached_llm_invoke render_prompt);
          ("generate_plan", generate_plan json_loads cached_llm_invoke render_prompt);
          ("generate_verification_rules",
           generate_verification_rules json_loads cached_llm_invoke render_prompt)].
  cbn [app PyDict.get].
  repeat match goal with
         | |- context [String.eqb node ?s] =>
             destruct (String.eqb_spec node s) as [->|_]; [intros [= <-]; auto 20|]
         end.
  done.
Qed.

Lemma load_constraints_frame units st f :
  f ≠ F_constraints → same_on f st (load_constraints units st).
Proof.
  intros Hf. unfold load_constraints.
  destruct (PyDict.values units) as [|first ?]; [by destruct f|].
  destruct first as [| | | | |members]; try by destruct f.
  destruct (PyDict.get "constraints" members); by destruct f.
Qed.

Lemma load_context_writes st st' f :
  load_context json_loads session st = Ok st' →
  ¬ same_on f st st' → "load_context" ∈ writers f.
Proof.
  unfold load_context. intros [= <-] Hdiff.
  destruct f; cbn [writers]; try (left; fail); exfalso; apply Hdiff.
  all: match goal with
       | |- same_on ?f _ (load_constraints ?u ?s) =>
           pose proof (load_constraints_frame u s f) as Hframe
       end.
  all: cbn in Hframe |- *; rewrite <- Hframe; done.
Qed.

Lemma analyze_components_writes st st' f :
  analyze_components st = Ok st' →
  ¬ same_on f st st' → "analyze_components" ∈ writers f.
Proof.
  unfold analyze_components. intros Hrun Hdiff.
  destruct (analyze_all (v1_components st)) as [v1|]; [|done].
  destruct (analyze_all (v2_components st)) as [v2|]; [|done].
  injection Hrun as <-.
  destruct f; cbn [writers]; try (right; left; fail); exfalso; by apply Hdiff.
Qed.

Lemma generate_mapping_writes st st' f :
  generate_mapping json_loads cached_llm_invoke render_prompt st = Ok st' →
  ¬ same_on f st st' → "generate_mapping" ∈ writers f.
Proof.
  rewrite generate_mapping_decode. intros [= <-] Hdiff.
  destruct f; cbn [writers]; try (left; fail); exfalso; by apply Hdiff.
Qed.

Lemma generate_constraints_writes st st' f :
  generate_constraints json_loads cached_llm_invoke render_prompt st = Ok st' →
  ¬ same_on f st st' → "generate_constraints" ∈ writers f.
Proof.
  rewrite generate_constraints_decode. intros [= <-] Hdiff.
  destruct f; cbn [writers]; try (right; left; fail); exfalso; by apply Hdiff.
Qed.

Lemma generate_plan_writes st st' f :
  generate_plan json_loads cached_llm_invoke render_prompt st = Ok st' →
  ¬ same_on f st st' → "generate_plan" ∈ writers f.
Proof.
  rewrite generate_plan_decode. intros [= <-] Hdiff.
  destruct f; cbn [writers]; try (right; left; fail); exfalso; by apply Hdiff.
Qed.

Lemma generate_verification_rules_writes st st' f :
  generate_verification_rules json_loads cached_llm_invoke render_prompt st = Ok st' →
  ¬ same_on f st st' → "generate_verification_rules" ∈ writers f.
Proof.
  rewrite generate_verification_rules_decode. intros [= <-] Hdiff.
  destruct f; cbn [writers]; try (right; left; fail); exfalso; by apply Hdiff.
Qed.

Lemma migrate_code_writes st st' f :
  migrate_code cached_llm_invoke render_prompt st = Ok st' →
  ¬ same_on f st st' → "migrate_code" ∈ writers f.
Proof.
  unfold migrate_code. intros Hrun Hdiff.
  destruct (current_code st) as [[file code]|]; injection Hrun as <-;
    [|exfalso; apply Hdiff; by destruct f].
  destruct f; cbn [writers]; try (left; fail); exfalso; by apply Hdiff.
Qed.

Lemma verify_migration_writes st st' f :
  verify_migration json_loads cached_llm_invoke render_prompt st = Ok st' →
  ¬ same_on f st st' → "verify_migration" ∈ writers f.
Proof.
  unfold verify_migration. intros Hrun Hdiff.
  destruct (current_code st) as [[file code]|];
    [destruct (json_loads _)|]; injection Hrun as <-;
    try (exfalso; apply Hdiff; by destruct f).
  destruct f; cbn [writers]; try (right; right; left; fail); exfalso; by apply Hdiff.
Qed.

(** A stage changes only the fields it is listed for. *)
Lemma changes_listed node f :
  changes json_loads cached_llm_invoke render_prompt session node f → node ∈ writers f.
Proof.
  intros (run & st & st' & Hstage & Hrun & Hdiff).
  destruct (stage_cases node run Hstage)
    as [[-> ->]|[[-> ->]|[[-> ->]|[[-> ->]|[[-> ->]|[[-> ->]|[[-> ->]|[-> ->]]]]]]]].
  - by apply (load_context_writes st st').
  - by apply (analyze_components_writes st st').
  - by apply (generate_mapping_writes st st').
  - by apply (generate_constraints_writes st st').
  - by apply (generate_plan_writes st st').
  - by apply (generate_verification_rules_writes st st').
  - by apply (migrate_code_writes st st').
  - by apply (verify_migration_writes st st').
Qed.
End WriterFacts.

Section WriterExamples.
Import Workflow.

Ltac show_change st :=
  eexists _, st, _; split; [reflexivity|]; split; [reflexivity|];
  let H := fresh in intros H; vm_compute in H; discriminate H.

Lemma load_context_changes f :
  f ∈ [F_v1_components; F_v2_components; F_constraints; F_migration_plan;
       F_verification_rules] →
  changes JsonRef.loads Fixtures.prose_llm Fixtures.node_prompt Fixtures.seed_session
    "load_context" f.
Proof.
  rewrite !elem_of_cons, elem_of_nil.
  intros [->|[->|[->|[->|[->|[]]]]]]; show_change initial_state.
Qed.

Lemma analyze_components_changes f :
  f ∈ [F_v1_components; F_v2_components] →
  changes JsonRef.loads Fixtures.prose_llm Fixtures.node_prompt [] "analyze_components" f.
Proof.
  rewrite !elem_of_cons, elem_of_nil.
  intros [->|[->|[]]]; show_change Fixtures.loaded_state.
Qed.

Lemma generate_mapping_changes :
  changes JsonRef.loads Fixtures.list_llm Fixtures.node_prompt [] "generate_mapping"
    F_component_map.
Proof. show_change initial_state. Qed.

Lemma generate_constraints_changes :
  changes JsonRef.loads Fixtures.list_llm Fixtures.node_prompt [] "generate_constraints"
    F_constraints.
Proof. show_change initial_state. Qed.

Lemma generate_plan_changes :
  changes JsonRef.loads Fixtures.list_llm Fixtures.node_prompt [] "generate_plan"
    F_migration_plan.
Proof. show_change initial_state. Qed.

Lemma generate_verification_rules_changes :
  changes JsonRef.loads Fixtures.list_llm Fixtures.node_prompt []
    "generate_verification_rules" F_verification_rules.
Proof. show_change initial_state. Qed.

Lemma verify_migration_changes :
  changes JsonRef.loads Fixtures.list_llm Fixtures.node_prompt [] "verify_migration"
    F_verification_rules.
Proof. show_change Fixtures.snippet_state. Qed.

Lemma migrate_code_changes :
  changes JsonRef.loads Fixtures.prose_llm Fixtures.node_prompt [] "migrate_code"
    F_modified_code.
Proof.
  eexists _, Fixtures.snippet_state, _. split; [reflexivity|]. split; [reflexivity|].
  intros H. apply (f_equal (fun m => m !! "code_snippet")) in H.
  vm_compute in H. discriminate H.
Qed.

(** Every listed stage does change its field on some run. *)
Lemma listed_may_write node f : node ∈ writers f → may_write node f.
Proof.
  unfold may_write.
  destruct f; cbn [writers]; rewrite ?elem_of_cons, elem_of_nil;
    intros H; repeat destruct H as [->|H]; try done.
  - eexists _, _, _, _. apply load_context_changes. by_compute.
  - eexists _, _, _, _. apply analyze_components_changes. by_compute.
  - eexists _, _, _, _. apply load_context_changes. by_compute.
  - eexists _, _, _, _. apply analyze_components_changes. by_compute.
  - eexists _, _, _, _. apply generate_mapping_changes.
  - eexists _, _, _, _. apply load_context_changes. by_compute.
  - eexists _, _, _, _. apply generate_constraints_changes.
  - eexists _, _, _, _. apply load_context_changes. by_compute.
  - eexists _, _, _, _. apply generate_plan_changes.
  - eexists _, _, _, _. apply load_context_changes. by_compute.
  - eexists _, _, _, _. apply generate_verification_rules_changes.
  - eexists _, _, _, _. apply verify_migration_changes.
  - eexists _, _, _, _. apply migrate_code_changes.
Qed.

(** C3. Among the eight stages, a stage writes a field exactly when it
    is listed for it: the component map is written by [generate_mapping]
    alone and the modified code by [migrate_code] alone; the constraints
    and the migration plan by [load_context] and by their generative
    stage; the verification rules by [load_context],
    [generate_verification_rules] and [verify_migration]; the two
    component tables by [load_context] and [analyze_components]; the
    current file and the action by no stage. *)
Theorem field_writers node f : may_write node f ↔ node ∈ writers f.
Proof.
  split.
  - intros (jl & llm & rp & ses & Hchanges). by apply (changes_listed jl llm rp ses).
  - apply listed_may_write.
Qed.

(** C3, as worded.  The migration plan has two writers among the stages
    of the wired chain, and the current file has none. *)
Lemma migration_plan_has_two_writers :
  may_write "load_context" F_migration_plan
  ∧ may_write "generate_plan" F_migration_plan
  ∧ "load_context" ≠ "generate_plan"
  ∧ ∀ node, ¬ may_write node F_current_file.
Proof.
  split; [apply listed_may_write; by_compute|].
  split; [apply listed_may_write; by_compute|].
  split; [done|].
  intros node (jl & llm & rp & ses & Hchanges).
  by apply (changes_listed jl llm rp ses), elem_of_nil in Hchanges.
Qed.
End WriterExamples.

(** ** The tag pattern *)
Section TagFacts.
Import Retrieval.

Lemma after_prefix_Some p s rest :
  PyStr.after_prefix p s = Some rest ↔ s = p +:+ rest.
Proof.
  revert s. induction p as [|a p IH]; intros s; cbn.
  - split; [by intros [= ->]|by intros ->].
  - destruct s as [|b s]; [split; [done|by intros [=]]|].
    destruct (Ascii.eqb_spec a b) as [->|Hne].
    + rewrite IH. split; [by intros ->|by intros [= ->]].
    + split; [done|]. intros [= ? ?]. by subst.
Qed.

Lemma tag_chars_all s : all_chars is_tag_char (tag_chars s) = true.
Proof.
  induction s as [|c s IH]; [done|]. cbn.
  destruct (is_tag_char c) eqn:E; [|done]. cbn. by rewrite E.
Qed.

(** The pattern without its optional group: [modus-[a-z-]+]. *)
Lemma match_tag_plain s :
  match_tag s
  = match PyStr.after_prefix "modus-" s with
    | Some rest =>
        match tag_chars rest with
        | EmptyString => None
        | name => Some ("modus-" +:+ name)
        end
    | None => None
    end.
Proof.
  unfold match_tag.
  destruct (PyStr.after_prefix "modus" s) as [rest|] eqn:E.
  - apply after_prefix_Some in E. subst s.
    change (PyStr.after_prefix "modus-" ("modus" +:+ rest))
      with (PyStr.after_prefix "-" rest).
    assert (fmap (M:=option) (fun m => "modus" +:+ m) (match_dash_name rest)
            = match PyStr.after_prefix "-" rest with
              | Some rest0 =>
                  match tag_chars rest0 with
                  | EmptyString => None
                  | name => Some ("modus-" +:+ name)
                  end
              | None => None
              end) as Hplain.
    { unfold match_dash_name. destruct (PyStr.after_prefix "-" rest); [|done].
      by destruct (tag_chars _). }
    destruct (PyStr.after_prefix "-wc" rest) as [rest'|] eqn:E2; [|exact Hplain].
    apply after_prefix_Some in E2. subst rest.
    unfold match_dash_name at 1.
    destruct (PyStr.after_prefix "-" rest') as [rest2|] eqn:E3; [|exact Hplain].
    apply after_prefix_Some in E3. subst rest'.
    destruct (tag_chars rest2) as [|c name] eqn:E4; [exact Hplain|].
    cbn [fmap option_fmap option_map]. rewrite <- Hplain. clear Hplain.
    unfold match_dash_name.
    change (PyStr.after_prefix "-" ("-wc" +:+ "-" +:+ rest2))
      with (Some ("wc-" +:+ rest2)).
    cbv beta iota.
    change (tag_chars ("wc-" +:+ rest2)) with ("wc-" +:+ tag_chars rest2).
    by rewrite E4.
  - destruct (PyStr.after_prefix "modus-" s) as [rest|] eqn:E'; [|done].
    apply after_prefix_Some in E'. subst s. by cbn in E.
Qed.
End TagFacts.

Section TagFacts2.
Import Retrieval.

Lemma findall_from_shape skip code tag :
  tag ∈ findall_from skip code →
  ∃ name, tag = "modus-" +:+ name ∧ name ≠ "" ∧ all_chars is_tag_char name = true.
Proof.
  revert skip. induction code as [|c rest IH]; intros skip; cbn; [by intros ?%elem_of_nil|].
  destruct skip as [|skip]; [|apply IH].
  destruct (Ascii.eqb c "<"); [|apply IH].
  rewrite match_tag_plain.
  destruct (PyStr.after_prefix "modus-" rest) as [after|]; [|apply IH].
  destruct (tag_chars after) as [|a name] eqn:E; [apply IH|].
  intros [->|Hin]%elem_of_cons; [|by apply IH in Hin].
  exists (String a name). split; [done|]. split; [done|].
  rewrite <- E. apply tag_chars_all.
Qed.

(** X1. The optional group [-wc] of the tag pattern never changes what
    is matched: at any position the pattern matches exactly when
    [modus-] and at least one lower-case letter or hyphen follow, and the
    match is [modus-] with the longest run of such characters. *)
Theorem optional_group_is_redundant s :
  match_tag s
  = match PyStr.after_prefix "modus-" s with
    | Some rest =>
        match tag_chars rest with
        | EmptyString => None
        | name => Some ("modus-" +:+ name)
        end
    | None => None
    end.
Proof. apply match_tag_plain. Qed.

Lemma fromkeys_acc (xs acc : list string) :
  let step := fun (seen : list string) (x : string) =>
                if bool_decide (x ∈ seen) then seen else seen ++ [x] in
  NoDup acc →
  NoDup (foldl step acc xs) ∧ ∀ x, x ∈ foldl step acc xs ↔ x ∈ acc ∨ x ∈ xs.
Proof.
  intros step. revert acc. induction xs as [|y xs IH]; intros acc Hacc; cbn.
  - split; [done|]. intros x. rewrite elem_of_nil. tauto.
  - unfold step at 2 4. case_bool_decide as Hy.
    + destruct (IH acc Hacc) as [Hnd Hmem]. split; [done|].
      intros x. rewrite Hmem, elem_of_cons. split; [tauto|].
      intros [?|[->|?]]; tauto.
    + assert (NoDup (acc ++ [y])) as Hacc'.
      { apply NoDup_app. split; [done|]. split; [|apply NoDup_singleton].
        by intros x Hx ->%list_elem_of_singleton. }
      destruct (IH _ Hacc') as [Hnd Hmem]. split; [done|].
      intros x. rewrite Hmem, elem_of_app, list_elem_of_singleton, elem_of_cons. tauto.
Qed.

Lemma fromkeys_spec xs : NoDup (fromkeys xs) ∧ ∀ x, x ∈ fromkeys xs ↔ x ∈ xs.
Proof.
  destruct (fromkeys_acc xs [] (NoDup_nil_2)) as [Hnd Hmem]. split; [exact Hnd|].
  intros x. unfold fromkeys. rewrite Hmem, elem_of_nil. tauto.
Qed.

(** X2. The tags the loop visits are pairwise distinct, they are exactly
    the tags the pattern finds in the query, and each is [modus-]
    followed by a non-empty run of lower-case letters and hyphens. *)
Theorem tags_are_distinct_modus_names code :
  NoDup (fromkeys (findall_tags code))
  ∧ (∀ tag, tag ∈ fromkeys (findall_tags code) ↔ tag ∈ findall_tags code)
  ∧ ∀ tag, tag ∈ findall_tags code →
      ∃ name, tag = "modus-" +:+ name ∧ name ≠ ""
              ∧ all_chars is_tag_char name = true.
Proof.
  destruct (fromkeys_spec (findall_tags code)) as [Hnd Hmem].
  split; [exact Hnd|]. split; [exact Hmem|].
  intros tag. apply findall_from_shape.
Qed.

Lemma findall_from_none skip code :
  PyStr.contains "<modus-" code = false → findall_from skip code = [].
Proof.
  revert skip. induction code as [|c rest IH]; intros skip Hno; [done|].
  cbn [PyStr.contains] in Hno. apply orb_false_iff in Hno as [Hhere Hrest].
  cbn [findall_from]. destruct skip as [|skip]; [|by apply IH].
  destruct (Ascii.eqb_spec c "<") as [->|_]; [|by apply IH].
  rewrite match_tag_plain.
  destruct (PyStr.after_prefix "modus-" rest) as [after|] eqn:E; [|by apply IH].
  exfalso. apply after_prefix_Some in E. subst rest.
  by cbn in Hhere.
Qed.
End TagFacts2.

(** ** Stripping *)
Section StripFacts.
Variable p : ascii → bool.

Lemma lstrip_by_head s c rest : PyStr.lstrip_by p s = String c rest → p c = false.
Proof.
  induction s as [|a s IH]; cbn; [done|].
  destruct (p a) eqn:E; [exact IH|]. by intros [= <- _].
Qed.

Lemma rstrip_by_head a s c rest :
  PyStr.rstrip_by p (String a s) = String c rest → c = a.
Proof.
  cbn. destruct (PyStr.rstrip_by p s); [destruct (p a)|]; by intros [= <- _].
Qed.

Lemma rstrip_by_last s c : last_char (PyStr.rstrip_by p s) = Some c → p c = false.
Proof.
  induction s as [|a s IH]; cbn; [done|].
  destruct (PyStr.rstrip_by p s) as [|b kept] eqn:E.
  - destruct (p a) eqn:Ea; cbn; [done|]. by intros [= <-].
  - cbn. exact IH.
Qed.

Lemma strip_by_trimmed s : trimmed p (PyStr.strip_by p s).
Proof.
  unfold trimmed, PyStr.strip_by. split.
  - destruct (PyStr.rstrip_by p (PyStr.lstrip_by p s)) as [|c rest] eqn:E; [done|].
    destruct (PyStr.lstrip_by p s) as [|a s'] eqn:El; [done|].
    apply rstrip_by_head in E. subst c. by apply lstrip_by_head in El.
  - destruct (last_char _) as [c|] eqn:E; [|done]. by apply rstrip_by_last in E.
Qed.
End StripFacts.

(** ** More on the section-aware retrieval *)
Section RetrievalMore.
Import Retrieval.
Implicit Types (db : VectorIndex.t) (docs : list Document) (k_pick : Z).

Lemma answer_of_buckets db code k_search k_pick state :
  retrieve_context_by_section db code k_search k_pick state
  = ("### V1 COMPONENT" +:+ PyStr.NL
       +:+ PyStr.join (PyStr.NL +:+ PyStr.NL)
             (or_placeholder (v1_bucket db code k_search k_pick state)))
    +:+ (PyStr.NL +:+ PyStr.NL)
    +:+ ("### V2 COMPONENT" +:+ PyStr.NL
           +:+ PyStr.join (PyStr.NL +:+ PyStr.NL)
                 (or_placeholder (v2_bucket db code k_search k_pick state))).
Proof. reflexivity. Qed.

Lemma answer_without_tags db code k_search k_pick state :
  PyStr.contains "<modus-" code = false →
  retrieve_context_by_section db code k_search k_pick state = no_content_answer.
Proof.
  intros Hno.
  assert (findall_tags code = []) as Htags by by apply findall_from_none.
  rewrite answer_of_buckets, v1_bucket_eq, v2_bucket_eq, Htags. reflexivity.
Qed.

(** X3. A query in which [<modus-] does not occur has no tag, and its
    answer is the two blocks with the placeholder, whatever the index,
    the bounds and the state. *)
Theorem no_tag_no_content db code k_search k_pick state :
  PyStr.contains "<modus-" code = false →
  findall_tags code = []
  ∧ retrieve_context_by_section db code k_search k_pick state = no_content_answer.
Proof.
  intros Hno. split; [by apply findall_from_none|by apply answer_without_tags].
Qed.

Lemma slice_to_length {A : Type} k_pick (xs : list A) :
  (0 ≤ k_pick)%Z → length (slice_to k_pick xs) ≤ Z.to_nat k_pick.
Proof.
  intros Hk. unfold slice_to.
  destruct (Z.leb_spec 0 k_pick) as [_|?]; [|lia].
  rewrite length_take. lia.
Qed.

Lemma v2_picks_skipped db docs k_pick file :
  file = "" ∨ file = "Not Found" → v2_picks db docs k_pick (Some file) = [].
Proof. by intros [->| ->]. Qed.

Lemma v2_picks_cases db docs k_pick v2_file :
  v2_picks db docs k_pick v2_file = []
  ∨ ∃ file, v2_file = Some file ∧ file ≠ "" ∧ file ≠ "Not Found".
Proof.
  destruct v2_file as [file|]; [|by left].
  destruct (decide (file = "")) as [->|Hne]; [by left|].
  destruct (decide (file = "Not Found")) as [->|Hns]; [by left|].
  right. by exists file.
Qed.

Lemma bind_length_le {A B : Type} (f : A → list B) (l : list A) n :
  (∀ x, length (f x) ≤ n) → length (l ≫= f) ≤ length l * n.
Proof.
  intros Hf. induction l as [|x l IH]; cbn; [lia|].
  rewrite length_app. specialize (Hf x). lia.
Qed.

Lemma v1_bucket_length db code k_search k_pick state :
  (0 ≤ k_pick)%Z →
  length (v1_bucket db code k_search k_pick state)
    ≤ length (fromkeys (findall_tags code)) * Z.to_nat k_pick.
Proof.
  intros Hk. rewrite v1_bucket_eq. apply bind_length_le. intros tag.
  rewrite v1_picks_eq, length_fmap. by apply slice_to_length.
Qed.

Lemma v2_bucket_length db code k_search k_pick state :
  (0 ≤ k_pick)%Z →
  length (v2_bucket db code k_search k_pick state)
    ≤ length (fromkeys (findall_tags code)) * Z.to_nat k_pick.
Proof.
  intros Hk. rewrite v2_bucket_eq. apply bind_length_le. intros tag.
  destruct (v2_picks_cases db (VectorIndex.similarity_search db code k_search) k_pick
              (mapping_of state !! (tag +:+ ".tsx")))
    as [->|(file & -> & Hne & Hns)]; [cbn; lia|].
  rewrite v2_picks_mapped by done. rewrite length_fmap. by apply slice_to_length.
Qed.

Lemma answer_with_zero_pick db code k_search state :
  retrieve_context_by_section db code k_search 0 state = no_content_answer.
Proof.
  pose proof (v1_bucket_length db code k_search 0 state (Z.le_refl 0)) as H1.
  pose proof (v2_bucket_length db code k_search 0 state (Z.le_refl 0)) as H2.
  rewrite answer_of_buckets.
  replace (v1_bucket db code k_search 0 state) with (@nil string)
    by (symmetry; apply length_zero_iff_nil; cbn in H1; lia).
  replace (v2_bucket db code k_search 0 state) with (@nil string)
    by (symmetry; apply length_zero_iff_nil; cbn in H2; lia).
  reflexivity.
Qed.

(** X4. With a non-negative [k_pick] each tag adds at most [k_pick]
    texts to a bucket, so that a bucket holds at most [k_pick] texts per
    tag of the query; with [k_pick] zero both buckets stay empty and the
    answer is the two placeholders. *)
Theorem buckets_are_bounded db code k_search k_pick state :
  (0 ≤ k_pick)%Z →
  length (v1_bucket db code k_search k_pick state)
    ≤ length (fromkeys (findall_tags code)) * Z.to_nat k_pick
  ∧ length (v2_bucket db code k_search k_pick state)
      ≤ length (fromkeys (findall_tags code)) * Z.to_nat k_pick
  ∧ (k_pick = 0%Z →
     retrieve_context_by_section db code k_search k_pick state = no_content_answer).
Proof.
  intros Hk. split; [by apply v1_bucket_length|]. split; [by apply v2_bucket_length|].
  intros ->. apply answer_with_zero_pick.
Qed.

Lemma search_subset db query k d :
  d ∈ VectorIndex.similarity_search db query k → d ∈ VectorIndex.docstore db.
Proof.
  unfold VectorIndex.similarity_search. intros (i & Hi & _)%elem_of_take.
  apply list_elem_of_lookup_2 in Hi. by rewrite rank_perm in Hi.
Qed.

(** X5. Every text of the v1 bucket is the text of one of the [k_search]
    candidates of the similarity search, filed under the v1 source of a
    tag of the query: the v1 branch never looks beyond the candidates. *)
Theorem v1_bucket_from_candidates db code k_search k_pick state text :
  text ∈ v1_bucket db code k_search k_pick state →
  ∃ tag d,
    tag ∈ findall_tags code
    ∧ d ∈ VectorIndex.similarity_search db code k_search
    ∧ d ∈ VectorIndex.docstore db
    ∧ source d = "v1_component:" +:+ tag +:+ ".tsx"
    ∧ page_content d = text.
Proof.
  rewrite v1_bucket_eq. intros (tag & Htext & Htag)%list_elem_of_bind.
  rewrite v1_picks_eq in Htext.
  apply list_elem_of_fmap in Htext as (d & -> & Hd).
  apply slice_to_subset, list_elem_of_filter in Hd as [Hsrc Hd].
  exists tag, d. split; [by apply fromkeys_spec|]. split; [done|].
  split; [by apply search_subset in Hd|]. done.
Qed.

(** X6. Every text of the v2 bucket is the text of a chunk of the index
    filed under the v2 source of a file to which the mapping sends a tag
    of the query, that file being neither empty nor [Not Found]; the
    chunk is one of the candidates or one of the first 1000 results of
    the scan. *)
Theorem v2_bucket_from_mapping db code k_search k_pick state text :
  text ∈ v2_bucket db code k_search k_pick state →
  ∃ tag file d,
    tag ∈ findall_tags code
    ∧ mapping_of state !! (tag +:+ ".tsx") = Some file
    ∧ file ≠ "" ∧ file ≠ "Not Found"
    ∧ (d ∈ VectorIndex.similarity_search db code k_search
       ∨ d ∈ VectorIndex.similarity_search db "" 1000)
    ∧ d ∈ VectorIndex.docstore db
    ∧ source d = "v2_component:" +:+ file
    ∧ page_content d = text.
Proof.
  rewrite v2_bucket_eq. intros (tag & Htext & Htag)%list_elem_of_bind.
  destruct (v2_picks_cases db (VectorIndex.similarity_search db code k_search) k_pick
              (mapping_of state !! (tag +:+ ".tsx")))
    as [Hnil|(file & Hfile & Hne & Hns)]; [rewrite Hnil in Htext; by apply elem_of_nil in Htext|].
  rewrite Hfile, v2_picks_mapped in Htext by done.
  apply list_elem_of_fmap in Htext as (d & -> & Hd).
  apply slice_to_subset in Hd.
  assert (source d = "v2_component:" +:+ file
          ∧ (d ∈ VectorIndex.similarity_search db code k_search
             ∨ d ∈ VectorIndex.similarity_search db "" 1000)) as [Hsrc Hwhere].
  { destruct (with_source _ (VectorIndex.similarity_search db code k_search))
      as [|d0 l0] eqn:E.
    - apply list_elem_of_filter in Hd as [? ?]. split; [done|by right].
    - rewrite <- E in Hd. apply list_elem_of_filter in Hd as [? ?]. split; [done|by left]. }
  exists tag, file, d. split; [by apply fromkeys_spec|].
  split; [done|]. split; [done|]. split; [done|]. split; [done|].
  split; [|done]. destruct Hwhere as [H|H]; by apply search_subset in H.
Qed.

(** X7. A tag mapped to the empty text is treated as a tag without
    entry: the answer is the one obtained with the entry removed. *)
Theorem empty_value_is_unmapped db code k_search k_pick st m tag :
  Mapping_v1_v2 st = Some m →
  m !! (tag +:+ ".tsx") = Some "" →
  retrieve_context_by_section db code k_search k_pick (Some st)
  = retrieve_context_by_section db code k_search k_pick
      (Some (mkState (Some (delete (tag +:+ ".tsx") m))
               (verification_rules st) (migration_plan st))).
Proof.
  intros Hm Hkey.
  assert (mapping_of (Some st) = m) as Hst.
  { unfold mapping_of, state_truthy. by rewrite Hm. }
  rewrite !answer_of_buckets, !v1_bucket_eq, !v2_bucket_eq, Hst.
  cbn [mapping_of state_truthy Mapping_v1_v2 default id].
  assert ((fromkeys (findall_tags code) ≫= fun tag0 =>
             v2_picks db (VectorIndex.similarity_search db code k_search) k_pick
               (m !! (tag0 +:+ ".tsx")))
          = (fromkeys (findall_tags code) ≫= fun tag0 =>
               v2_picks db (VectorIndex.similarity_search db code k_search) k_pick
                 (delete (tag +:+ ".tsx") m !! (tag0 +:+ ".tsx")))) as Hv2.
  { apply bind_ext_in. intros tag' _.
    destruct (decide (tag' +:+ ".tsx" = tag +:+ ".tsx")) as [->|Hne].
    - by rewrite Hkey, lookup_delete_eq.
    - by rewrite lookup_delete_ne. }
  by rewrite Hv2.
Qed.
End RetrievalMore.

Section RetrievalWitnesses.
Import Retrieval.

Lemma no_tag_no_content_witness :
  PyStr.contains "<modus-" "<div>no component here</div>" = false
  ∧ retrieve_context_by_section Fixtures.alert_db "<div>no component here</div>" 30 10
      (Some (Fixtures.mapping_state Fixtures.alert_mapping))
    = no_content_answer.
Proof.
  split; [reflexivity|].
  apply (no_tag_no_content Fixtures.alert_db "<div>no component here</div>" 30 10
           (Some (Fixtures.mapping_state Fixtures.alert_mapping))).
  reflexivity.
Defined.

Lemma buckets_are_bounded_witness :
  (0 ≤ 1)%Z
  ∧ length (v2_bucket Fixtures.split_db Fixtures.alert_query 30 1
              (Some (Fixtures.mapping_state Fixtures.alert_mapping)))
    ≤ length (fromkeys (findall_tags Fixtures.alert_query)) * Z.to_nat 1.
Proof.
  split; [lia|].
  apply (buckets_are_bounded Fixtures.split_db Fixtures.alert_query 30 1
           (Some (Fixtures.mapping_state Fixtures.alert_mapping))).
  lia.
Defined.

Lemma v1_bucket_from_candidates_witness :
  "V1 ALERT DOC" ∈ v1_bucket Fixtures.alert_db Fixtures.alert_query 5 5 None
  ∧ ∃ tag d,
      tag ∈ findall_tags Fixtures.alert_query
      ∧ d ∈ VectorIndex.similarity_search Fixtures.alert_db Fixtures.alert_query 5
      ∧ d ∈ VectorIndex.docstore Fixtures.alert_db
      ∧ source d = "v1_component:" +:+ tag +:+ ".tsx"
      ∧ page_content d = "V1 ALERT DOC".
Proof.
  assert ("V1 ALERT DOC" ∈ v1_bucket Fixtures.alert_db Fixtures.alert_query 5 5 None)
    as Hin by by_compute.
  split; [exact Hin|].
  exact (v1_bucket_from_candidates Fixtures.alert_db Fixtures.alert_query 5 5 None
           "V1 ALERT DOC" Hin).
Defined.

Lemma v2_bucket_from_mapping_witness :
  "V2 ALERT DOC" ∈ v2_bucket Fixtures.alert_db Fixtures.alert_query 5 5
                     (Some (Fixtures.mapping_state Fixtures.alert_mapping))
  ∧ ∃ tag file d,
      tag ∈ findall_tags Fixtures.alert_query
      ∧ mapping_of (Some (Fixtures.mapping_state Fixtures.alert_mapping))
          !! (tag +:+ ".tsx") = Some file
      ∧ file ≠ "" ∧ file ≠ "Not Found"
      ∧ (d ∈ VectorIndex.similarity_search Fixtures.alert_db Fixtures.alert_query 5
         ∨ d ∈ VectorIndex.similarity_search Fixtures.alert_db "" 1000)
      ∧ d ∈ VectorIndex.docstore Fixtures.alert_db
      ∧ source d = "v2_component:" +:+ file
      ∧ page_content d = "V2 ALERT DOC".
Proof.
  assert ("V2 ALERT DOC" ∈ v2_bucket Fixtures.alert_db Fixtures.alert_query 5 5
                             (Some (Fixtures.mapping_state Fixtures.alert_mapping)))
    as Hin by by_compute.
  split; [exact Hin|].
  exact (v2_bucket_from_mapping Fixtures.alert_db Fixtures.alert_query 5 5
           (Some (Fixtures.mapping_state Fixtures.alert_mapping)) "V2 ALERT DOC" Hin).
Defined.

Lemma empty_value_is_unmapped_witness :
  Mapping_v1_v2 (Fixtures.mapping_state Fixtures.blank_mapping) = Some Fixtures.blank_mapping
  ∧ Fixtures.blank_mapping !! ("modus-alert" +:+ ".tsx") = Some ""
  ∧ retrieve_context_by_section Fixtures.alert_db Fixtures.alert_query 30 10
      (Some (Fixtures.mapping_state Fixtures.blank_mapping))
    = retrieve_context_by_section Fixtures.alert_db Fixtures.alert_query 30 10
        (Some (mkState (Some (delete ("modus-alert" +:+ ".tsx") Fixtures.blank_mapping))
                 None None)).
Proof.
  split; [reflexivity|]. split; [by vm_compute|].
  apply (empty_value_is_unmapped Fixtures.alert_db Fixtures.alert_query 30 10
           (Fixtures.mapping_state Fixtures.blank_mapping) Fixtures.blank_mapping "modus-alert");
    [reflexivity|by vm_compute].
Defined.
End RetrievalWitnesses.

(** ** The migration call and the endpoints *)
Section ApiFacts.
Import Retrieval.

Variable migration_prompt :
  gmap string string -> json -> json -> option string -> string -> string.
Variable chat_llm : string -> string.
Variable count_tokens : string -> nat.

(** X8. The migration endpoint fails on every request: it calls
    [migrate_with_llm] without a state, and the call raises [KeyError]
    at the first entry it reads, whatever the code, the context and the
    collaborators. *)
Theorem migrate_endpoint_always_raises db code context :
  Api.migrate_with_llm migration_prompt chat_llm code context None = Raise "KeyError"
  ∧ Api.migrate_with_llm migration_prompt chat_llm code context (Some Api.empty_state)
    = Raise "KeyError"
  ∧ Api.migrate migration_prompt chat_llm count_tokens db code = Raise "KeyError".
Proof. done. Qed.

(** X9. [migrate_with_llm] returns an answer exactly when the state
    holds the three entries [Mapping_v1_v2], [verification_rules] and
    [migration_plan]; any other state makes it raise [KeyError].  The
    answer is the reply of the model to the prompt built from these
    entries, without the blanks around it. *)
Theorem migrate_with_llm_outcome code context state :
  match state ≫= Mapping_v1_v2, state ≫= verification_rules, state ≫= migration_plan with
  | Some mapping, Some rules, Some plan =>
      ∃ answer,
        Api.migrate_with_llm migration_prompt chat_llm code context state = Ok answer
        ∧ answer = PyStr.strip (chat_llm (migration_prompt mapping rules plan context code))
        ∧ trimmed PyStr.is_space answer
  | _, _, _ =>
      Api.migrate_with_llm migration_prompt chat_llm code context state = Raise "KeyError"
  end.
Proof.
  unfold Api.migrate_with_llm.
  destruct state as [[[m|] [r|] [p|]]|]; cbn; try done.
  eexists. split; [done|]. split; [done|]. apply strip_by_trimmed.
Qed.

(** X10. The sectioned endpoint searches 30 candidates and uses the [k]
    of the request as [k_pick]: a request with [k] zero, or a query in
    which [<modus-] does not occur, is answered by the two placeholder
    blocks and their token count. *)
Theorem sectioned_endpoint_without_content db state req :
  Api.k req = 0%Z ∨ PyStr.contains "<modus-" (Api.query req) = false →
  Api.retrieve_by_section count_tokens db state req
  = Api.mkContextAnswer no_content_answer (count_tokens no_content_answer).
Proof.
  unfold Api.retrieve_by_section. intros [Hk|Hq].
  - by rewrite Hk, answer_with_zero_pick.
  - by rewrite answer_without_tags.
Qed.
End ApiFacts.

Lemma sectioned_endpoint_without_content_witness :
  (Api.k (Api.mkRetrieveRequest Fixtures.alert_query 0) = 0%Z
   ∨ PyStr.contains "<modus-" (Api.query (Api.mkRetrieveRequest Fixtures.alert_query 0))
     = false)
  ∧ Api.retrieve_by_section String.length Fixtures.alert_db Fixtures.full_state
      (Api.mkRetrieveRequest Fixtures.alert_query 0)
    = Api.mkContextAnswer no_content_answer (String.length no_content_answer).
Proof.
  assert (Api.k (Api.mkRetrieveRequest Fixtures.alert_query 0) = 0%Z
          ∨ PyStr.contains "<modus-"
              (Api.query (Api.mkRetrieveRequest Fixtures.alert_query 0)) = false) as H
    by (left; reflexivity).
  split; [exact H|].
  exact (sectioned_endpoint_without_content String.length Fixtures.alert_db Fixtures.full_state
           (Api.mkRetrieveRequest Fixtures.alert_query 0) H).
Defined.

Example migrate_with_llm_on_full_state :
  Api.migrate_with_llm Fixtures.plain_prompt Fixtures.echo_llm "<modus-alert></modus-alert>" None
    (Some Fixtures.full_state)
  = Ok "<modus-wc-alert></modus-wc-alert>".
Proof. by vm_compute. Qed.

(** ** Building the index *)
Section IndexBuildFacts.
Import Retrieval IndexBuild Workflow.

Variable split_text : string -> list string.

Lemma filter_bind {A B : Type} (P : B → Prop) `{∀ x, Decision (P x)}
    (f : A → list B) (l : list A) :
  filter P (l ≫= f) = l ≫= fun x => filter P (f x).
Proof.
  induction l as [|x l IH]; cbn; [done|]. by rewrite filter_app, IH.
Qed.

Lemma chunk_content_sources content section_name name key :
  filter (fun doc => source doc = key)
    (chunk_content split_text content section_name name)
  = if decide (section_name +:+ ":" +:+ name = key)
    then chunk_content split_text content section_name name
    else [].
Proof.
  unfold chunk_content.
  induction (split_text _) as [|chunk chunks IH]; [by destruct (decide _)|].
  rewrite fmap_cons, filter_cons, IH. cbn [source]. by destruct (decide _).
Qed.

Lemma bind_filter_eq {A B : Type} (P : A → Prop) `{∀ x, Decision (P x)}
    (f g : A → list B) (l : list A) :
  (∀ x, x ∈ l → g x = if decide (P x) then f x else []) →
  l ≫= g = filter P l ≫= f.
Proof.
  induction l as [|x l IH]; intros Hg; [done|].
  rewrite filter_cons, bind_cons, (Hg x) by left.
  rewrite IH by (intros y Hy; apply Hg; by right).
  by destruct (decide (P x)).
Qed.

(** X11. In the documents built for the index, the chunks filed under
    the v1 source of a name are exactly the chunks of the v1 rows of that
    name, in order, and likewise for v2: the exact-source filter of the
    retrieval selects one component of one version. *)
Theorem built_sources_select_component session component :
  with_source ("v1_component:" +:+ component) (build_documents split_text session)
  = filter (fun unit => name unit = component)
      (units_of ["v1_component"; "v1_components"] session)
    ≫= (fun unit => chunk_content split_text (content unit) "v1_component" (name unit))
  ∧ with_source ("v2_component:" +:+ component) (build_documents split_text session)
    = filter (fun unit => name unit = component)
        (units_of ["v2_component"; "v2_components"] session)
      ≫= (fun unit => chunk_content split_text (content unit) "v2_component" (name unit)).
Proof.
  unfold build_documents, with_source. rewrite !filter_app, !filter_bind. split.
  - rewrite (bind_nil_all _ (units_of ["v2_component"; "v2_components"] session)).
    + rewrite app_nil_r. apply bind_filter_eq. intros unit _.
      rewrite (chunk_content_sources _ _ _ ("v1_component:" +:+ component)).
      destruct (decide (name unit = component)) as [->|Hne];
        destruct (decide _) as [Heq|Hneq]; try done.
      cbn in Heq. by injection Heq.
    + intros unit. rewrite (chunk_content_sources _ _ _ ("v1_component:" +:+ component)).
      by destruct (decide _).
  - rewrite (bind_nil_all _ (units_of ["v1_component"; "v1_components"] session)).
    + rewrite app_nil_l. apply bind_filter_eq. intros unit _.
      rewrite (chunk_content_sources _ _ _ ("v2_component:" +:+ component)).
      destruct (decide (name unit = component)) as [->|Hne];
        destruct (decide _) as [Heq|Hneq]; try done.
      cbn in Heq. by injection Heq.
    + intros unit. rewrite (chunk_content_sources _ _ _ ("v2_component:" +:+ component)).
      by destruct (decide _).
Qed.

Lemma built_document_origin session d :
  d ∈ build_documents split_text session →
  ∃ unit section_name,
    unit ∈ session
    ∧ ((section_name = "v1_component" ∧ type unit ∈ ["v1_component"; "v1_components"])
       ∨ (section_name = "v2_component" ∧ type unit ∈ ["v2_component"; "v2_components"]))
    ∧ source d = section_name +:+ ":" +:+ name unit
    ∧ page_content d ∈ split_text (content_str (content unit) section_name (name unit)).
Proof.
  unfold build_documents. intros [Hd|Hd]%elem_of_app;
    apply list_elem_of_bind in Hd as (unit & Hd & Hunit);
    apply list_elem_of_filter in Hunit as [Htype Hunit];
    apply list_elem_of_fmap in Hd as (chunk & -> & Hchunk).
  - exists unit, "v1_component". split; [done|]. split; [by left|]. by split.
  - exists unit, "v2_component". split; [done|]. split; [by right|]. by split.
Qed.

(** X12. Every document built for the index comes from a row of the
    store of type [v1_component(s)] or [v2_component(s)]: its source is
    the version and the name of the row, and its text is one of the
    pieces into which the splitter cuts the headed content of the row;
    the documents of the v1 rows come first. *)
Theorem built_documents_come_from_rows session :
  (∀ d, d ∈ build_documents split_text session →
     ∃ unit section_name,
       unit ∈ session
       ∧ ((section_name = "v1_component"
           ∧ type unit ∈ ["v1_component"; "v1_components"])
          ∨ (section_name = "v2_component"
             ∧ type unit ∈ ["v2_component"; "v2_components"]))
       ∧ source d = section_name +:+ ":" +:+ name unit
       ∧ page_content d
           ∈ split_text (content_str (content unit) section_name (name unit)))
  ∧ ∃ v1_docs v2_docs,
      build_documents split_text session = v1_docs ++ v2_docs
      ∧ (∀ d, d ∈ v1_docs → PyStr.startswith "v1_component:" (source d) = true)
      ∧ (∀ d, d ∈ v2_docs → PyStr.startswith "v2_component:" (source d) = true).
Proof.
  split; [apply built_document_origin|].
  eexists _, _. split; [reflexivity|].
  split; intros d (unit & Hd & _)%list_elem_of_bind;
    by apply list_elem_of_fmap in Hd as (chunk & -> & _).
Qed.

(** X13. Retrieval over a built index: every text of the v1 bucket is a
    piece of the headed content of a v1 row named after a tag of the
    query, with the suffix [.tsx]. *)
Theorem v1_bucket_of_built_index distance session code k_search k_pick state text :
  text ∈ v1_bucket (build_vector_index split_text distance session) code k_search k_pick
           state →
  ∃ tag unit,
    tag ∈ findall_tags code
    ∧ unit ∈ session
    ∧ type unit ∈ ["v1_component"; "v1_components"]
    ∧ name unit = tag +:+ ".tsx"
    ∧ text ∈ split_text (content_str (content unit) "v1_component" (name unit)).
Proof.
  rewrite v1_bucket_eq. intros (tag & Htext & Htag)%list_elem_of_bind.
  rewrite v1_picks_eq in Htext.
  apply list_elem_of_fmap in Htext as (d & -> & Hd).
  apply slice_to_subset, list_elem_of_filter in Hd as [Hsrc Hd].
  apply search_subset, built_document_origin in Hd
    as (unit & section_name & Hunit & Hkind & Hsource & Hpiece).
  rewrite Hsrc in Hsource.
  destruct Hkind as [[-> Htype]|[-> _]]; [|by cbn in Hsource].
  cbn in Hsource. injection Hsource as Hname.
  exists tag, unit. split; [by apply fromkeys_spec|]. split; [done|].
  split; [done|]. split; [by cbn in Hname|]. exact Hpiece.
Qed.
End IndexBuildFacts.

Lemma v1_bucket_of_built_index_witness :
  "old alert"
    ∈ Retrieval.v1_bucket
        (IndexBuild.build_vector_index Fixtures.line_splitter (fun _ _ => 0) Fixtures.alert_units)
        Fixtures.alert_query 5 5 None
  ∧ ∃ tag unit,
      tag ∈ Retrieval.findall_tags Fixtures.alert_query
      ∧ unit ∈ Fixtures.alert_units
      ∧ Workflow.type unit ∈ ["v1_component"; "v1_components"]
      ∧ Workflow.name unit = tag +:+ ".tsx"
      ∧ "old alert"
          ∈ Fixtures.line_splitter
              (IndexBuild.content_str (Workflow.content unit) "v1_component"
                 (Workflow.name unit)).
Proof.
  assert ("old alert"
            ∈ Retrieval.v1_bucket
                (IndexBuild.build_vector_index Fixtures.line_splitter (fun _ _ => 0) Fixtures.alert_units)
                Fixtures.alert_query 5 5 None) as Hin by by_compute.
  split; [exact Hin|].
  exact (v1_bucket_of_built_index Fixtures.line_splitter (fun _ _ => 0) Fixtures.alert_units
           Fixtures.alert_query 5 5 None "old alert" Hin).
Defined.

(** ** Ordered dictionaries *)
Section DictFacts.
Context {V : Type}.
Implicit Types (d : PyDict.t V) (k : string) (v : V).

Lemma dict_get_set_eq d k v : PyDict.get k (PyDict.set k v d) = Some v.
Proof.
  induction d as [|[k' v'] d IH]; cbn; [by rewrite String.eqb_refl|].
  destruct (String.eqb_spec k k') as [->|Hne]; cbn.
  - by rewrite String.eqb_refl.
  - destruct (String.eqb_spec k k'); [done|exact IH].
Qed.

Lemma dict_get_set_ne d k k' v :
  k' ≠ k → PyDict.get k' (PyDict.set k v d) = PyDict.get k' d.
Proof.
  intros Hne. induction d as [|[k0 v0] d IH]; cbn.
  - by destruct (String.eqb_spec k' k).
  - destruct (String.eqb_spec k k0) as [->|Hk]; cbn.
    + by destruct (String.eqb_spec k' k0).
    + destruct (String.eqb_spec k' k0); [done|exact IH].
Qed.

Lemma dict_set_set d k v v' : PyDict.set k v (PyDict.set k v' d) = PyDict.set k v d.
Proof.
  induction d as [|[k0 v0] d IH]; cbn; [by rewrite String.eqb_refl|].
  destruct (String.eqb_spec k k0) as [->|Hk]; cbn.
  - by rewrite String.eqb_refl.
  - destruct (String.eqb_spec k k0); [done|]. by rewrite IH.
Qed.

Lemma dict_keys_set d k v :
  PyDict.keys (PyDict.set k v d)
  = if PyDict.has k d then PyDict.keys d else PyDict.keys d ++ [k].
Proof.
  unfold PyDict.has, PyDict.keys. induction d as [|[k0 v0] d IH]; cbn; [done|].
  destruct (String.eqb_spec k k0) as [->|Hk]; cbn; [done|].
  rewrite IH. by destruct (PyDict.get k d).
Qed.

Lemma dict_has_keys d k : PyDict.has k d = true ↔ k ∈ PyDict.keys d.
Proof.
  unfold PyDict.has, PyDict.keys. induction d as [|[k0 v0] d IH]; cbn.
  - split; [done|by intros ?%elem_of_nil].
  - rewrite elem_of_cons. destruct (String.eqb_spec k k0) as [->|Hk]; [tauto|].
    rewrite IH. tauto.
Qed.

Lemma dict_keys_set_NoDup d k v :
  NoDup (PyDict.keys d) → NoDup (PyDict.keys (PyDict.set k v d)).
Proof.
  intros Hnd. rewrite dict_keys_set. destruct (PyDict.has k d) eqn:E; [done|].
  apply NoDup_app. split; [done|]. split; [|apply NoDup_singleton].
  intros x Hx ->%list_elem_of_singleton. apply dict_has_keys in Hx. congruence.
Qed.

Lemma dict_get_elem d k v : PyDict.get k d = Some v → (k, v) ∈ d.
Proof.
  induction d as [|[k0 v0] d IH]; cbn; [done|].
  destruct (String.eqb_spec k k0) as [->|Hk].
  - intros [= ->]. left.
  - intros H. right. by apply IH.
Qed.

Lemma dict_elem_set d k v item :
  item ∈ PyDict.set k v d → item = (k, v) ∨ item ∈ d.
Proof.
  induction d as [|[k0 v0] d IH]; cbn.
  - intros ?%list_elem_of_singleton. by left.
  - destruct (String.eqb_spec k k0) as [->|Hk].
    + intros [->|?]%elem_of_cons; [by left|right; by right].
    + intros [->|H]%elem_of_cons; [right; left|].
      destruct (IH H); [by left|right; by right].
Qed.
End DictFacts.

(** ** Loading the context *)
Section LoadFacts.
Import Workflow.

Variable json_loads : string -> option json.
Variable session : list ContextUnit.

Lemma load_unit_value units unit :
  load_unit json_loads units unit
  = match loaded_value json_loads unit with
    | Some value => PyDict.set (name unit) value units
    | None => units
    end.
Proof. unfold load_unit, loaded_value. by destruct (_ || _). Qed.

Lemma load_rows_spec rows units :
  NoDup (PyDict.keys units) →
  NoDup (PyDict.keys (foldl (load_unit json_loads) units rows))
  ∧ ∀ key value,
      (key, value) ∈ foldl (load_unit json_loads) units rows →
      (key, value) ∈ units
      ∨ ∃ unit, unit ∈ rows ∧ name unit = key
                ∧ loaded_value json_loads unit = Some value.
Proof.
  revert units. induction rows as [|unit rows IH]; intros units Hnd; cbn.
  - split; [done|]. intros key value Hin. by left.
  - rewrite load_unit_value.
    destruct (loaded_value json_loads unit) as [value0|] eqn:E.
    + destruct (IH (PyDict.set (name unit) value0 units)) as [Hkeys Hitems];
        [by apply dict_keys_set_NoDup|].
      split; [done|]. intros key value Hin.
      destruct (Hitems key value Hin) as [Hset|(u & Hu & Hname & Hval)].
      * apply dict_elem_set in Hset as [[= -> ->]|Hold]; [|by left].
        right. exists unit. split; [left|done].
      * right. exists u. split; [by right|done].
    + destruct (IH units Hnd) as [Hkeys Hitems]. split; [done|].
      intros key value Hin.
      destruct (Hitems key value Hin) as [?|(u & Hu & Hname & Hval)]; [by left|].
      right. exists u. split; [by right|done].
Qed.

(** X14. [load_context_units] returns a dictionary whose names are
    pairwise distinct; each entry comes from a row of the requested type
    with that name, and holds the row's content as text when the stripped
    content opens with no bracket, and its decoded JSON value otherwise;
    a bracketed row that fails to decode adds nothing and raises
    nothing. *)
Theorem load_context_units_entries type_ :
  NoDup (PyDict.keys (load_context_units json_loads session type_))
  ∧ ∀ key value,
      (key, value) ∈ load_context_units json_loads session type_ →
      ∃ unit,
        unit ∈ session ∧ type unit = type_ ∧ name unit = key
        ∧ loaded_value json_loads unit = Some value.
Proof.
  unfold load_context_units.
  destruct (load_rows_spec (filter (fun unit => type unit = type_) session) [])
    as [Hkeys Hitems]; [constructor|].
  split; [exact Hkeys|]. intros key value Hin.
  destruct (Hitems key value Hin) as [[]%elem_of_nil|(unit & Hunit & Hname & Hval)].
  apply list_elem_of_filter in Hunit as [Htype Hunit]. by exists unit.
Qed.

(** The last row of a type decides the entry of its name. *)
Lemma load_context_units_last type_ unit value :
  last (filter (fun unit => type unit = type_) session) = Some unit →
  loaded_value json_loads unit = Some value →
  PyDict.get (name unit) (load_context_units json_loads session type_) = Some value.
Proof.
  unfold load_context_units. intros (rows & ->)%last_Some Hval.
  rewrite foldl_app. cbn. rewrite load_unit_value, Hval. apply dict_get_set_eq.
Qed.

Abbreviation loaded st := (load_context json_loads session st).

Lemma load_context_eq st :
  loaded st
  = Ok (load_constraints (load_context_units json_loads session "constraints")
          (set_verification_rules
             (JList (PyDict.values (load_context_units json_loads session
                                      "verification_rules")))
             (set_migration_plan
                (JList (PyDict.values (load_context_units json_loads session
                                         "migration_plan")))
                (set_v2_components
                   (attach_doc (load_context_units json_loads session "v2_docs")
                      <$> load_context_units json_loads session "v2_components")
                   (set_v1_components
                      (attach_doc (load_context_units json_loads session "v1_docs")
                         <$> load_context_units json_loads session "v1_components")
                      st))))).
Proof. reflexivity. Qed.

Lemma load_constraints_cases units st :
  (units = [] ∧ load_constraints units st = st)
  ∨ ∃ value, units ≠ [] ∧ load_constraints units st = set_constraints value st
             ∧ ∀ st0, load_constraints units st0 = set_constraints value st0.
Proof.
  unfold load_constraints. destruct units as [|[k first] rest]; [by left|]. right.
  cbn. destruct first as [| | | | |members];
    try (eexists; split; [done|]; split; [done|]; done).
  destruct (PyDict.get "constraints" members);
    eexists; (split; [done|]); split; done.
Qed.

(** X15. [load_context] overwrites the two component tables, the
    migration plan and the verification rules with what the store holds,
    whatever the state held; it overwrites the constraints only when the
    store has a loadable constraints row and otherwise leaves the
    constraints of the state as they are; and loading a second time
    changes nothing more. *)
Theorem load_context_overwrites st1 st2 :
  ∃ st1' st2',
    loaded st1 = Ok st1' ∧ loaded st2 = Ok st2'
    ∧ v1_components st1' = v1_components st2'
    ∧ v2_components st1' = v2_components st2'
    ∧ migration_plan st1' = migration_plan st2'
    ∧ verification_rules st1' = verification_rules st2'
    ∧ (load_context_units json_loads session "constraints" ≠ [] →
       constraints st1' = constraints st2')
    ∧ (load_context_units json_loads session "constraints" = [] →
       constraints st1' = constraints st1)
    ∧ loaded st1' = Ok st1'.
Proof.
  eexists _, _. split; [apply load_context_eq|]. split; [apply load_context_eq|].
  rewrite load_context_eq.
  destruct (load_constraints_cases
              (load_context_units json_loads session "constraints") st1)
    as [[Hnil Hkeep]|(value & Hsome & Hset & Hall)].
  - rewrite Hnil. cbn. by repeat split.
  - rewrite !Hall. cbn. by repeat split.
Qed.

Lemma attach_doc_spec docs item :
  (attach_doc docs item).1 = item.1
  ∧ match item.2 with
    | JObj members =>
        ∃ members',
          (attach_doc docs item).2 = JObj members'
          ∧ PyDict.get "documentation" members'
            = Some (PyDict.get_default (PyStr.replace ".tsx" "" item.1) (JStr "") docs)
    | other => (attach_doc docs item).2 = other
    end.
Proof.
  unfold attach_doc. destruct item as [key comp]. cbn.
  destruct comp; cbn; try done. split; [done|].
  eexists. split; [done|]. apply dict_get_set_eq.
Qed.

(** X16. After [load_context] every component that is an object carries
    a [documentation] entry: the documentation row filed under the
    component's name with every [.tsx] removed, or the empty text when
    there is none.  A component that is not an object is left as
    loaded. *)
Theorem load_context_attaches_documentation st key comp :
  ∃ st',
    loaded st = Ok st'
    ∧ ((key, comp) ∈ v1_components st' →
       match comp with
       | JObj members =>
           PyDict.get "documentation" members
           = Some (PyDict.get_default (PyStr.replace ".tsx" "" key) (JStr "")
                     (load_context_units json_loads session "v1_docs"))
       | other => (key, other) ∈ load_context_units json_loads session "v1_components"
       end)
    ∧ ((key, comp) ∈ v2_components st' →
       match comp with
       | JObj members =>
           PyDict.get "documentation" members
           = Some (PyDict.get_default (PyStr.replace ".tsx" "" key) (JStr "")
                     (load_context_units json_loads session "v2_docs"))
       | other => (key, other) ∈ load_context_units json_loads session "v2_components"
       end).
Proof.
  eexists. split; [apply load_context_eq|].
  assert (∀ (docs units : PyDict.t json),
    (key, comp) ∈ attach_doc docs <$> units →
    match comp with
    | JObj members =>
        PyDict.get "documentation" members
        = Some (PyDict.get_default (PyStr.replace ".tsx" "" key) (JStr "") docs)
    | other => (key, other) ∈ units
    end) as Hattach.
  { intros docs units (item & Heq & Hitem)%list_elem_of_fmap.
    destruct (attach_doc_spec docs item) as [Hkey Hcomp].
    rewrite <- Heq in Hkey, Hcomp. cbn in Hkey, Hcomp. subst key.
    destruct item as [key0 comp0]. cbn in *.
    destruct comp0; try (subst comp; exact Hitem).
    destruct Hcomp as (members' & -> & Hdoc). exact Hdoc. }
  assert (∀ units st0, v1_components (load_constraints units st0) = v1_components st0
                       ∧ v2_components (load_constraints units st0) = v2_components st0)
    as Hframe.
  { intros units st0.
    destruct (load_constraints_cases units st0) as [[_ ->]|(value & _ & -> & _)]; done. }
  destruct (Hframe (load_context_units json_loads session "constraints")
              (set_verification_rules
                 (JList (PyDict.values (load_context_units json_loads session
                                          "verification_rules")))
                 (set_migration_plan
                    (JList (PyDict.values (load_context_units json_loads session
                                             "migration_plan")))
                    (set_v2_components
                       (attach_doc (load_context_units json_loads session "v2_docs")
                          <$> load_context_units json_loads session "v2_components")
                       (set_v1_components
                          (attach_doc (load_context_units json_loads session "v1_docs")
                             <$> load_context_units json_loads session "v1_components")
                          st))))) as [-> ->].
  cbn. split; apply Hattach.
Qed.
End LoadFacts.

(** ** Running the chain *)
Section RunFacts.
Import Workflow.

Lemma run_from_refused g limit node f st :
  PyDict.get node (nodes g) = Some f → validates st = false →
  run_from g (S limit) node st = ([], Raise "ValidationError").
Proof. intros Hf Hvalid. cbn [run_from]. by rewrite Hf, Hvalid. Qed.

Lemma run_from_step g limit node f st st' next :
  PyDict.get node (nodes g) = Some f → validates st = true → f st = Ok st' →
  successor g node = Some next →
  run_from g (S limit) node st
  = (node :: (run_from g limit next st').1, (run_from g limit next st').2).
Proof. intros Hf Hvalid Hrun Hnext. cbn [run_from]. by rewrite Hf, Hvalid, Hrun, Hnext. Qed.

Lemma run_from_raise g limit node f st e :
  PyDict.get node (nodes g) = Some f → validates st = true → f st = Raise e →
  run_from g (S limit) node st = ([node], Raise e).
Proof. intros Hf Hvalid Hrun. cbn [run_from]. by rewrite Hf, Hvalid, Hrun. Qed.

Lemma run_from_last g limit node f st st' :
  PyDict.get node (nodes g) = Some f → validates st = true → f st = Ok st' →
  successor g node = None →
  run_from g (S (S limit)) node st = ([node], Ok st').
Proof. intros Hf Hvalid Hrun Hnext. cbn [run_from]. by rewrite Hf, Hvalid, Hrun, Hnext. Qed.




Lemma analyze_component_result comp :
  (∃ comp', analyze_component comp = Ok comp' ∧ is_dict comp' = true
            ∧ ∃ members, comp = JObj members)
  ∨ analyze_component comp = Raise "AttributeError".
Proof.
  destruct comp as [| | | | |members]; try by right.
  cbn. unfold extract_props.
  destruct (negb (truthy _)); [left; eauto|].
  destruct (PyDict.get_default _ _ _); try by right. left. eauto.
Qed.

Lemma analyze_all_result components :
  (∃ components',
      analyze_all components = Ok components'
      ∧ forallb is_dict (PyDict.values components') = true
      ∧ ∀ item, item ∈ components → ∃ members, item.2 = JObj members)
  ∨ analyze_all components = Raise "AttributeError".
Proof.
  unfold analyze_all. induction components as [|[key comp] rest IH].
  - left. exists []. split; [done|]. split; [done|]. by intros item ?%elem_of_nil.
  - cbn [mapM]. cbn [fst snd].
    destruct (analyze_component_result comp) as [(comp' & -> & Hdict & members & ->)| ->];
      [|by right].
    cbn. destruct IH as [(rest' & -> & Hdicts & Hall)| ->]; [|by right].
    left. eexists. split; [done|]. split.
    { cbn. rewrite Hdict. exact Hdicts. }
    intros item [->|Hin]%elem_of_cons; [by exists members|by apply Hall].
Qed.

Lemma analyze_components_result st :
  (∃ st', analyze_components st = Ok st' ∧ (validates st = true → validates st' = true))
  ∨ analyze_components st = Raise "AttributeError".
Proof.
  unfold analyze_components.
  destruct (analyze_all_result (v1_components st)) as [(v1 & -> & Hv1 & _)| ->];
    [|by right].
  cbn. destruct (analyze_all_result (v2_components st)) as [(v2 & -> & Hv2 & _)| ->];
    [|by right].
  left. eexists. split; [done|]. unfold validates, PyDict.values in *. cbn.
  rewrite Hv1, Hv2. intros H. repeat (apply andb_true_iff in H as [H ?]).
  repeat (apply andb_true_iff; split); done.
Qed.

Lemma analyze_components_not_object st item :
  item ∈ v1_components st ++ v2_components st →
  (∀ members, item.2 ≠ JObj members) →
  analyze_components st = Raise "AttributeError".
Proof.
  intros Hin Hnot. unfold analyze_components.
  destruct (analyze_all_result (v1_components st)) as [(v1 & Hv1 & _ & Hall1)| ->]; [|done].
  rewrite Hv1. cbn.
  destruct (analyze_all_result (v2_components st)) as [(v2 & Hv2 & _ & Hall2)| ->]; [|done].
  exfalso. apply elem_of_app in Hin as [Hin|Hin].
  - destruct (Hall1 item Hin) as [members Heq]. by apply (Hnot members).
  - destruct (Hall2 item Hin) as [members Heq]. by apply (Hnot members).
Qed.

(** A table that holds a value other than an object does not pass the
    schema. *)
Lemma not_object_refused (components : PyDict.t json) item :
  item ∈ components → is_dict item.2 = false →
  forallb is_dict (PyDict.values components) = false.
Proof.
  intros Hin Hitem. induction components as [|first rest IH]; [by apply elem_of_nil in Hin|].
  change (is_dict first.2 && forallb is_dict (PyDict.values rest) = false).
  apply elem_of_cons in Hin as [<-|Hin]; [by rewrite Hitem|].
  rewrite (IH Hin). apply andb_false_r.
Qed.

Variable json_loads : string -> option json.
Variable cached_llm_invoke : string -> option nat -> string.
Variable render_prompt : string -> list json -> string.
Variable session : list ContextUnit.

Abbreviation workflow :=
  (build_workflow json_loads cached_llm_invoke render_prompt session).

Abbreviation response_to prompt := (cached_llm_invoke prompt None).

(** The generative part of the chain, from a state that passes the
    schema: the four nodes run and a state is returned, or the state one
    of the first three has returned does not pass the schema. *)
Lemma run_from_mapping limit st :
  validates st = true →
  (∃ final,
      run_from workflow (5 + limit) "generate_mapping" st
      = (["generate_mapping"; "generate_constraints"; "generate_plan";
          "generate_verification_rules"], Ok final))
  ∨ ∃ trace,
      run_from workflow (5 + limit) "generate_mapping" st = (trace, Raise "ValidationError")
      ∧ trace ∈ [["generate_mapping"];
                 ["generate_mapping"; "generate_constraints"];
                 ["generate_mapping"; "generate_constraints"; "generate_plan"]].
Proof.
  intros Hvalid. change (5 + limit) with (S (S (S (S (S limit))))).
  erewrite run_from_step;
    [|reflexivity|exact Hvalid|apply generate_mapping_decode|reflexivity]. cbn [snd].
  match goal with
  | |- context [run_from _ _ "generate_constraints" ?s] => destruct (validates s) eqn:E1
  end.
  2: { right. eexists. erewrite run_from_refused; [|reflexivity|exact E1].
       split; [reflexivity|]. left. }
  erewrite run_from_step;
    [|reflexivity|exact E1|apply generate_constraints_decode|reflexivity]. cbn [snd].
  match goal with
  | |- context [run_from _ _ "generate_plan" ?s] => destruct (validates s) eqn:E2
  end.
  2: { right. eexists. erewrite run_from_refused; [|reflexivity|exact E2].
       split; [reflexivity|]. right; left. }
  erewrite run_from_step;
    [|reflexivity|exact E2|apply generate_plan_decode|reflexivity]. cbn [snd].
  match goal with
  | |- context [run_from _ _ "generate_verification_rules" ?s] =>
      destruct (validates s) eqn:E3
  end.
  2: { right. eexists. erewrite run_from_refused; [|reflexivity|exact E3].
       split; [reflexivity|]. right; right; left. }
  erewrite run_from_last;
    [|reflexivity|exact E3|apply generate_verification_rules_decode|reflexivity].
  left. by eexists.
Qed.

(** The run of the whole chain from a state that passes the schema. *)
Lemma run_from_load limit st :
  validates st = true →
  (∃ final, run_from workflow (7 + limit) "load_context" st = (chain, Ok final))
  ∨ (∃ trace,
        run_from workflow (7 + limit) "load_context" st = (trace, Raise "ValidationError")
        ∧ trace ∈ [["load_context"];
                   ["load_context"; "analyze_components"; "generate_mapping"];
                   ["load_context"; "analyze_components"; "generate_mapping";
                    "generate_constraints"];
                   ["load_context"; "analyze_components"; "generate_mapping";
                    "generate_constraints"; "generate_plan"]])
  ∨ run_from workflow (7 + limit) "load_context" st
    = (["load_context"; "analyze_components"], Raise "AttributeError").
Proof.
  intros Hvalid. change (7 + limit) with (S (S (5 + limit))).
  erewrite run_from_step;
    [|reflexivity|exact Hvalid|apply (load_context_eq json_loads session)|reflexivity]. cbn [snd].
  match goal with
  | |- context [run_from _ _ "analyze_components" ?s] =>
      set (loaded := s); destruct (validates loaded) eqn:E1
  end.
  2: { right; left. eexists. erewrite run_from_refused; [|reflexivity|exact E1].
       split; [reflexivity|]. left. }
  destruct (analyze_components_result loaded) as [(analysed_state & Hok & Hkeep)|Hraise].
  2: { right; right. by erewrite run_from_raise; [|reflexivity|exact E1|exact Hraise]. }
  erewrite run_from_step; [|reflexivity|exact E1|exact Hok|reflexivity]. cbn [snd].
  destruct (run_from_mapping limit analysed_state (Hkeep E1))
    as [(final & ->)|(trace & -> & Htrace)].
  - left. by exists final.
  - right; left. eexists. split; [reflexivity|]. cbn [fst].
    repeat (apply elem_of_cons in Htrace as [->|Htrace]);
      [| | |by apply elem_of_nil in Htrace].
    + right; left.
    + right; right; left.
    + right; right; right; left.
Qed.

Lemma invoke_run limit st :
  invoke workflow (S limit) st
  = ((run_from workflow (S limit) "load_context" st).1,
     match (run_from workflow (S limit) "load_context" st).2 with
     | Ok final => Ok (mkValues final)
     | Raise e => Raise e
     end).
Proof. reflexivity. Qed.


(** X18. When the last row of type [v1_components] (or [v2_components])
    of the store holds plain text instead of a JSON object, the state
    [load_context] returns does not pass the schema: the run of the graph
    stops there with [ValidationError], before [analyze_components] and
    before any call of the model; called on that state directly,
    [analyze_components] raises [AttributeError]. *)
Theorem text_component_is_refused limit st type_ unit :
  type_ = "v1_components" ∨ type_ = "v2_components" →
  last (filter (fun unit => type unit = type_) session) = Some unit →
  plain_row unit →
  validates st = true →
  invoke workflow (2 + limit) st = (["load_context"], Raise "ValidationError")
  ∧ ∃ loaded,
      load_context json_loads session st = Ok loaded
      ∧ validates loaded = false
      ∧ analyze_components loaded = Raise "AttributeError".
Proof.
  intros Htype Hlast [Hsq Hbr] Hvalid.
  assert (loaded_value json_loads unit = Some (JStr (content unit))) as Hval.
  { unfold loaded_value. by rewrite Hsq, Hbr. }
  pose proof (load_context_units_last json_loads session type_ unit _ Hlast Hval) as Hget.
  apply dict_get_elem in Hget.
  assert (∀ (docs units : PyDict.t json),
            (name unit, JStr (content unit)) ∈ units →
            (name unit, JStr (content unit)) ∈ attach_doc docs <$> units) as Hkeep.
  { intros docs units Hin.
    apply (list_elem_of_fmap_2' (attach_doc docs) _ (name unit, JStr (content unit)));
      done. }
  assert (∀ units st0,
            v1_components (load_constraints units st0) = v1_components st0
            ∧ v2_components (load_constraints units st0) = v2_components st0) as Hframe.
  { intros units st0.
    destruct (load_constraints_cases units st0) as [[_ ->]|(value & _ & -> & _)]; done. }
  pose proof (load_context_eq json_loads session st) as Hload.
  match type of Hload with
  | _ = Ok ?s => set (loaded := s) in *
  end.
  assert ((name unit, JStr (content unit)) ∈ v1_components loaded ++ v2_components loaded)
    as Hin.
  { unfold loaded.
    match goal with
    | |- _ ∈ v1_components (load_constraints ?u ?s) ++ _ =>
        destruct (Hframe u s) as [-> ->]
    end.
    cbn. apply elem_of_app. destruct Htype as [->| ->]; [left|right]; by apply Hkeep. }
  assert (validates loaded = false) as Hrefused.
  { unfold validates. apply elem_of_app in Hin as [Hin|Hin].
    - by rewrite (not_object_refused _ _ Hin).
    - rewrite (not_object_refused _ _ Hin) by done. by rewrite andb_false_r. }
  split.
  - change (2 + limit) with (S (S limit)). rewrite invoke_run.
    erewrite run_from_step; [|reflexivity|exact Hvalid|exact Hload|reflexivity]. cbn [snd].
    by erewrite run_from_refused; [|reflexivity|exact Hrefused].
  - exists loaded. split; [exact Hload|]. split; [exact Hrefused|].
    by apply (analyze_components_not_object loaded (name unit, JStr (content unit))).
Qed.

(** X27. In a run of the graph, a mapping response that cannot be
    decoded does not stop the chain: from a state that passes the
    schema, [generate_mapping] and then [generate_constraints] are run,
    the latter on the state with the empty component map, and the run
    goes on from [generate_plan] with the state [generate_constraints]
    returned. *)
Theorem failed_mapping_hands_over limit st :
  validates st = true →
  unparsable json_loads (response_to (mapping_prompt render_prompt st)) →
  ∃ st'',
    generate_constraints json_loads cached_llm_invoke render_prompt
      (set_component_map (JObj []) st) = Ok st''
    ∧ run_from workflow (2 + limit) "generate_mapping" st
      = ("generate_mapping" :: "generate_constraints"
           :: (run_from workflow limit "generate_plan" st'').1,
         (run_from workflow limit "generate_plan" st'').2).
Proof.
  intros Hvalid Hbad. eexists. split; [apply generate_constraints_decode|].
  change (2 + limit) with (S (S limit)).
  erewrite run_from_step; [|reflexivity|exact Hvalid| |reflexivity]. cbn [snd].
  2: { rewrite generate_mapping_decode. by rewrite (decode_unparsable _ _ _ Hbad). }
  erewrite run_from_step;
    [|reflexivity|by apply validates_set_component_map
     |apply generate_constraints_decode|reflexivity]. cbn [snd].
  reflexivity.
Qed.
End RunFacts.

(** ** What the chain leaves alone *)
Section FrameFacts.
Import Workflow.

Lemma run_from_invariant g (P : MigrationState → MigrationState → Prop) :
  (∀ st, P st st) →
  (∀ a b c, P a b → P b c → P a c) →
  (∀ node f st st', PyDict.get node (nodes g) = Some f → f st = Ok st' → P st st') →
  ∀ limit node st trace final,
    run_from g limit node st = (trace, Ok final) → P st final.
Proof.
  intros Hrefl Htrans Hnode. induction limit as [|limit IH]; intros node st trace final;
    cbn [run_from]; [done|].
  destruct (PyDict.get node (nodes g)) as [f|] eqn:Ef; [|done].
  destruct (validates st); [|done].
  destruct (f st) as [st'|e] eqn:Erun; [|done].
  destruct (successor g node) as [next|].
  - destruct (run_from g limit next st') as [trace' r] eqn:Erest. cbn.
    intros [= <- ->]. apply (Htrans _ st'); [by apply (Hnode node f)|].
    by apply (IH next st' trace').
  - destruct limit; [done|]. intros [= <- <-]. by apply (Hnode node f).
Qed.

Lemma dict_get_app {V : Type} (d e : PyDict.t V) k v :
  PyDict.get k d = Some v → PyDict.get k (d ++ e) = Some v.
Proof.
  induction d as [|[k0 v0] d IH]; cbn; [done|].
  by destruct (String.eqb k k0).
Qed.

Variable json_loads : string -> option json.
Variable cached_llm_invoke : string -> option nat -> string.
Variable render_prompt : string -> list json -> string.
Variable session : list ContextUnit.

Abbreviation workflow :=
  (build_workflow json_loads cached_llm_invoke render_prompt session).

Lemma chain_node_untouched node f st st' :
  PyDict.get node (nodes workflow) = Some f → f st = Ok st' → untouched st st'.
Proof.
  intros Hnode Hrun.
  assert (∀ field, ¬ same_on field st st' → node ∈ writers field) as Hlisted.
  { intros field Hdiff.
    apply (changes_listed json_loads cached_llm_invoke render_prompt session).
    exists f, st, st'. split; [by apply dict_get_app|]. by split. }
  split; [|split].
  - destruct (decide (current_file st' = current_file st)) as [|Hne]; [done|].
    exfalso. apply (elem_of_nil node), (Hlisted F_current_file). cbn. congruence.
  - destruct (decide (modified_code st' = modified_code st)) as [|Hne]; [done|].
    exfalso. assert (node ∈ writers F_modified_code) as Hin
      by (apply Hlisted; cbn; congruence).
    apply list_elem_of_singleton in Hin. subst node. by cbn in Hnode.
  - destruct (decide (action st' = action st)) as [|Hne]; [done|].
    exfalso. apply (elem_of_nil node), (Hlisted F_action). cbn. congruence.
Qed.

Lemma chain_untouched limit node st trace final :
  run_from workflow limit node st = (trace, Ok final) → untouched st final.
Proof.
  apply (run_from_invariant workflow untouched).
  - by intros st0.
  - intros a b c (H1 & H2 & H3) (H4 & H5 & H6). unfold untouched. by rewrite H4, H5, H6.
  - apply chain_node_untouched.
Qed.

Lemma invoke_untouched limit st trace final :
  invoke workflow limit st = (trace, Ok final) → untouched st (channels final).
Proof.
  destruct limit as [|limit]; [done|]. rewrite invoke_run.
  destruct (run_from workflow (S limit) "load_context" st) as [trace' [final'|e]] eqn:E;
    [|done].
  cbn. intros [= <- <-]. by apply chain_untouched in E.
Qed.

(** X19. A run of the wired chain that returns returns the current
    file, the modified code and the action it was given: the chain
    holds no node that assigns them, so the code of a file or snippet
    passes through unmigrated. *)
Theorem chain_leaves_code_untouched limit st trace final :
  invoke workflow limit st = (trace, Ok final) →
  current_file (channels final) = current_file st
  ∧ modified_code (channels final) = modified_code st
  ∧ action (channels final) = action st.
Proof. apply invoke_untouched. Qed.

Variable resolve : string -> string.
Variable read_file : string -> option string.

Lemma target_state_validates file code : validates (Main.target_state file code) = true.
Proof. reflexivity. Qed.

(** The end of a call of [run_workflow] that runs the graph from a
    state that passes the schema. *)
Lemma run_ends_raising st (report : StateValues → result (option string)) :
  validates st = true →
  let r := Main.run json_loads cached_llm_invoke render_prompt session st in
  let ended := values ← r.2; printed ← Main.print_state values; report values in
  (ended = Raise "AttributeError"
   ∧ (r.1 = chain ∨ r.1 = ["load_context"; "analyze_components"]))
  ∨ (ended = Raise "ValidationError"
     ∧ r.1 ∈ [["load_context"];
              ["load_context"; "analyze_components"; "generate_mapping"];
              ["load_context"; "analyze_components"; "generate_mapping";
               "generate_constraints"];
              ["load_context"; "analyze_components"; "generate_mapping";
               "generate_constraints"; "generate_plan"]]).
Proof.
  intros Hvalid r ended. unfold ended, r, Main.run. rewrite invoke_run.
  destruct (run_from_load json_loads cached_llm_invoke render_prompt session 3 st Hvalid)
    as [(final & H)|[(trace & H & Htrace)|H]];
    change (7 + 3) with 10 in H; rewrite H; cbn.
  - left. split; [done|by left].
  - by right.
  - left. split; [done|by right].
Qed.

(** X20. [run_workflow] never prints migrated code.  It returns before
    the run when the file cannot be read; otherwise it runs the graph
    and ends with an exception: [ValidationError] or [AttributeError]
    out of the run, or, when the run has returned its values after all
    six nodes, [AttributeError] on [result.dict()], the values being a
    plain dictionary. *)
Theorem run_workflow_never_prints args :
  match Main.run_workflow json_loads cached_llm_invoke render_prompt session
          resolve read_file args with
  | Main.NotRun =>
      ∃ path, Main.given (Main.file args) = Some path ∧ read_file (resolve path) = None
  | Main.Ran trace ended =>
      (ended = Raise "AttributeError"
       ∧ (trace = chain ∨ trace = ["load_context"; "analyze_components"]))
      ∨ (ended = Raise "ValidationError"
         ∧ trace ∈ [["load_context"];
                    ["load_context"; "analyze_components"; "generate_mapping"];
                    ["load_context"; "analyze_components"; "generate_mapping";
                     "generate_constraints"];
                    ["load_context"; "analyze_components"; "generate_mapping";
                     "generate_constraints"; "generate_plan"]])
  end.
Proof.
  unfold Main.run_workflow.
  destruct (Main.given (Main.file args)) as [path|] eqn:Hfile.
  - destruct (read_file (resolve path)) as [original_code|] eqn:Hread; [|by exists path].
    apply (run_ends_raising (Main.target_state (resolve path) original_code)
             Main.migrated_code), target_state_validates.
  - destruct (Main.given (Main.code args)) as [snippet|].
    + apply (run_ends_raising (Main.target_state "code_snippet" snippet)
               Main.migrated_code), target_state_validates.
    + by apply (run_ends_raising initial_state (fun _ => Ok None)).
Qed.
End FrameFacts.

(** Six runs of the graph and a call of [run_workflow]: a snippet with
    responses in prose, with responses [[1]], on a store whose component
    is plain text, on a store whose documentation is a list, from a
    state holding a rule that is no object, and with a recursion limit
    of six. *)
Example runs_of_the_graph :
  (∃ final,
      Workflow.invoke
        (Workflow.build_workflow JsonRef.loads Fixtures.prose_llm Fixtures.node_prompt
           Fixtures.object_session) 10
        (Main.target_state "code_snippet" "<modus-alert></modus-alert>")
      = (chain, Ok final))
  ∧ Workflow.invoke
      (Workflow.build_workflow JsonRef.loads Fixtures.list_llm Fixtures.node_prompt
         Fixtures.object_session) 10
      (Main.target_state "code_snippet" "<modus-alert></modus-alert>")
    = (["load_context"; "analyze_components"; "generate_mapping"],
       Raise "ValidationError")
  ∧ Workflow.invoke
      (Workflow.build_workflow JsonRef.loads Fixtures.prose_llm Fixtures.node_prompt
         Fixtures.text_session) 10 Workflow.initial_state
    = (["load_context"], Raise "ValidationError")
  ∧ Workflow.invoke
      (Workflow.build_workflow JsonRef.loads Fixtures.prose_llm Fixtures.node_prompt
         Fixtures.list_doc_session) 10 Workflow.initial_state
    = (["load_context"; "analyze_components"], Raise "AttributeError")
  ∧ Workflow.invoke
      (Workflow.build_workflow JsonRef.loads Fixtures.prose_llm Fixtures.node_prompt
         Fixtures.object_session) 10 Fixtures.snippet_state
    = ([], Raise "ValidationError")
  ∧ Workflow.invoke
      (Workflow.build_workflow JsonRef.loads Fixtures.prose_llm Fixtures.node_prompt
         Fixtures.object_session) 6
      (Main.target_state "code_snippet" "<modus-alert></modus-alert>")
    = (chain, Raise "GraphRecursionError")
  ∧ Main.run_workflow JsonRef.loads Fixtures.prose_llm Fixtures.node_prompt
      Fixtures.object_session id (fun _ => None) Fixtures.snippet_args
    = Main.Ran chain (Raise "AttributeError").
Proof.
  split; [eexists; by vm_compute|]. repeat split; by vm_compute.
Qed.

Lemma chain_leaves_code_untouched_witness :
  ∃ trace final,
    Workflow.invoke
      (Workflow.build_workflow JsonRef.loads Fixtures.prose_llm Fixtures.node_prompt
         Fixtures.object_session) 10
      (Main.target_state "code_snippet" "<modus-alert></modus-alert>")
    = (trace, Ok final)
    ∧ Workflow.modified_code (Workflow.channels final)
      = {[ "code_snippet" := "<modus-alert></modus-alert>" ]}.
Proof.
  destruct (Workflow.invoke
              (Workflow.build_workflow JsonRef.loads Fixtures.prose_llm
                 Fixtures.node_prompt Fixtures.object_session) 10
              (Main.target_state "code_snippet" "<modus-alert></modus-alert>"))
    as [trace [final|e]] eqn:Erun; [|by vm_compute in Erun].
  exists trace, final. split; [done|].
  exact (proj1 (proj2 (chain_leaves_code_untouched JsonRef.loads Fixtures.prose_llm
                         Fixtures.node_prompt Fixtures.object_session 10
                         (Main.target_state "code_snippet" "<modus-alert></modus-alert>")
                         trace final Erun))).
Defined.

Lemma text_component_is_refused_witness :
  ("v1_components" = "v1_components" ∨ "v1_components" = "v2_components")
  ∧ last (filter (fun unit => Workflow.type unit = "v1_components") Fixtures.text_session)
    = Some (Workflow.mkUnit "v1_components" "modus-alert.tsx" "export class ModusAlert")
  ∧ plain_row (Workflow.mkUnit "v1_components" "modus-alert.tsx" "export class ModusAlert")
  ∧ Workflow.validates Workflow.initial_state = true
  ∧ Workflow.invoke
      (Workflow.build_workflow JsonRef.loads Fixtures.list_llm Fixtures.node_prompt
         Fixtures.text_session) 10 Workflow.initial_state
    = (["load_context"], Raise "ValidationError")
  ∧ ∃ loaded,
      Workflow.load_context JsonRef.loads Fixtures.text_session Workflow.initial_state
      = Ok loaded
      ∧ Workflow.validates loaded = false
      ∧ Workflow.analyze_components loaded = Raise "AttributeError".
Proof.
  split; [by left|]. split; [reflexivity|]. split; [by split|]. split; [reflexivity|].
  apply (text_component_is_refused JsonRef.loads Fixtures.list_llm Fixtures.node_prompt
           Fixtures.text_session 8 Workflow.initial_state "v1_components"
           (Workflow.mkUnit "v1_components" "modus-alert.tsx" "export class ModusAlert"));
    [by left|reflexivity|by split|reflexivity].
Defined.

Lemma failed_mapping_hands_over_witness :
  Workflow.validates Fixtures.mapped_state = true
  ∧ Workflow.unparsable JsonRef.loads
      (Fixtures.prose_llm
         (Workflow.mapping_prompt Fixtures.node_prompt Fixtures.mapped_state) None)
  ∧ ∃ rest outcome,
      Workflow.run_from
        (Workflow.build_workflow JsonRef.loads Fixtures.prose_llm Fixtures.node_prompt
           Fixtures.object_session) 8 "generate_mapping" Fixtures.mapped_state
      = ("generate_mapping" :: "generate_constraints" :: rest, outcome).
Proof.
  assert (Workflow.unparsable JsonRef.loads
            (Fixtures.prose_llm
               (Workflow.mapping_prompt Fixtures.node_prompt Fixtures.mapped_state) None))
    as Hbad by by vm_compute.
  split; [reflexivity|]. split; [exact Hbad|].
  destruct (failed_mapping_hands_over JsonRef.loads Fixtures.prose_llm Fixtures.node_prompt
              Fixtures.object_session 6 Fixtures.mapped_state eq_refl Hbad)
    as (st'' & _ & Hrun).
  by eexists _, _.
Defined.

(** ** The analysis, again *)
Section AnalyzeMore.
Import Workflow.

Lemma analyze_component_again comp comp' :
  analyze_component comp = Ok comp' → analyze_component comp' = Ok comp'.
Proof.
  destruct comp as [| | | | |members]; try done. cbn.
  destruct (extract_props (PyDict.get_default "documentation" (JStr "") members))
    as [props|] eqn:E; [|done].
  cbn. intros [= <-]. cbn.
  unfold PyDict.get_default in *. rewrite dict_get_set_ne by done.
  rewrite E. cbn. by rewrite dict_set_set.
Qed.

Lemma analyze_all_again components components' :
  analyze_all components = Ok components' → analyze_all components' = Ok components'.
Proof.
  unfold analyze_all. revert components'.
  induction components as [|[key comp] rest IH]; intros components'; cbn [mapM].
  - by intros [= <-].
  - cbn [fst snd]. destruct (analyze_component comp) as [comp'|] eqn:E; [|done].
    cbn. destruct (mapM _ rest) as [rest'|] eqn:Erest; [|done].
    cbn. intros [= <-]. cbn [mapM fst snd].
    rewrite (analyze_component_again _ _ E). cbn. by rewrite (IH rest' eq_refl).
Qed.

(** X21. [analyze_components] is idempotent: run on a state it has
    returned, it returns that state again. *)
Theorem analyze_components_idempotent st st' :
  analyze_components st = Ok st' → analyze_components st' = Ok st'.
Proof.
  unfold analyze_components.
  destruct (analyze_all (v1_components st)) as [v1|] eqn:E1; [|done]. cbn.
  destruct (analyze_all (v2_components st)) as [v2|] eqn:E2; [|done]. cbn.
  intros [= <-].
  cbn [v1_components v2_components set_v1_components set_v2_components].
  by rewrite (analyze_all_again _ _ E1), (analyze_all_again _ _ E2).
Qed.

Lemma mem_lstrip_by p c s :
  PyStr.mem c (PyStr.lstrip_by p s) = true → PyStr.mem c s = true.
Proof.
  induction s as [|a s IH]; cbn; [done|].
  destruct (p a); [|done]. intros H. rewrite (IH H). apply orb_true_r.
Qed.

Lemma mem_rstrip_by p c s :
  PyStr.mem c (PyStr.rstrip_by p s) = true → PyStr.mem c s = true.
Proof.
  induction s as [|a s IH]; cbn; [done|].
  destruct (PyStr.rstrip_by p s) as [|b kept].
  - destruct (p a); cbn; [done|]. rewrite orb_false_r. by intros ->.
  - cbn in *. intros [->|H]%orb_true_iff; [done|]. rewrite (IH H). apply orb_true_r.
Qed.

Lemma mem_before_first sep s : PyStr.mem sep (PyStr.before_first sep s) = false.
Proof.
  induction s as [|a s IH]; cbn; [done|].
  destruct (Ascii.eqb a sep) eqn:E; [done|]. cbn.
  rewrite IH, orb_false_r. rewrite Ascii.eqb_sym. exact E.
Qed.

(** X22. Every name [extract_props] returns is non-empty, holds no
    colon, neither starts nor ends with a blank, and is neither [props]
    nor [properties] in any letter case. *)
Theorem extracted_names_are_clean doc props prop :
  extract_props doc = Ok props →
  prop ∈ props →
  prop ≠ ""
  ∧ PyStr.mem ":" prop = false
  ∧ trimmed PyStr.is_space prop
  ∧ PyStr.lower prop ≠ "props"
  ∧ PyStr.lower prop ≠ "properties".
Proof.
  intros Hrun Hin.
  assert (∃ text, doc = JStr text) as [text ->].
  { unfold extract_props in Hrun.
    destruct (negb (truthy doc)); [injection Hrun as <-; by apply elem_of_nil in Hin|].
    destruct doc; try done. eauto. }
  destruct (extract_props_text text) as (props' & Hrun' & _ & Hmem).
  rewrite Hrun in Hrun'. injection Hrun' as <-.
  apply Hmem in Hin as (line & _ & _ & _ & -> & Hne & Hp & Hps).
  split; [done|]. split; [|split; [apply strip_by_trimmed|done]].
  destruct (PyStr.mem ":" (PyStr.strip (PyStr.before_first ":" line))) eqn:E; [|done].
  apply mem_rstrip_by, mem_lstrip_by in E. by rewrite mem_before_first in E.
Qed.
End AnalyzeMore.

Lemma analyze_components_idempotent_witness :
  ∃ st',
    Workflow.analyze_components (Fixtures.doc_state "size property: the size") = Ok st'
    ∧ Workflow.analyze_components st' = Ok st'.
Proof.
  destruct (Workflow.analyze_components (Fixtures.doc_state "size property: the size"))
    as [st'|e] eqn:E; [|by vm_compute in E].
  exists st'. split; [done|].
  exact (analyze_components_idempotent (Fixtures.doc_state "size property: the size")
           st' E).
Defined.

Lemma extracted_names_are_clean_witness :
  Workflow.extract_props (JStr " size property: S") = Ok ["size property"]
  ∧ "size property" ∈ ["size property"]
  ∧ PyStr.mem ":" "size property" = false.
Proof.
  assert (Workflow.extract_props (JStr " size property: S") = Ok ["size property"]) as Hrun
    by by vm_compute.
  assert ("size property" ∈ ["size property"]) as Hin by left.
  split; [exact Hrun|]. split; [exact Hin|].
  exact (proj1 (proj2 (extracted_names_are_clean (JStr " size property: S")
                         ["size property"] "size property" Hrun Hin))).
Defined.

(** ** Decoding bracketed responses *)
Section DecodeFacts.
Import Workflow.

Variable json_loads : string -> option json.

Lemma bracket_kept a :
  PyStr.mem a "[{" = true ∨ PyStr.mem a "]}" = true → kept_by_cleaning a = true.
Proof.
  intros [H|H]; cbn in H; rewrite !orb_true_iff, !Ascii.eqb_eq in H;
    destruct H as [->|[->|?]]; done.
Qed.

(** X23. A response whose body opens with a square or curly bracket and
    closes with one, as a JSON list or object does, is decoded alike
    whether it comes bare or between fences (with or without a language
    tag made of fence characters): the stage stores what [json.loads]
    returns for the body, or its default when that raises.  Whatever the
    response, the text handed to [json.loads] has no blank at either
    end. *)
Theorem bracketed_response_decodes a rest z tag dflt :
  let body := String a rest in
  last_char body = Some z →
  PyStr.mem a "[{" = true →
  PyStr.mem z "]}" = true →
  all_chars (fun c => PyStr.mem c ("```json" +:+ PyStr.NL)) tag = true →
  decode json_loads body dflt = default dflt (json_loads body)
  ∧ decode json_loads (fenced tag body) dflt = decode json_loads body dflt
  ∧ ∀ response, trimmed PyStr.is_space (clean_response response).
Proof.
  intros body Hlast Ha Hz Htag.
  destruct (clean_response_fenced a rest z tag Hlast) as [Hbare Hfenced];
    [apply bracket_kept; by left|apply bracket_kept; by right|done|].
  fold body in Hbare, Hfenced. unfold decode. rewrite Hbare, Hfenced.
  split; [by destruct (json_loads body)|]. split; [done|].
  intros response. apply strip_by_trimmed.
Qed.
End DecodeFacts.

Lemma bracketed_response_decodes_witness :
  last_char "[1]" = Some "]"%char
  ∧ PyStr.mem "[" "[{" = true
  ∧ PyStr.mem "]" "]}" = true
  ∧ all_chars (fun c => PyStr.mem c ("```json" +:+ PyStr.NL)) "json" = true
  ∧ Workflow.decode JsonRef.loads (fenced "json" "[1]") (JList [])
    = Workflow.decode JsonRef.loads "[1]" (JList []).
Proof.
  split; [reflexivity|]. split; [reflexivity|]. split; [reflexivity|].
  split; [reflexivity|].
  exact (proj1 (proj2 (bracketed_response_decodes JsonRef.loads "[" "1]" "]" "json"
                         (JList []) eq_refl eq_refl eq_refl eq_refl))).
Defined.

(** ** The fenced block of a migration response *)
Section FenceFacts.
Import Workflow.


Lemma startswith_true p s : PyStr.startswith p s = true ↔ ∃ rest, s = p +:+ rest.
Proof.
  unfold PyStr.startswith. split.
  - destruct (PyStr.after_prefix p s) as [rest|] eqn:E; [|done].
    intros _. exists rest. by apply after_prefix_Some.
  - intros [rest Hs]. apply after_prefix_Some in Hs. by rewrite Hs.
Qed.

Lemma before_sub_spec sub s group :
  before_sub sub s = Some group → ∃ tail, s = group +:+ sub +:+ tail.
Proof.
  revert group. induction s as [|c rest IH]; intros group; cbn.
  - destruct (PyStr.startswith sub "") eqn:E; [|done].
    intros [= <-]. by apply startswith_true in E.
  - destruct (PyStr.startswith sub (String c rest)) eqn:E.
    + intros [= <-]. by apply startswith_true in E.
    + destruct (before_sub sub rest) as [group'|]; [|done].
      cbn. intros [= <-]. destruct (IH group' eq_refl) as [tail ->]. by exists tail.
Qed.

Lemma before_sub_no_sub sub s group :
  sub ≠ "" → before_sub sub s = Some group → PyStr.contains sub group = false.
Proof.
  intros Hsub. revert group. induction s as [|c rest IH]; intros group; cbn [before_sub].
  - destruct (PyStr.startswith sub "") eqn:E; [|done].
    intros [= <-]. cbn. rewrite orb_false_r.
    apply startswith_true in E as [tail E]. by destruct sub.
  - destruct (PyStr.startswith sub (String c rest)) eqn:E.
    + intros [= <-]. cbn. rewrite orb_false_r.
      destruct (PyStr.startswith sub "") eqn:E'; [|done].
      apply startswith_true in E' as [tail E']. by destruct sub.
    + destruct (before_sub sub rest) as [group'|] eqn:Erest; [|done].
      cbn [fmap option_fmap option_map]. intros [= <-].
      cbn [PyStr.contains]. rewrite (IH group' eq_refl), orb_false_r.
      destruct (PyStr.startswith sub (String c group')) eqn:E2; [|done].
      apply startswith_true in E2 as [x Hx].
      destruct (before_sub_spec _ _ _ Erest) as [tail ->].
      assert (PyStr.startswith sub (String c (group' +:+ sub +:+ tail)) = true) as Habs.
      { apply startswith_true. exists (x +:+ sub +:+ tail).
        change (String c (group' +:+ sub +:+ tail))
          with (String c group' +:+ sub +:+ tail).
        by rewrite Hx, string_app_assoc. }
      congruence.
Qed.

Lemma match_fence_spec s group :
  match_fence s = Some group →
  PyStr.startswith "```" s = true ∧ ∃ body, before_sub "```" body = Some group.
Proof.
  unfold match_fence, PyStr.startswith.
  destruct (PyStr.after_prefix "```" s) as [rest|]; [|done].
  intros H. split; [done|].
  destruct (PyStr.after_prefix "html" rest) as [rest'|].
  - destruct (PyStr.after_prefix PyStr.NL rest') as [body|].
    + destruct (before_sub "```" body) as [g|] eqn:E.
      * injection H as <-. eauto.
      * destruct (PyStr.after_prefix PyStr.NL rest) as [body'|]; [eauto|done].
    + destruct (PyStr.after_prefix PyStr.NL rest) as [body'|]; [eauto|done].
  - destruct (PyStr.after_prefix PyStr.NL rest) as [body'|]; [eauto|done].
Qed.

Lemma search_fence_spec s group :
  search_fence s = Some group →
  PyStr.contains "```" s = true ∧ PyStr.contains "```" group = false.
Proof.
  induction s as [|c rest IH]; cbn [search_fence].
  - destruct (match_fence "") as [g|] eqn:E; [|done]. by apply match_fence_spec in E as [? _].
  - destruct (match_fence (String c rest)) as [g|] eqn:E.
    + intros [= <-]. apply match_fence_spec in E as [Hstart (body & Hbody)].
      split; [cbn [PyStr.contains]; by rewrite Hstart|].
      by apply (before_sub_no_sub "```" body).
    + intros H. destruct (IH H) as [Hin Hout]. split; [|done].
      cbn [PyStr.contains]. rewrite Hin. apply orb_true_r.
Qed.

(** X24. The block [migrate_code] takes from a response holds no fence:
    it ends at the first closing fence.  A response without any fence
    has no block, and the whole response is taken. *)
Theorem fenced_block_holds_no_fence response :
  (∀ group, search_fence response = Some group →
            PyStr.contains "```" group = false)
  ∧ (PyStr.contains "```" response = false → search_fence response = None).
Proof.
  split.
  - intros group H. by apply search_fence_spec in H as [_ ?].
  - intros Hno. destruct (search_fence response) as [group|] eqn:E; [|done].
    apply search_fence_spec in E as [Hin _]. congruence.
Qed.

Variable json_loads : string -> option json.
Variable cached_llm_invoke : string -> option nat -> string.
Variable render_prompt : string -> list json -> string.

Lemma migrate_code_cases st :
  match current_code st with
  | None => migrate_code cached_llm_invoke render_prompt st = Ok st
  | Some (file, original_code) =>
      ∃ migrated,
        migrate_code cached_llm_invoke render_prompt st
        = Ok (set_modified_code (<[file := migrated]> (modified_code st)) st)
        ∧ migrated
          = PyStr.strip
              (default
                 (cached_llm_invoke (migrate_prompt render_prompt st original_code)
                    (Some 4096))
                 (search_fence
                    (cached_llm_invoke (migrate_prompt render_prompt st original_code)
                       (Some 4096))))
        ∧ current_file st = Some file
  end.
Proof.
  unfold migrate_code. destruct (current_code st) as [[file code]|] eqn:E; [|done].
  eexists. split; [reflexivity|]. split.
  - by destruct (search_fence _).
  - unfold current_code in E. destruct (current_file st) as [f|]; [|done].
    destruct (String.eqb f ""); [done|].
    destruct (modified_code st !! f) as [c|]; [|done].
    destruct (String.eqb c ""); [done|]. by injection E as -> _.
Qed.

(** X25. [migrate_code] returns the state as it is when the current
    file is missing or empty, or holds no code or empty code.  Otherwise
    it replaces the code of the current file, and of no other file, by
    the fenced block of the response, or the whole response when there is
    none, without the blanks around it; no other field changes. *)
Theorem migrate_code_replaces_current_file st :
  ∃ st',
    migrate_code cached_llm_invoke render_prompt st = Ok st'
    ∧ (∀ f, f ≠ F_modified_code → same_on f st st')
    ∧ match current_code st with
      | None => st' = st
      | Some (file, original_code) =>
          current_file st = Some file
          ∧ (∃ migrated, modified_code st' !! file = Some migrated
                         ∧ trimmed PyStr.is_space migrated)
          ∧ ∀ other, other ≠ file → modified_code st' !! other = modified_code st !! other
      end.
Proof.
  pose proof (migrate_code_cases st) as H.
  destruct (current_code st) as [[file code]|].
  - destruct H as (migrated & Hrun & Hmig & Hfile). eexists. split; [exact Hrun|].
    split; [by intros []|]. split; [done|]. split.
    + exists migrated. cbn. rewrite lookup_insert_eq. split; [done|].
      rewrite Hmig. apply strip_by_trimmed.
    + intros other Hne. cbn. by rewrite lookup_insert_ne.
  - exists st. split; [done|]. split; [by intros []|done].
Qed.

(** X26. When the response leaves nothing but blanks, [migrate_code]
    stores the empty text for the current file; from then on the state
    counts as holding no code, and [verify_migration] and a further
    [migrate_code] return it unchanged, whatever the collaborators. *)
Theorem emptied_code_stops_the_tail st st' file :
  migrate_code cached_llm_invoke render_prompt st = Ok st' →
  current_file st = Some file →
  modified_code st' !! file = Some "" →
  ∀ json_loads' cached_llm_invoke' render_prompt',
    verify_migration json_loads' cached_llm_invoke' render_prompt' st' = Ok st'
    ∧ migrate_code cached_llm_invoke' render_prompt' st' = Ok st'.
Proof.
  intros Hrun Hfile Hcode.
  assert (current_file st' = Some file) as Hfile'.
  { pose proof (migrate_code_cases st) as H.
    destruct (current_code st) as [[f c]|].
    - destruct H as (m & Hm & _). rewrite Hm in Hrun. by injection Hrun as <-.
    - rewrite H in Hrun. by injection Hrun as <-. }
  assert (current_code st' = None) as Hnone.
  { unfold current_code. rewrite Hfile'. destruct (String.eqb file ""); [done|].
    by rewrite Hcode. }
  intros jl' llm' rp'. unfold verify_migration, migrate_code. by rewrite Hnone.
Qed.
End FenceFacts.

Lemma emptied_code_stops_the_tail_witness :
  ∃ st',
    Workflow.migrate_code Fixtures.blank_llm Fixtures.node_prompt Fixtures.snippet_state = Ok st'
    ∧ Workflow.current_file Fixtures.snippet_state = Some "code_snippet"
    ∧ Workflow.modified_code st' !! "code_snippet" = Some ""
    ∧ Workflow.verify_migration JsonRef.loads Fixtures.list_llm Fixtures.node_prompt st'
      = Ok st'.
Proof.
  destruct (Workflow.migrate_code Fixtures.blank_llm Fixtures.node_prompt Fixtures.snippet_state)
    as [st'|e] eqn:Erun; [|by vm_compute in Erun].
  assert (Workflow.modified_code st' !! "code_snippet" = Some "") as Hcode.
  { vm_compute in Erun. injection Erun as <-. by vm_compute. }
  exists st'. split; [done|]. split; [done|]. split; [exact Hcode|].
  exact (proj1 (emptied_code_stops_the_tail Fixtures.blank_llm Fixtures.node_prompt
                  Fixtures.snippet_state st' "code_snippet" Erun eq_refl Hcode
                  JsonRef.loads Fixtures.list_llm Fixtures.node_prompt)).
Defined.

Example migrate_code_takes_the_block :
  (λ st', Workflow.modified_code st' !! "code_snippet")
    <$> match Workflow.migrate_code Fixtures.fenced_llm Fixtures.node_prompt Fixtures.snippet_state with
        | Ok st' => Some st'
        | Raise _ => None
        end
  = Some (Some "<modus-wc-alert></modus-wc-alert>").
Proof. by vm_compute. Qed.
